(** * UNet2DConditionModel: block assembly and skip-tensor flow

    A shallow embedding of
    [tensorrt_llm/models/unet/unet_2d_condition.py]:
    the constructor [__init__], which wires the down path, the mid block
    and the up path from the hyper-parameters, and [forward], which
    threads the sample through them with the tuple
    [down_block_res_samples] carrying the skip tensors.

    The tensor library, the layers and the block classes of
    [unet_2d_blocks] are collaborators: they appear as fields of the
    records [TensorLib] and [Layers], never as definitions. *)

From Stdlib Require Import ZArith List String Bool Lia DecimalString.
Import ListNotations.
Open Scope string_scope.
Open Scope list_scope.
Open Scope Z_scope.

Set Implicit Arguments.

(** * Exceptions and the result monad *)

(** What a statement of the model file can raise by itself, plus [Raised]
    for whatever a collaborator (a block, a block factory) raised. *)
Inductive exn (E : Type) : Type :=
| IndexError
| AssertionError
| AttributeError
| Raised (e : E).

Arguments IndexError {E}.
Arguments AssertionError {E}.
Arguments AttributeError {E}.

Inductive result (E A : Type) : Type :=
| Ok (a : A)
| Err (e : exn E).

Arguments Ok {E A} a.
Arguments Err {E A} e.

Definition bind {E A B} (c : result E A) (k : A -> result E B) : result E B :=
  match c with
  | Ok a => k a
  | Err e => Err e
  end.

Notation "x <- c ;; k" := (bind c (fun x => k))
  (at level 61, c at next level, right associativity).
Notation "' p <- c ;; k" := (bind c (fun x => match x with p => k end))
  (at level 61, p pattern, c at next level, right associativity).

(** A collaborator's call: its exception, if any, propagates unchanged. *)
Definition call {E A} (r : E + A) : result E A :=
  match r with
  | inl e => Err (Raised e)
  | inr a => Ok a
  end.

(** Reading an attribute that [__init__] may not have set. *)
Definition getattr {E A} (a : option A) : result E A :=
  match a with
  | Some x => Ok x
  | None => Err AttributeError
  end.

Definition is_ok {E A} (r : result E A) : bool :=
  match r with Ok _ => true | Err _ => false end.

(** * Python sequences *)

Module Py.

Definition len {A} (l : list A) : Z := Z.of_nat (List.length l).

(** [l[i]]: a negative index counts from the end; out of range raises. *)
Definition getitem {E A} (l : list A) (i : Z) : result E A :=
  let j := if i <? 0 then i + len l else i in
  if (j <? 0) || (len l <=? j) then Err IndexError
  else match nth_error l (Z.to_nat j) with
       | Some x => Ok x
       | None => Err IndexError
       end.

(** The bound of a slice: negative counts from the end, then clipped to
    [0 .. len l]. Slicing never raises. *)
Definition slice_bound {A} (l : list A) (i : Z) : nat :=
  Z.to_nat (if i <? 0 then Z.max (i + len l) 0 else Z.min i (len l)).

(** [l[start:]] *)
Definition slice_from {A} (l : list A) (start : Z) : list A :=
  skipn (slice_bound l start) l.

(** [l[:stop]] *)
Definition slice_to {A} (l : list A) (stop : Z) : list A :=
  firstn (slice_bound l stop) l.

(** [l * n] *)
Definition mul {A} (l : list A) (n : Z) : list A :=
  List.concat (repeat l (Z.to_nat n)).

(** [enumerate(l)] *)
Fixpoint enumerate_from {A} (i : Z) (l : list A) : list (Z * A) :=
  match l with
  | [] => []
  | x :: l' => (i, x) :: enumerate_from (i + 1) l'
  end.

Definition enumerate {A} (l : list A) : list (Z * A) := enumerate_from 0 l.

End Py.

(** * Collaborators *)

(** The primitive tensor operations [forward] calls directly. *)
Record TensorLib (T DType : Type) : Type := {
  view : T -> list Z -> T;          (* t.view(shape) *)
  shape0 : T -> Z;                  (* t.shape[0] *)
  concat : list T -> Z -> T;        (* concat(ts, dim) *)
  dtype_of : T -> DType;            (* t.dtype *)
  cast : T -> DType -> T;           (* cast(t, dtype) *)
  add : T -> T -> T;                (* t + u *)
}.

(** A down block as [forward] sees it: whether it has a non-[None]
    [attentions] attribute, and its call, which returns the new sample and
    the tuple of residual samples. [encoder_hidden_states] is passed only
    to blocks with attentions. *)
Record DownBlock (T E : Type) : Type := {
  down_attentions : bool;
  down_call : T -> T -> option T -> E + (T * list T);
}.

(** An up block as [forward] sees it: [len(block.resnets)], the
    [attentions] test, and its call on the sample, the embedding, the
    tuple of residual samples and the optional encoder states. *)
Record UpBlock (T E : Type) : Type := {
  up_resnets : nat;
  up_attentions : bool;
  up_call : T -> T -> list T -> option T -> E + T;
}.

(** The attributes [__init__] sets on [self]. [add_time_proj] and
    [add_embedding] exist only when the model was built in "text_time"
    mode. *)
Record Model (T E : Type) : Type := {
  self_addition_embed_type : option string;
  conv_in : T -> T;
  time_proj : T -> T;
  time_embedding : T -> T;
  add_time_proj : option (T -> T);
  add_embedding : option (T -> T);
  down_blocks : list (DownBlock T E);
  mid_block : T -> T -> T -> E + T;
  up_blocks : list (UpBlock T E);
  conv_norm_out : T -> T;
  conv_act : T -> T;
  conv_out : T -> T;
}.

Definition is_text_time (mode : option string) : bool :=
  match mode with
  | Some s => String.eqb s "text_time"
  | None => false
  end.

(** * forward *)

Section Forward.

Context {T E DType : Type}.
Variable lib : TensorLib T DType.

(** Lines 190-202: the embedding shared by every block. *)
Definition embedding (self : Model T E) (timesteps : T)
    (text_embeds time_ids : option T) : result E T :=
  let t_emb := time_proj self timesteps in
  let emb := time_embedding self t_emb in
  aug_emb <-
    (if is_text_time (self_addition_embed_type self) then
       match text_embeds, time_ids with
       | Some text_embeds, Some time_ids =>
           add_time_proj <- getattr (add_time_proj self) ;;
           let time_embeds := add_time_proj (view lib time_ids [-1]) in
           let time_embeds :=
             view lib time_embeds [shape0 lib text_embeds; -1] in
           let add_embeds := concat lib [text_embeds; time_embeds] 1 in
           let add_embeds := cast lib add_embeds (dtype_of lib emb) in
           add_embedding <- getattr (add_embedding self) ;;
           Ok (Some (add_embedding add_embeds))
       | _, _ => Err AssertionError
       end
     else Ok None) ;;
  Ok (match aug_emb with
      | Some aug_emb => add lib emb aug_emb
      | None => emb
      end).

(** Lines 207-220: each down block's residual samples are appended to
    [down_block_res_samples]. *)
Fixpoint down_path (blocks : list (DownBlock T E)) (emb enc : T)
    (sample : T) (down_block_res_samples : list T)
    : result E (T * list T) :=
  match blocks with
  | [] => Ok (sample, down_block_res_samples)
  | downsample_block :: blocks' =>
      '(sample', res_samples) <-
        call (down_call downsample_block sample emb
                (if down_attentions downsample_block
                 then Some enc else None)) ;;
      down_path blocks' emb enc sample'
        (down_block_res_samples ++ res_samples)
  end.

(** Lines 228-230: the two slices taken before an up block is called. *)
Definition pop_res_samples (resnets : nat) (down_block_res_samples : list T)
    : list T * list T :=
  let n := Z.of_nat resnets in
  (Py.slice_from down_block_res_samples (- n),
   Py.slice_to down_block_res_samples (- n)).

(** Lines 226-243. The third component is a ghost log: the tuple
    [res_samples] handed to each up block, in call order. *)
Fixpoint up_path (blocks : list (UpBlock T E)) (emb enc : T)
    (sample : T) (down_block_res_samples : list T)
    : result E (T * list T * list (list T)) :=
  match blocks with
  | [] => Ok (sample, down_block_res_samples, [])
  | upsample_block :: blocks' =>
      let '(res_samples, down_block_res_samples') :=
        pop_res_samples (up_resnets upsample_block) down_block_res_samples in
      sample' <-
        call (up_call upsample_block sample emb res_samples
                (if up_attentions upsample_block
                 then Some enc else None)) ;;
      '(out, rest, handed) <-
        up_path blocks' emb enc sample' down_block_res_samples' ;;
      Ok (out, rest, res_samples :: handed)
  end.

(** What one call of [forward] goes through. *)
Record Trace : Type := {
  tr_emb : T;                      (* the embedding handed to every block *)
  tr_conv_in : T;                  (* the output of [conv_in] *)
  tr_skip_stack : list T;          (* the tuple after the down path *)
  tr_handed : list (list T);       (* [res_samples] of each up block *)
  tr_residue : list T;             (* the tuple after the up path *)
  tr_output : T;                   (* the returned sample *)
}.

Definition forward_trace (self : Model T E)
    (sample timesteps encoder_hidden_states : T)
    (text_embeds time_ids : option T) : result E Trace :=
  emb <- embedding self timesteps text_embeds time_ids ;;
  let sample0 := conv_in self sample in
  '(sample1, stack) <-
    down_path (down_blocks self) emb encoder_hidden_states
      sample0 [sample0] ;;
  sample2 <- call (mid_block self sample1 emb encoder_hidden_states) ;;
  '(sample3, residue, handed) <-
    up_path (up_blocks self) emb encoder_hidden_states sample2 stack ;;
  let sample4 := conv_norm_out self sample3 in
  let sample5 := conv_act self sample4 in
  let sample6 := conv_out self sample5 in
  Ok {| tr_emb := emb; tr_conv_in := sample0; tr_skip_stack := stack;
        tr_handed := handed; tr_residue := residue;
        tr_output := sample6 |}.

(** Lines 183-249. *)
Definition forward (self : Model T E)
    (sample timesteps encoder_hidden_states : T)
    (text_embeds time_ids : option T) : result E T :=
  emb <- embedding self timesteps text_embeds time_ids ;;
  let sample := conv_in self sample in
  '(sample, down_block_res_samples) <-
    down_path (down_blocks self) emb encoder_hidden_states
      sample [sample] ;;
  sample <- call (mid_block self sample emb encoder_hidden_states) ;;
  '(sample, _, _) <-
    up_path (up_blocks self) emb encoder_hidden_states
      sample down_block_res_samples ;;
  let sample := conv_norm_out self sample in
  let sample := conv_act self sample in
  let sample := conv_out self sample in
  Ok sample.

End Forward.

(** * The constructor *)

(** [attention_head_dim] and [transformer_layers_per_block] are an [int] or
    a sequence. *)
Inductive int_or_seq : Type :=
| Int (n : Z)
| Seq (l : list Z).

(** The parameters of [__init__]. *)
Record Config (DType Float : Type) : Type := {
  sample_size : option Z;
  in_channels : Z;
  out_channels : Z;
  center_input_sample : bool;
  flip_sin_to_cos : bool;
  freq_shift : Z;
  down_block_types : list string;
  up_block_types : list string;
  block_out_channels : list Z;
  layers_per_block : Z;
  downsample_padding : Z;
  mid_block_scale_factor : Float;
  act_fn : string;
  norm_num_groups : Z;
  norm_eps : Float;
  cross_attention_dim : Z;
  transformer_layers_per_block : int_or_seq;
  attention_head_dim : int_or_seq;
  use_linear_projection : bool;
  addition_embed_type : option string;
  addition_time_embed_dim : option Z;
  projection_class_embeddings_input_dim : option Z;
  dtype : option DType;
}.

(** The keyword arguments of one [get_down_block] call (lines 105-119). *)
Record DownBlockArgs (DType Float : Type) : Type := {
  da_down_block_type : string;
  da_num_layers : Z;
  da_transformer_layers_per_block : Z;
  da_in_channels : Z;
  da_out_channels : Z;
  da_temb_channels : Z;
  da_add_downsample : bool;
  da_resnet_eps : Float;
  da_resnet_act_fn : string;
  da_cross_attention_dim : Z;
  da_attn_num_head_channels : Z;
  da_downsample_padding : Z;
  da_use_linear_projection : bool;
  da_dtype : option DType;
}.

(** The keyword arguments of the [UNetMidBlock2DCrossAttn] call
    (lines 123-136). *)
Record MidBlockArgs (DType Float : Type) : Type := {
  ma_in_channels : Z;
  ma_temb_channels : Z;
  ma_resnet_eps : Float;
  ma_resnet_act_fn : string;
  ma_output_scale_factor : Float;
  ma_transformer_layers_per_block : Z;
  ma_resnet_time_scale_shift : string;
  ma_cross_attention_dim : Z;
  ma_attn_num_head_channels : Z;
  ma_resnet_groups : Z;
  ma_use_linear_projection : bool;
  ma_dtype : option DType;
}.

(** The keyword arguments of one [get_up_block] call (lines 152-168). *)
Record UpBlockArgs (DType Float : Type) : Type := {
  ua_up_block_type : string;
  ua_num_layers : Z;
  ua_transformer_layers_per_block : Z;
  ua_in_channels : Z;
  ua_out_channels : Z;
  ua_prev_output_channel : Z;
  ua_temb_channels : Z;
  ua_add_upsample : bool;
  ua_resnet_eps : Float;
  ua_resnet_act_fn : string;
  ua_cross_attention_dim : Z;
  ua_attn_num_head_channels : Z;
  ua_use_linear_projection : bool;
  ua_dtype : option DType;
}.

(** The layer classes and block factories [__init__] calls. The two
    factories can raise (an unknown block type); the layer constructors are
    taken as total. *)
Record Layers (T E DType Float : Type) : Type := {
  Conv2d : Z -> Z -> Z * Z -> Z * Z -> option DType -> T -> T;
  Timesteps : option Z -> bool -> Z -> option DType -> T -> T;
  TimestepEmbedding : option Z -> Z -> option DType -> T -> T;
  GroupNorm : Z -> Z -> Float -> option DType -> T -> T;
  silu : T -> T;
  UNetMidBlock2DCrossAttn : MidBlockArgs DType Float -> T -> T -> T -> E + T;
  get_down_block : DownBlockArgs DType Float -> E + DownBlock T E;
  get_up_block : UpBlockArgs DType Float -> E + UpBlock T E;
}.

(** Lines 91-96: an [int] becomes one entry per down block type; a
    sequence is kept as it is. *)
Definition per_stage (v : int_or_seq) (down_block_types : list string)
    : list Z :=
  match v with
  | Int n => Py.mul [n] (Py.len down_block_types)
  | Seq l => l
  end.

Section Init.

Context {T E DType Float : Type}.

Local Abbreviation Config := (Config DType Float).
Local Abbreviation DownBlockArgs := (DownBlockArgs DType Float).
Local Abbreviation UpBlockArgs := (UpBlockArgs DType Float).
Local Abbreviation MidBlockArgs := (MidBlockArgs DType Float).

(** Lines 100-120, over [enumerate(down_block_types)] with the running
    [output_channel]; [mk] stands for the factory call. *)
Fixpoint down_loop {B} (mk : DownBlockArgs -> result E B) (c : Config)
    (time_embed_dim : Z)
    (transformer_layers_per_block attention_head_dim : list Z)
    (stages : list (Z * string)) (output_channel : Z)
    : result E (list B) :=
  match stages with
  | [] => Ok []
  | (i, down_block_type) :: stages' =>
      let input_channel := output_channel in
      output_channel <- Py.getitem (block_out_channels c) i ;;
      let is_final_block := i =? Py.len (block_out_channels c) - 1 in
      tl <- Py.getitem transformer_layers_per_block i ;;
      ah <- Py.getitem attention_head_dim i ;;
      down_block <- mk {|
        da_down_block_type := down_block_type;
        da_num_layers := layers_per_block c;
        da_transformer_layers_per_block := tl;
        da_in_channels := input_channel;
        da_out_channels := output_channel;
        da_temb_channels := time_embed_dim;
        da_add_downsample := negb is_final_block;
        da_resnet_eps := norm_eps c;
        da_resnet_act_fn := act_fn c;
        da_cross_attention_dim := cross_attention_dim c;
        da_attn_num_head_channels := ah;
        da_downsample_padding := downsample_padding c;
        da_use_linear_projection := use_linear_projection c;
        da_dtype := dtype c |} ;;
      down_blocks <- down_loop mk c time_embed_dim
        transformer_layers_per_block attention_head_dim
        stages' output_channel ;;
      Ok (down_block :: down_blocks)
  end.

(** Lines 123-136, the arguments in evaluation order. *)
Definition mid_block_args (c : Config) (time_embed_dim : Z)
    (transformer_layers_per_block attention_head_dim : list Z)
    : result E MidBlockArgs :=
  ch <- Py.getitem (block_out_channels c) (-1) ;;
  tl <- Py.getitem transformer_layers_per_block (-1) ;;
  ah <- Py.getitem attention_head_dim (-1) ;;
  Ok {| ma_in_channels := ch;
        ma_temb_channels := time_embed_dim;
        ma_resnet_eps := norm_eps c;
        ma_resnet_act_fn := act_fn c;
        ma_output_scale_factor := mid_block_scale_factor c;
        ma_transformer_layers_per_block := tl;
        ma_resnet_time_scale_shift := "default";
        ma_cross_attention_dim := cross_attention_dim c;
        ma_attn_num_head_channels := ah;
        ma_resnet_groups := norm_num_groups c;
        ma_use_linear_projection := use_linear_projection c;
        ma_dtype := dtype c |}.

(** Lines 143-170, over [enumerate(up_block_types)] with the running
    [output_channel]. The assignment of line 170 is overwritten by line
    144 before it is read. *)
Fixpoint up_loop {B} (mk : UpBlockArgs -> result E B) (c : Config)
    (time_embed_dim : Z)
    (reversed_block_out_channels reversed_transformer_layers_per_block
       reversed_attention_head_dim : list Z)
    (stages : list (Z * string)) (output_channel : Z)
    : result E (list B) :=
  match stages with
  | [] => Ok []
  | (i, up_block_type) :: stages' =>
      let prev_output_channel := output_channel in
      output_channel <- Py.getitem reversed_block_out_channels i ;;
      input_channel <-
        Py.getitem reversed_block_out_channels
          (Z.min (i + 1) (Py.len (block_out_channels c) - 1)) ;;
      let is_final_block := i =? Py.len (block_out_channels c) - 1 in
      tl <- Py.getitem reversed_transformer_layers_per_block i ;;
      ah <- Py.getitem reversed_attention_head_dim i ;;
      up_block <- mk {|
        ua_up_block_type := up_block_type;
        ua_num_layers := layers_per_block c + 1;
        ua_transformer_layers_per_block := tl;
        ua_in_channels := input_channel;
        ua_out_channels := output_channel;
        ua_prev_output_channel := prev_output_channel;
        ua_temb_channels := time_embed_dim;
        ua_add_upsample := negb is_final_block;
        ua_resnet_eps := norm_eps c;
        ua_resnet_act_fn := act_fn c;
        ua_cross_attention_dim := cross_attention_dim c;
        ua_attn_num_head_channels := ah;
        ua_use_linear_projection := use_linear_projection c;
        ua_dtype := dtype c |} ;;
      up_blocks <- up_loop mk c time_embed_dim
        reversed_block_out_channels reversed_transformer_layers_per_block
        reversed_attention_head_dim stages' output_channel ;;
      Ok (up_block :: up_blocks)
  end.

(** Lines 138-170: the reversed lists and the up loop. *)
Definition up_stages {B} (mk : UpBlockArgs -> result E B) (c : Config)
    (time_embed_dim : Z)
    (transformer_layers_per_block attention_head_dim : list Z)
    : result E (list B) :=
  let reversed_block_out_channels := rev (block_out_channels c) in
  let reversed_attention_head_dim := rev attention_head_dim in
  let reversed_transformer_layers_per_block :=
    rev transformer_layers_per_block in
  output_channel <- Py.getitem reversed_block_out_channels 0 ;;
  up_loop mk c time_embed_dim reversed_block_out_channels
    reversed_transformer_layers_per_block reversed_attention_head_dim
    (Py.enumerate (up_block_types c)) output_channel.

Variable layers : Layers T E DType Float.

(** Lines 27-181. [block_out_channels[0]] is read first at line 59; the
    later reads of it return the same value. *)
Definition __init__ (c : Config) : result E (Model T E) :=
  c0 <- Py.getitem (block_out_channels c) 0 ;;
  let time_embed_dim := c0 * 4 in
  let conv_in :=
    Conv2d layers (in_channels c) c0 (3, 3) (1, 1) (dtype c) in
  let time_proj :=
    Timesteps layers (Some c0) (flip_sin_to_cos c) (freq_shift c)
      (dtype c) in
  let timestep_input_dim := c0 in
  let time_embedding :=
    TimestepEmbedding layers (Some timestep_input_dim) time_embed_dim
      (dtype c) in
  let add_time_proj :=
    if is_text_time (addition_embed_type c)
    then Some (Timesteps layers (addition_time_embed_dim c)
                 (flip_sin_to_cos c) (freq_shift c) (dtype c))
    else None in
  let add_embedding :=
    if is_text_time (addition_embed_type c)
    then Some (TimestepEmbedding layers
                 (projection_class_embeddings_input_dim c)
                 time_embed_dim (dtype c))
    else None in
  let attention_head_dim :=
    per_stage (attention_head_dim c) (down_block_types c) in
  let transformer_layers_per_block :=
    per_stage (transformer_layers_per_block c) (down_block_types c) in
  down_blocks <-
    down_loop (fun a => call (get_down_block layers a)) c time_embed_dim
      transformer_layers_per_block attention_head_dim
      (Py.enumerate (down_block_types c)) c0 ;;
  mid_args <-
    mid_block_args c time_embed_dim
      transformer_layers_per_block attention_head_dim ;;
  let mid_block := UNetMidBlock2DCrossAttn layers mid_args in
  up_blocks <-
    up_stages (fun a => call (get_up_block layers a)) c time_embed_dim
      transformer_layers_per_block attention_head_dim ;;
  let conv_norm_out :=
    GroupNorm layers c0 (norm_num_groups c) (norm_eps c) (dtype c) in
  let conv_act := silu layers in
  let conv_out :=
    Conv2d layers c0 (out_channels c) (3, 3) (1, 1) (dtype c) in
  Ok {| self_addition_embed_type := addition_embed_type c;
        conv_in := conv_in;
        time_proj := time_proj;
        time_embedding := time_embedding;
        add_time_proj := add_time_proj;
        add_embedding := add_embedding;
        down_blocks := down_blocks;
        mid_block := mid_block;
        up_blocks := up_blocks;
        conv_norm_out := conv_norm_out;
        conv_act := conv_act;
        conv_out := conv_out |}.

End Init.

(** The arguments [__init__] hands to [get_down_block], stage by stage:
    the down loop run with a factory that returns its arguments. *)
Definition down_block_args {E DType Float} (c : Config DType Float)
    : result E (list (DownBlockArgs DType Float)) :=
  c0 <- Py.getitem (block_out_channels c) 0 ;;
  down_loop (fun a => Ok a) c (c0 * 4)
    (per_stage (transformer_layers_per_block c) (down_block_types c))
    (per_stage (attention_head_dim c) (down_block_types c))
    (Py.enumerate (down_block_types c)) c0.

(** The arguments [__init__] hands to [get_up_block], stage by stage. *)
Definition up_block_args {E DType Float} (c : Config DType Float)
    : result E (list (UpBlockArgs DType Float)) :=
  c0 <- Py.getitem (block_out_channels c) 0 ;;
  up_stages (fun a => Ok a) c (c0 * 4)
    (per_stage (transformer_layers_per_block c) (down_block_types c))
    (per_stage (attention_head_dim c) (down_block_types c)).

(** * forward over collaborators that need not be functions

    The same statements of [forward], with every collaborator given as a
    relation between its arguments and a possible outcome: a layer or a
    block that draws random numbers or keeps state between calls relates
    one argument to several outcomes. *)

Section Relational.

Context {T E DType : Type}.

Record RTensorLib : Type := {
  r_view : T -> list Z -> T -> Prop;
  r_shape0 : T -> Z -> Prop;
  r_concat : list T -> Z -> T -> Prop;
  r_dtype_of : T -> DType -> Prop;
  r_cast : T -> DType -> T -> Prop;
  r_add : T -> T -> T -> Prop;
}.

Record RDownBlock : Type := {
  r_down_attentions : bool;
  r_down_call : T -> T -> option T -> E + (T * list T) -> Prop;
}.

Record RUpBlock : Type := {
  r_up_resnets : nat;
  r_up_attentions : bool;
  r_up_call : T -> T -> list T -> option T -> E + T -> Prop;
}.

Record RModel : Type := {
  r_addition_embed_type : option string;
  r_conv_in : T -> T -> Prop;
  r_time_proj : T -> T -> Prop;
  r_time_embedding : T -> T -> Prop;
  r_add_time_proj : option (T -> T -> Prop);
  r_add_embedding : option (T -> T -> Prop);
  r_down_blocks : list RDownBlock;
  r_mid_block : T -> T -> T -> E + T -> Prop;
  r_up_blocks : list RUpBlock;
  r_conv_norm_out : T -> T -> Prop;
  r_conv_act : T -> T -> Prop;
  r_conv_out : T -> T -> Prop;
}.

Variable rlib : RTensorLib.

(** Lines 190-202. *)
Definition embedding_rel (self : RModel) (timesteps : T)
    (text_embeds time_ids : option T) (r : result E T) : Prop :=
  exists t_emb emb,
    r_time_proj self timesteps t_emb /\
    r_time_embedding self t_emb emb /\
    if is_text_time (r_addition_embed_type self) then
      match text_embeds, time_ids with
      | Some text_embeds, Some time_ids =>
          match r_add_time_proj self with
          | None => r = Err AttributeError
          | Some add_time_proj =>
              exists flat time_embeds rows time_embeds' add_embeds dt
                     add_embeds',
                r_view rlib time_ids [-1] flat /\
                add_time_proj flat time_embeds /\
                r_shape0 rlib text_embeds rows /\
                r_view rlib time_embeds [rows; -1] time_embeds' /\
                r_concat rlib [text_embeds; time_embeds'] 1 add_embeds /\
                r_dtype_of rlib emb dt /\
                r_cast rlib add_embeds dt add_embeds' /\
                match r_add_embedding self with
                | None => r = Err AttributeError
                | Some add_embedding =>
                    exists aug_emb emb',
                      add_embedding add_embeds' aug_emb /\
                      r_add rlib emb aug_emb emb' /\
                      r = Ok emb'
                end
          end
      | _, _ => r = Err AssertionError
      end
    else r = Ok emb.

(** Lines 207-220. *)
Fixpoint down_path_rel (blocks : list RDownBlock) (emb enc : T)
    (sample : T) (down_block_res_samples : list T)
    (r : result E (T * list T)) : Prop :=
  match blocks with
  | [] => r = Ok (sample, down_block_res_samples)
  | downsample_block :: blocks' =>
      exists outcome,
        r_down_call downsample_block sample emb
          (if r_down_attentions downsample_block then Some enc else None)
          outcome /\
        match outcome with
        | inl e => r = Err (Raised e)
        | inr (sample', res_samples) =>
            down_path_rel blocks' emb enc sample'
              (down_block_res_samples ++ res_samples) r
        end
  end.

(** Lines 226-243. *)
Fixpoint up_path_rel (blocks : list RUpBlock) (emb enc : T)
    (sample : T) (down_block_res_samples : list T)
    (r : result E T) : Prop :=
  match blocks with
  | [] => r = Ok sample
  | upsample_block :: blocks' =>
      let '(res_samples, down_block_res_samples') :=
        pop_res_samples (r_up_resnets upsample_block)
          down_block_res_samples in
      exists outcome,
        r_up_call upsample_block sample emb res_samples
          (if r_up_attentions upsample_block then Some enc else None)
          outcome /\
        match outcome with
        | inl e => r = Err (Raised e)
        | inr sample' =>
            up_path_rel blocks' emb enc sample' down_block_res_samples' r
        end
  end.

(** Lines 183-249. *)
Definition forward_rel (self : RModel)
    (sample timesteps encoder_hidden_states : T)
    (text_embeds time_ids : option T) (r : result E T) : Prop :=
  exists r_emb,
    embedding_rel self timesteps text_embeds time_ids r_emb /\
    match r_emb with
    | Err e => r = Err e
    | Ok emb =>
        exists sample0 r_down,
          r_conv_in self sample sample0 /\
          down_path_rel (r_down_blocks self) emb encoder_hidden_states
            sample0 [sample0] r_down /\
          match r_down with
          | Err e => r = Err e
          | Ok (sample1, down_block_res_samples) =>
              exists mid,
                r_mid_block self sample1 emb encoder_hidden_states mid /\
                match mid with
                | inl e => r = Err (Raised e)
                | inr sample2 =>
                    exists r_up,
                      up_path_rel (r_up_blocks self) emb
                        encoder_hidden_states sample2
                        down_block_res_samples r_up /\
                      match r_up with
                      | Err e => r = Err e
                      | Ok sample3 =>
                          exists sample4 sample5 sample6,
                            r_conv_norm_out self sample3 sample4 /\
                            r_conv_act self sample4 sample5 /\
                            r_conv_out self sample5 sample6 /\
                            r = Ok sample6
                      end
                end
          end
    end.

(** A collaborator is deterministic when its arguments fix its
    outcome. *)
Definition fun1 {A B} (R : A -> B -> Prop) : Prop :=
  forall a b b', R a b -> R a b' -> b = b'.
Definition fun2 {A B C} (R : A -> B -> C -> Prop) : Prop :=
  forall a b c c', R a b c -> R a b c' -> c = c'.
Definition fun3 {A B C D} (R : A -> B -> C -> D -> Prop) : Prop :=
  forall a b c d d', R a b c d -> R a b c d' -> d = d'.
Definition fun4 {A B C D F} (R : A -> B -> C -> D -> F -> Prop) : Prop :=
  forall a b c d f f', R a b c d f -> R a b c d f' -> f = f'.

Definition fun_opt {A B} (R : option (A -> B -> Prop)) : Prop :=
  match R with
  | Some R => fun1 R
  | None => True
  end.

Record deterministic_lib : Prop := {
  det_view : fun2 (r_view rlib);
  det_shape0 : fun1 (r_shape0 rlib);
  det_concat : fun2 (r_concat rlib);
  det_dtype_of : fun1 (r_dtype_of rlib);
  det_cast : fun2 (r_cast rlib);
  det_add : fun2 (r_add rlib);
}.

Record deterministic_model (self : RModel) : Prop := {
  det_conv_in : fun1 (r_conv_in self);
  det_time_proj : fun1 (r_time_proj self);
  det_time_embedding : fun1 (r_time_embedding self);
  det_add_time_proj : fun_opt (r_add_time_proj self);
  det_add_embedding : fun_opt (r_add_embedding self);
  det_down_blocks :
    Forall (fun b => fun3 (r_down_call b)) (r_down_blocks self);
  det_mid_block : fun3 (r_mid_block self);
  det_up_blocks :
    Forall (fun b => fun4 (r_up_call b)) (r_up_blocks self);
  det_conv_norm_out : fun1 (r_conv_norm_out self);
  det_conv_act : fun1 (r_conv_act self);
  det_conv_out : fun1 (r_conv_out self);
}.

End Relational.

Arguments RTensorLib : clear implicits.
Arguments RDownBlock : clear implicits.
Arguments RUpBlock : clear implicits.
Arguments RModel : clear implicits.

(** The relation of a function: the collaborators of [Model] seen as
    relations. *)
Definition graph1 {A B} (f : A -> B) : A -> B -> Prop :=
  fun a b => b = f a.

Definition graph_lib {T DType} (lib : TensorLib T DType)
    : RTensorLib T DType := {|
  r_view := fun t s r => r = view lib t s;
  r_shape0 := fun t r => r = shape0 lib t;
  r_concat := fun ts d r => r = concat lib ts d;
  r_dtype_of := fun t r => r = dtype_of lib t;
  r_cast := fun t d r => r = cast lib t d;
  r_add := fun t u r => r = add lib t u;
|}.

Definition graph_down_block {T E} (b : DownBlock T E) : RDownBlock T E := {|
  r_down_attentions := down_attentions b;
  r_down_call := fun h temb enc r => r = down_call b h temb enc;
|}.

Definition graph_up_block {T E} (b : UpBlock T E) : RUpBlock T E := {|
  r_up_resnets := up_resnets b;
  r_up_attentions := up_attentions b;
  r_up_call := fun h temb res enc r => r = up_call b h temb res enc;
|}.

Definition graph_model {T E} (self : Model T E) : RModel T E := {|
  r_addition_embed_type := self_addition_embed_type self;
  r_conv_in := graph1 (conv_in self);
  r_time_proj := graph1 (time_proj self);
  r_time_embedding := graph1 (time_embedding self);
  r_add_time_proj := option_map graph1 (add_time_proj self);
  r_add_embedding := option_map graph1 (add_embedding self);
  r_down_blocks := map graph_down_block (down_blocks self);
  r_mid_block := fun h temb enc r => r = mid_block self h temb enc;
  r_up_blocks := map graph_up_block (up_blocks self);
  r_conv_norm_out := graph1 (conv_norm_out self);
  r_conv_act := graph1 (conv_act self);
  r_conv_out := graph1 (conv_out self);
|}.

(** * Well-formed configurations *)

Definition seq_len_ok (v : int_or_seq) (n : nat) : bool :=
  match v with
  | Int _ => true
  | Seq l => Nat.eqb (List.length l) n
  end.

(** A valid architecture config: at least one stage; one channel count,
    one down block type and one up block type per stage; per-stage
    sequences of that length; a non-negative [layers_per_block]. *)
Definition valid_config {DType Float} (c : Config DType Float) : bool :=
  let n := List.length (down_block_types c) in
  Nat.ltb 0 n
  && Nat.eqb (List.length (up_block_types c)) n
  && Nat.eqb (List.length (block_out_channels c)) n
  && seq_len_ok (attention_head_dim c) n
  && seq_len_ok (transformer_layers_per_block c) n
  && (0 <=? layers_per_block c).

(** The lengths the indexing of [__init__] needs: no list it indexes is
    empty, and each is at least as long as both lists of block types. *)
Definition indexable {DType Float} (c : Config DType Float) : bool :=
  let nd := List.length (down_block_types c) in
  let nu := List.length (up_block_types c) in
  let long_enough (l : list Z) :=
    Nat.ltb 0 (List.length l)
    && Nat.leb nd (List.length l) && Nat.leb nu (List.length l) in
  long_enough (block_out_channels c)
  && long_enough (per_stage (attention_head_dim c) (down_block_types c))
  && long_enough
       (per_stage (transformer_layers_per_block c) (down_block_types c)).

(** [sum(len(b.resnets) for b in up_blocks)] *)
Definition total_resnets {T E} (blocks : list (UpBlock T E)) : nat :=
  fold_right (fun b acc => (up_resnets b + acc)%nat) 0%nat blocks.

(** * A concrete instance

    Symbolic tensors, and layers and blocks that record how they were
    applied. The blocks follow the usual layout: a down block returns one
    residual per layer plus the down-sampled one, an up block has one
    resnet per layer. The up block accepts a tuple of any length. *)

Module Fixture.

#[local] Set Warnings "-register-all".

Inductive Sym : Type :=
| Var (x : string)
| App (f : string) (k : Z) (args : list Sym).

Definition lib : TensorLib Sym string := {|
  view := fun t shape => App "view" (hd 0 shape) [t];
  shape0 := fun _ => 2;
  concat := fun ts dim => App "concat" dim ts;
  dtype_of := fun _ => "float16";
  cast := fun t _ => App "cast" 0 [t];
  add := fun t u => App "add" 0 [t; u];
|}.

Fixpoint resnet_chain (n : nat) (k : Z) (h temb : Sym) : list Sym :=
  match n with
  | O => []
  | S n' =>
      let h' := App "resnet" k [h; temb] in
      h' :: resnet_chain n' (k + 1) h' temb
  end.

Definition down_block (a : DownBlockArgs string string)
    : DownBlock Sym string := {|
  down_attentions :=
    String.eqb (da_down_block_type a) "CrossAttnDownBlock2D";
  down_call := fun h temb enc =>
    let res := resnet_chain (Z.to_nat (da_num_layers a)) 0 h temb in
    let res :=
      if da_add_downsample a
      then res ++ [App "downsample" (da_out_channels a) [last res h]]
      else res in
    inr (last res h, res);
|}.

Definition up_block (a : UpBlockArgs string string)
    : UpBlock Sym string := {|
  up_resnets := Z.to_nat (ua_num_layers a);
  up_attentions := String.eqb (ua_up_block_type a) "CrossAttnUpBlock2D";
  up_call := fun h temb res enc =>
    inr (App "up" (ua_out_channels a) (h :: temb :: res));
|}.

Definition layers : Layers Sym string string string := {|
  Conv2d := fun _ o _ _ _ t => App "conv" o [t];
  Timesteps := fun _ _ _ _ t => App "timesteps" 0 [t];
  TimestepEmbedding := fun _ d _ t => App "time_embedding" d [t];
  GroupNorm := fun ch _ _ _ t => App "group_norm" ch [t];
  silu := fun t => App "silu" 0 [t];
  UNetMidBlock2DCrossAttn := fun a h temb enc =>
    inr (App "mid" (ma_in_channels a) [h; temb; enc]);
  get_down_block := fun a =>
    if String.eqb (da_down_block_type a) "DownBlock2D"
       || String.eqb (da_down_block_type a) "CrossAttnDownBlock2D"
    then inr (down_block a)
    else inl ("unknown down block type " ++ da_down_block_type a)%string;
  get_up_block := fun a =>
    if String.eqb (ua_up_block_type a) "UpBlock2D"
       || String.eqb (ua_up_block_type a) "CrossAttnUpBlock2D"
    then inr (up_block a)
    else inl ("unknown up block type " ++ ua_up_block_type a)%string;
|}.

(** The default arguments of [__init__]. *)
Definition default : Config string string := {|
  sample_size := None;
  in_channels := 4;
  out_channels := 4;
  center_input_sample := false;
  flip_sin_to_cos := true;
  freq_shift := 0;
  down_block_types :=
    ["CrossAttnDownBlock2D"; "CrossAttnDownBlock2D";
     "CrossAttnDownBlock2D"; "DownBlock2D"];
  up_block_types :=
    ["UpBlock2D"; "CrossAttnUpBlock2D"; "CrossAttnUpBlock2D";
     "CrossAttnUpBlock2D"];
  block_out_channels := [320; 640; 1280; 1280];
  layers_per_block := 2;
  downsample_padding := 1;
  mid_block_scale_factor := "1.0";
  act_fn := "silu";
  norm_num_groups := 32;
  norm_eps := "1e-5";
  cross_attention_dim := 1280;
  transformer_layers_per_block := Int 1;
  attention_head_dim := Int 8;
  use_linear_projection := false;
  addition_embed_type := None;
  addition_time_embed_dim := None;
  projection_class_embeddings_input_dim := None;
  dtype := None;
|}.

Definition with_heads (c : Config string string) (v : int_or_seq)
    : Config string string :=
  {| sample_size := sample_size c; in_channels := in_channels c;
     out_channels := out_channels c;
     center_input_sample := center_input_sample c;
     flip_sin_to_cos := flip_sin_to_cos c; freq_shift := freq_shift c;
     down_block_types := down_block_types c;
     up_block_types := up_block_types c;
     block_out_channels := block_out_channels c;
     layers_per_block := layers_per_block c;
     downsample_padding := downsample_padding c;
     mid_block_scale_factor := mid_block_scale_factor c;
     act_fn := act_fn c; norm_num_groups := norm_num_groups c;
     norm_eps := norm_eps c; cross_attention_dim := cross_attention_dim c;
     transformer_layers_per_block := transformer_layers_per_block c;
     attention_head_dim := v;
     use_linear_projection := use_linear_projection c;
     addition_embed_type := addition_embed_type c;
     addition_time_embed_dim := addition_time_embed_dim c;
     projection_class_embeddings_input_dim :=
       projection_class_embeddings_input_dim c;
     dtype := dtype c |}.

Definition with_shape (c : Config string string)
    (down up : list string) (channels : list Z) (depth : int_or_seq)
    : Config string string :=
  {| sample_size := sample_size c; in_channels := in_channels c;
     out_channels := out_channels c;
     center_input_sample := center_input_sample c;
     flip_sin_to_cos := flip_sin_to_cos c; freq_shift := freq_shift c;
     down_block_types := down;
     up_block_types := up;
     block_out_channels := channels;
     layers_per_block := layers_per_block c;
     downsample_padding := downsample_padding c;
     mid_block_scale_factor := mid_block_scale_factor c;
     act_fn := act_fn c; norm_num_groups := norm_num_groups c;
     norm_eps := norm_eps c; cross_attention_dim := cross_attention_dim c;
     transformer_layers_per_block := depth;
     attention_head_dim := attention_head_dim c;
     use_linear_projection := use_linear_projection c;
     addition_embed_type := addition_embed_type c;
     addition_time_embed_dim := addition_time_embed_dim c;
     projection_class_embeddings_input_dim :=
       projection_class_embeddings_input_dim c;
     dtype := dtype c |}.

Definition with_mode (c : Config string string) (mode : option string)
    : Config string string :=
  {| sample_size := sample_size c; in_channels := in_channels c;
     out_channels := out_channels c;
     center_input_sample := center_input_sample c;
     flip_sin_to_cos := flip_sin_to_cos c; freq_shift := freq_shift c;
     down_block_types := down_block_types c;
     up_block_types := up_block_types c;
     block_out_channels := block_out_channels c;
     layers_per_block := layers_per_block c;
     downsample_padding := downsample_padding c;
     mid_block_scale_factor := mid_block_scale_factor c;
     act_fn := act_fn c; norm_num_groups := norm_num_groups c;
     norm_eps := norm_eps c; cross_attention_dim := cross_attention_dim c;
     transformer_layers_per_block := transformer_layers_per_block c;
     attention_head_dim := attention_head_dim c;
     use_linear_projection := use_linear_projection c;
     addition_embed_type := mode;
     addition_time_embed_dim := Some 256;
     projection_class_embeddings_input_dim := Some 2816;
     dtype := dtype c |}.

(** The SDXL base layout: three stages. *)
Definition sdxl : Config string string :=
  with_mode
    (with_heads
       (with_shape default
          ["DownBlock2D"; "CrossAttnDownBlock2D"; "CrossAttnDownBlock2D"]
          ["CrossAttnUpBlock2D"; "CrossAttnUpBlock2D"; "UpBlock2D"]
          [320; 640; 1280] (Seq [1; 2; 10]))
       (Seq [5; 10; 20]))
    (Some "text_time").

(** One down stage against two up stages: the up path asks for six
    skip tensors where the down path left four. *)
Definition lopsided : Config string string :=
  with_heads
    (with_shape default ["DownBlock2D"] ["UpBlock2D"; "UpBlock2D"]
       [320; 640] (Seq [1; 1]))
    (Seq [8; 8]).

(** One head count too many for the four stages. *)
Definition long_heads : Config string string :=
  with_heads default (Seq [8; 8; 8; 8; 8]).

(** Three up block types against four down block types. *)
Definition short_up : Config string string :=
  with_shape default (down_block_types default)
    ["UpBlock2D"; "CrossAttnUpBlock2D"; "CrossAttnUpBlock2D"]
    (block_out_channels default) (Int 1).

(** An up block with [n] resnets that takes whatever tuple it is given. *)
Definition tolerant_up (n : nat) : UpBlock Sym string := {|
  up_resnets := n;
  up_attentions := false;
  up_call := fun h temb res enc =>
    inr (App "up" (Z.of_nat (List.length res)) (h :: temb :: res));
|}.

(** One head count short of the four stages. *)
Definition short_heads : Config string string :=
  with_heads default (Seq [8; 8; 8]).

(** Two stages with three channel counts. *)
Definition long_channels : Config string string :=
  with_shape default ["DownBlock2D"; "DownBlock2D"]
    ["UpBlock2D"; "UpBlock2D"] [320; 640; 1280] (Int 1).

(** No down block type. *)
Definition no_down : Config string string :=
  with_shape default [] ["UpBlock2D"] [320] (Int 1).

(** No channel count. *)
Definition no_channels : Config string string :=
  with_shape default (down_block_types default) (up_block_types default)
    [] (Int 1).

(** A down block type the factory does not know, at the second stage. *)
Definition unknown_type : Config string string :=
  with_shape default ["DownBlock2D"; "AttnDownBlock2D"]
    ["UpBlock2D"; "UpBlock2D"] [320; 640] (Int 1).

(** A down block without attentions that returns one residual sample, and
    blocks that raise. *)
Definition plain_down : DownBlock Sym string := {|
  down_attentions := false;
  down_call := fun h temb enc =>
    let out := App "down" 0 [h; temb] in inr (out, [out]);
|}.

Definition failing_down (e : string) : DownBlock Sym string := {|
  down_attentions := false;
  down_call := fun _ _ _ => inl e;
|}.

Definition failing_up (e : string) : UpBlock Sym string := {|
  up_resnets := 1;
  up_attentions := false;
  up_call := fun _ _ _ _ => inl e;
|}.

Definition build (c : Config string string)
    : result string (Model Sym string) :=
  __init__ layers c.

Definition run (c : Config string string)
    (text_embeds time_ids : option Sym)
    : result string (Trace (T := Sym)) :=
  self <- build c ;;
  forward_trace lib self (Var "sample") (Var "timesteps")
    (Var "encoder_hidden_states") text_embeds time_ids.

End Fixture.
(** * The stages in closed form *)

(** A call per element, stopping at the first that raises. *)
Fixpoint mapM {E A B} (f : A -> result E B) (l : list A)
    : result E (list B) :=
  match l with
  | [] => Ok []
  | x :: l' =>
      y <- f x ;;
      ys <- mapM f l' ;;
      Ok (y :: ys)
  end.

(** The elements of [l] with their positions, counted from [k]. *)
Definition numbered {A} (k : nat) (l : list A) : list (nat * A) :=
  combine (seq k (List.length l)) l.

Section Stages.

Context {DType Float : Type}.
Variable c : Config DType Float.
Variable time_embed_dim : Z.

(** What iteration [i] of the down loop passes to the factory when no
    index is out of range. *)
Definition down_stage_args
    (transformer_layers_per_block attention_head_dim : list Z)
    (stage : nat * string) : DownBlockArgs DType Float :=
  let (i, down_block_type) := stage in
  {| da_down_block_type := down_block_type;
     da_num_layers := layers_per_block c;
     da_transformer_layers_per_block := nth i transformer_layers_per_block 0;
     da_in_channels := nth (i - 1) (block_out_channels c) 0;
     da_out_channels := nth i (block_out_channels c) 0;
     da_temb_channels := time_embed_dim;
     da_add_downsample :=
       negb (Z.of_nat i =? Py.len (block_out_channels c) - 1);
     da_resnet_eps := norm_eps c;
     da_resnet_act_fn := act_fn c;
     da_cross_attention_dim := cross_attention_dim c;
     da_attn_num_head_channels := nth i attention_head_dim 0;
     da_downsample_padding := downsample_padding c;
     da_use_linear_projection := use_linear_projection c;
     da_dtype := dtype c |}.

(** What iteration [i] of the up loop passes to the factory when no index
    is out of range. *)
Definition up_stage_args
    (reversed_block_out_channels reversed_transformer_layers_per_block
       reversed_attention_head_dim : list Z)
    (stage : nat * string) : UpBlockArgs DType Float :=
  let (i, up_block_type) := stage in
  {| ua_up_block_type := up_block_type;
     ua_num_layers := layers_per_block c + 1;
     ua_transformer_layers_per_block :=
       nth i reversed_transformer_layers_per_block 0;
     ua_in_channels :=
       nth (Nat.min (i + 1) (List.length (block_out_channels c) - 1))
         reversed_block_out_channels 0;
     ua_out_channels := nth i reversed_block_out_channels 0;
     ua_prev_output_channel := nth (i - 1) reversed_block_out_channels 0;
     ua_temb_channels := time_embed_dim;
     ua_add_upsample :=
       negb (Z.of_nat i =? Py.len (block_out_channels c) - 1);
     ua_resnet_eps := norm_eps c;
     ua_resnet_act_fn := act_fn c;
     ua_cross_attention_dim := cross_attention_dim c;
     ua_attn_num_head_channels := nth i reversed_attention_head_dim 0;
     ua_use_linear_projection := use_linear_projection c;
     ua_dtype := dtype c |}.

End Stages.

(** The arguments of all the [get_down_block] calls, then of all the
    [get_up_block] calls, when no index is out of range. *)
Definition down_stages_closed {DType Float} (c : Config DType Float)
    : list (DownBlockArgs DType Float) :=
  map (down_stage_args c (nth 0 (block_out_channels c) 0 * 4)
         (per_stage (transformer_layers_per_block c) (down_block_types c))
         (per_stage (attention_head_dim c) (down_block_types c)))
    (numbered 0 (down_block_types c)).

Definition up_stages_closed {DType Float} (c : Config DType Float)
    : list (UpBlockArgs DType Float) :=
  map (up_stage_args c (nth 0 (block_out_channels c) 0 * 4)
         (rev (block_out_channels c))
         (rev (per_stage (transformer_layers_per_block c)
                 (down_block_types c)))
         (rev (per_stage (attention_head_dim c) (down_block_types c))))
    (numbered 0 (up_block_types c)).

(** How many residual samples a down block built from [a] returns when it
    follows the usual layout: one per layer, and one more when it
    down-samples. *)
Definition expected_residuals {DType Float} (a : DownBlockArgs DType Float)
    : nat :=
  (Z.to_nat (da_num_layers a) + if da_add_downsample a then 1 else 0)%nat.

(** A block that returns on every argument. *)
Definition down_returns {T E} (b : DownBlock T E) : Prop :=
  forall h temb enc, exists out, down_call b h temb enc = inr out.

Definition up_returns {T E} (b : UpBlock T E) : Prop :=
  forall h temb res enc, exists out, up_call b h temb res enc = inr out.

(** * The driver script

    [examples/stable_diffusion/run_sdxl.py]: the statements under
    [if __name__ == "__main__"], as a function from the parsed arguments
    to the calls the script makes on its collaborators, in order. The
    pipeline, the clock and the arithmetic on floats are collaborators. *)

Module Driver.

(** The namespace [parseArgs] returns. *)
Record Args : Type := {
  size : Z;
  seed : Z;
  num_inference_steps : Z;
  prompt : string;
  model_dir : option string;
  num_warmup_runs : Z;
  avg_runs : Z;
}.

(** The defaults of lines 17-31. *)
Definition defaults : Args := {|
  size := 1024;
  seed := 233;
  num_inference_steps := 50;
  prompt :=
    "masterpiece, gouache painting, 1girl, distant view, lone boat, willow trees";
  model_dir := None;
  num_warmup_runs := 3;
  avg_runs := 10;
|}.

(** What the script does to the outside, one constructor per call. *)
Inductive event (Image Time : Type) : Type :=
| FromPretrained (name torch_dtype : string) (use_safetensors : bool)
| SetProgressBarConfig (disable : bool)
| Prepare (engine_dir : string) (size : Z)
| To (device : string)
| Pipeline (num_inference_steps : Z) (prompt : string)
    (generator_seed : Z) (height width : Z)
| Print (avg_latency : Time)
| Save (image : Image) (path : string).

Arguments FromPretrained {Image Time}.
Arguments SetProgressBarConfig {Image Time}.
Arguments Prepare {Image Time}.
Arguments To {Image Time}.
Arguments Pipeline {Image Time}.
Arguments Print {Image Time}.
Arguments Save {Image Time}.

(** The surroundings: the MPI world, what the [k]-th read of [time.time()]
    and the [k]-th pipeline call return, the difference of two times and
    [np.sum(latency) / avg_runs]. *)
Record Env (Image Time : Type) : Type := {
  world_size : Z;
  rank : Z;
  clock : nat -> Time;
  images : nat -> Image;
  diff : Time -> Time -> Time;
  mean : list Time -> Z -> Time;
}.

(** How the script ends. *)
Inductive outcome : Type :=
| Done
| NameError (name : string).

(** The variables of the script and the calls made so far. *)
Record State (Image Time : Type) : Type := {
  events : list (event Image Time);
  calls : nat;                       (* pipeline calls so far *)
  reads : nat;                       (* clock reads so far *)
  image : option Image;              (* [image], unbound at the start *)
  latency : list Time;
}.

(** [str(n)] inside an f-string. *)
Definition str (n : Z) : string := NilZero.string_of_int (Z.to_int n).

Section Script.

Context {Image Time : Type}.
Variable env : Env Image Time.
Variable args : Args.

(** [image = pipeline(...).images[0]] (lines 56-61 and 66-71). *)
Definition run_pipeline (st : State Image Time) : State Image Time :=
  {| events :=
       events st ++
       [Pipeline (num_inference_steps args) (prompt args) (seed args)
          (size args) (size args)];
     calls := S (calls st);
     reads := reads st;
     image := Some (images env (calls st));
     latency := latency st |}.

(** [time.time()] *)
Definition read_clock (st : State Image Time) : Time * State Image Time :=
  (clock env (reads st),
   {| events := events st; calls := calls st; reads := S (reads st);
      image := image st; latency := latency st |}).

(** The body of the loop of lines 64-73. *)
Definition measured_run (st : State Image Time) : State Image Time :=
  let (started, st) := read_clock st in
  let st := run_pipeline st in
  let (ended, st) := read_clock st in
  {| events := events st; calls := calls st; reads := reads st;
     image := image st; latency := latency st ++ [diff env ended started] |}.

(** [for i in range(n): body] *)
Fixpoint times (n : nat) (body : State Image Time -> State Image Time)
    (st : State Image Time) : State Image Time :=
  match n with
  | O => st
  | S n' => times n' body (body st)
  end.

Definition for_range (n : Z) (body : State Image Time -> State Image Time)
    (st : State Image Time) : State Image Time :=
  times (Z.to_nat n) body st.

(** Lines 35-78. *)
Definition main : list (event Image Time) * outcome :=
  let model_dir :=
    match model_dir args with
    | None => "sdxl_s" ++ str (size args) ++ "_w" ++ str (world_size env)
    | Some dir => dir
    end%string in
  let st :=
    {| events :=
         [FromPretrained "stabilityai/stable-diffusion-xl-base-1.0"
            "float16" true;
          SetProgressBarConfig (negb (rank env =? 0));
          Prepare ("sdxl_s" ++ str (size args) ++ "_w"
                     ++ str (world_size env))%string (size args);
          To "cuda"];
       calls := O; reads := O; image := None; latency := [] |} in
  let st := for_range (num_warmup_runs args) run_pipeline st in
  let st := for_range (avg_runs args) measured_run st in
  if rank env =? 0 then
    let printed :=
      events st ++ [Print (mean env (latency st) (avg_runs args))] in
    match image st with
    | Some image => (printed ++ [Save image "output.png"], Done)
    | None => (printed, NameError "image")
    end
  else (events st, Done).

End Script.

Definition is_pipeline {Image Time} (e : event Image Time) : bool :=
  match e with
  | Pipeline _ _ _ _ _ => true
  | _ => false
  end.

Definition is_output {Image Time} (e : event Image Time) : bool :=
  match e with
  | Print _ | Save _ _ => true
  | _ => false
  end.

End Driver.

(** The driver in a world where the [k]-th clock read is [k], the [k]-th
    image is [k], and the mean is the sum of the latencies. *)
Definition counting_env (rank : Z) : Driver.Env nat nat := {|
  Driver.world_size := 1;
  Driver.rank := rank;
  Driver.clock := fun k => k;
  Driver.images := fun k => k;
  Driver.diff := fun ended started => (ended - started)%nat;
  Driver.mean := fun l _ => list_sum l;
|}.

Definition no_runs : Driver.Args := {|
  Driver.size := 512;
  Driver.seed := 233;
  Driver.num_inference_steps := 50;
  Driver.prompt := "lone boat";
  Driver.model_dir := Some "engines";
  Driver.num_warmup_runs := 0;
  Driver.avg_runs := 0;
|}.

(** [res] is the residual tuple a call of down block [b] returned when
    [forward] called it with embedding [emb] and encoder states [enc]. *)
Definition returned_by {T E} (emb enc : T) (b : DownBlock T E)
    (res : list T) : Prop :=
  exists hidden_states sample,
    down_call b hidden_states emb
      (if down_attentions b then Some enc else None) = inr (sample, res).

(** [res] is a tuple [forward] called up block [b] with, as
    [res_hidden_states_tuple], and the call returned. *)
Definition called_with {T E} (emb enc : T) (b : UpBlock T E)
    (res : list T) : Prop :=
  exists hidden_states sample,
    up_call b hidden_states emb res
      (if up_attentions b then Some enc else None) = inr sample.

(** * Python sequences: lemmas *)

Module PyFacts.

Lemma len_nonneg {A} (l : list A) : 0 <= Py.len l.
Proof. unfold Py.len. lia. Qed.

Lemma getitem_nat {E A} (l : list A) (i : nat) :
  @Py.getitem E A l (Z.of_nat i) =
  match nth_error l i with
  | Some x => Ok x
  | None => Err IndexError
  end.
Proof.
  unfold Py.getitem, Py.len.
  destruct (Z.ltb_spec (Z.of_nat i) 0) as [Hneg|_]; [lia|].
  rewrite Nat2Z.id.
  destruct (Z.ltb_spec (Z.of_nat i) 0) as [Hneg|_]; [lia|]. simpl.
  destruct (Z.leb_spec (Z.of_nat (List.length l)) (Z.of_nat i)) as [Hge|Hlt].
  - assert (Hnone : nth_error l i = None)
      by (apply nth_error_None; lia).
    now rewrite Hnone.
  - reflexivity.
Qed.

Lemma getitem_nat_ok {E A} (l : list A) (i : nat) (d : A) :
  (i < List.length l)%nat ->
  @Py.getitem E A l (Z.of_nat i) = Ok (nth i l d).
Proof.
  intros Hi. rewrite getitem_nat.
  now rewrite (nth_error_nth' l d Hi).
Qed.

Lemma getitem_nat_err {E A} (l : list A) (i : nat) :
  (List.length l <= i)%nat ->
  @Py.getitem E A l (Z.of_nat i) = Err IndexError.
Proof.
  intros Hi. rewrite getitem_nat.
  apply nth_error_None in Hi. now rewrite Hi.
Qed.

(** [l[-1]] is the last element, and raises on the empty list. *)
Lemma getitem_last {E A} (l : list A) (d : A) :
  @Py.getitem E A l (-1) =
  match l with
  | [] => Err IndexError
  | _ :: _ => Ok (last l d)
  end.
Proof.
  destruct l as [|x l]; [reflexivity|].
  unfold Py.getitem, Py.len.
  change (-1 <? 0) with true. cbv iota.
  set (n := List.length (x :: l)).
  assert (Hn : (0 < n)%nat) by (subst n; simpl; lia).
  destruct (Z.ltb_spec (-1 + Z.of_nat n) 0) as [Hneg|_]; [lia|].
  destruct (Z.leb_spec (Z.of_nat n) (-1 + Z.of_nat n)) as [Hge|_]; [lia|].
  simpl orb. cbv iota.
  replace (Z.to_nat (-1 + Z.of_nat n)) with (n - 1)%nat by lia.
  assert (Hlt : (n - 1 < List.length (x :: l))%nat) by (fold n; lia).
  rewrite (nth_error_nth' (x :: l) d Hlt).
  f_equal. subst n.
  destruct (@exists_last _ (x :: l)) as [l' [y Hy]]; [discriminate|].
  rewrite Hy. rewrite last_last.
  rewrite length_app. simpl.
  rewrite app_nth2 by lia.
  replace (List.length l' + 1 - 1 - List.length l')%nat with 0%nat by lia.
  reflexivity.
Qed.

Lemma getitem_raises {E A} (l : list A) (i : Z) (e : exn E) :
  Py.getitem l i = Err e -> e = IndexError.
Proof.
  unfold Py.getitem.
  destruct (_ || _); [intros H; now injection H|].
  destruct (nth_error _ _); [discriminate|intros H; now injection H].
Qed.

Lemma getitem_ok_lt {E A} (l : list A) (i : nat) (x : A) :
  @Py.getitem E A l (Z.of_nat i) = Ok x -> (i < List.length l)%nat.
Proof.
  rewrite getitem_nat. destruct (nth_error l i) eqn:H; [|discriminate].
  intros _. apply nth_error_Some. congruence.
Qed.

Lemma getitem_ok_nonempty {E A} (l : list A) (x : A) :
  @Py.getitem E A l (-1) = Ok x -> l <> [].
Proof. intros H ->. discriminate. Qed.

Lemma mul_singleton {A} (x : A) (n : nat) :
  Py.mul [x] (Z.of_nat n) = repeat x n.
Proof.
  unfold Py.mul. rewrite Nat2Z.id.
  induction n as [|n IH]; simpl; [reflexivity|now rewrite IH].
Qed.

Lemma enumerate_from_length {A} (l : list A) (i : Z) :
  List.length (Py.enumerate_from i l) = List.length l.
Proof.
  revert i. induction l as [|x l IH]; intros i; simpl; [reflexivity|].
  now rewrite IH.
Qed.

End PyFacts.

(** * The two slices of the up path *)

Section Pop.

Context {T : Type}.

(** Whatever the count, the two slices split the tuple: the part kept
    followed by the part handed over. *)
Lemma pop_res_samples_app (n : nat) (l res rest : list T) :
  pop_res_samples n l = (res, rest) -> l = rest ++ res.
Proof.
  unfold pop_res_samples, Py.slice_from, Py.slice_to.
  intros H. injection H as <- <-.
  symmetry. apply firstn_skipn.
Qed.

Lemma slice_bound_neg (n : nat) (l : list T) :
  (0 < n)%nat ->
  Py.slice_bound l (- Z.of_nat n) = (List.length l - n)%nat.
Proof.
  intros Hn. unfold Py.slice_bound, Py.len.
  destruct (Z.ltb_spec (- Z.of_nat n) 0) as [_|Hge]; lia.
Qed.

(** With at least one and at most [len] tensors asked for, exactly that
    many come off the tail. *)
Lemma pop_res_samples_exact (n : nat) (l : list T) :
  (0 < n <= List.length l)%nat ->
  pop_res_samples n l =
    (skipn (List.length l - n) l, firstn (List.length l - n) l)
  /\ List.length (fst (pop_res_samples n l)) = n.
Proof.
  intros [Hpos Hle].
  unfold pop_res_samples, Py.slice_from, Py.slice_to.
  rewrite (slice_bound_neg l Hpos). split; [reflexivity|].
  simpl. rewrite length_skipn. lia.
Qed.

(** Asking for as many as there are, or more, hands over all of them. *)
Lemma pop_res_samples_short (n : nat) (l : list T) :
  (List.length l <= n)%nat ->
  pop_res_samples n l = (l, []).
Proof.
  intros Hle.
  unfold pop_res_samples, Py.slice_from, Py.slice_to.
  destruct n as [|n].
  - destruct l; [reflexivity|simpl in Hle; lia].
  - rewrite slice_bound_neg by lia.
    replace (List.length l - S n)%nat with 0%nat by lia.
    reflexivity.
Qed.

(** [-0] is [0]: a block without resnets is handed the whole tuple. *)
Lemma pop_res_samples_zero (l : list T) :
  pop_res_samples 0 l = (l, []).
Proof.
  unfold pop_res_samples, Py.slice_from, Py.slice_to, Py.slice_bound.
  change (- Z.of_nat 0 <? 0) with false. cbv iota.
  replace (Z.min (- Z.of_nat 0) (Py.len l)) with 0
    by (pose proof (PyFacts.len_nonneg l); lia).
  reflexivity.
Qed.

End Pop.

(** * The down path and the up path *)

Section Paths.

Context {T E DType : Type}.
Variable lib : TensorLib T DType.

Ltac bind_cases H :=
  match type of H with
  | context [call ?c] =>
      let Hc := fresh "Hcall" in destruct c eqn:Hc; simpl in H
  end.

(** The down path raises only what a block raised. *)
Lemma down_path_raises (blocks : list (DownBlock T E)) :
  forall emb enc sample stack e,
    down_path blocks emb enc sample stack = Err e ->
    exists e', e = Raised e'.
Proof.
  induction blocks as [|b blocks IH]; intros emb enc sample stack e H;
    simpl in H; [discriminate|].
  bind_cases H.
  - injection H as <-. eauto.
  - destruct p as [sample' res]. eauto.
Qed.

(** The down path only appends: what was on the tuple stays, in place. *)
Lemma down_path_extends (blocks : list (DownBlock T E)) :
  forall emb enc sample stack sample' stack',
    down_path blocks emb enc sample stack = Ok (sample', stack') ->
    exists more, stack' = stack ++ more.
Proof.
  induction blocks as [|b blocks IH];
    intros emb enc sample stack sample' stack' H; simpl in H.
  - injection H as <- <-. exists []. now rewrite app_nil_r.
  - bind_cases H; [discriminate|].
    destruct p as [s1 res].
    destruct (IH _ _ _ _ _ _ H) as [more ->].
    exists (res ++ more). now rewrite app_assoc.
Qed.

Lemma up_path_cons (b : UpBlock T E) blocks emb enc sample stack :
  up_path (b :: blocks) emb enc sample stack =
  (sample' <-
     call (up_call b sample emb
             (fst (pop_res_samples (up_resnets b) stack))
             (if up_attentions b then Some enc else None)) ;;
   '(out, rest, handed) <-
     up_path blocks emb enc sample'
       (snd (pop_res_samples (up_resnets b) stack)) ;;
   Ok (out, rest, fst (pop_res_samples (up_resnets b) stack) :: handed)).
Proof. reflexivity. Qed.

(** The up path raises only what a block raised: the slices never
    raise. *)
Lemma up_path_raises (blocks : list (UpBlock T E)) :
  forall emb enc sample stack e,
    up_path blocks emb enc sample stack = Err e ->
    exists e', e = Raised e'.
Proof.
  induction blocks as [|b blocks IH]; intros emb enc sample stack e H;
    [discriminate|].
  rewrite up_path_cons in H.
  bind_cases H.
  - injection H as <-. eauto.
  - destruct (up_path blocks emb enc t _) as [[[o r] h]|e0] eqn:Hrec;
      simpl in H; [discriminate|].
    injection H as <-. eauto.
Qed.

(** One tuple is handed over per up block, and the tuple left and the
    tuples handed over, last stage first, make up the tuple the up path
    started with. *)
Lemma up_path_split (blocks : list (UpBlock T E)) :
  forall emb enc sample stack out rest handed,
    up_path blocks emb enc sample stack = Ok (out, rest, handed) ->
    stack = rest ++ List.concat (rev handed)
    /\ List.length handed = List.length blocks.
Proof.
  induction blocks as [|b blocks IH];
    intros emb enc sample stack out rest handed H.
  - simpl in H. injection H as <- <- <-. simpl.
    now rewrite app_nil_r.
  - rewrite up_path_cons in H.
    bind_cases H; [discriminate|].
    destruct (up_path blocks emb enc t _) as [[[o r] h]|e0] eqn:Hrec;
      simpl in H; [|discriminate].
    injection H as <- <- <-.
    destruct (IH _ _ _ _ _ _ _ Hrec) as [Hsplit Hlen].
    split; [|simpl; now rewrite Hlen].
    simpl. rewrite concat_app. simpl. rewrite app_nil_r.
    rewrite app_assoc, <- Hsplit.
    apply pop_res_samples_app with (n := up_resnets b).
    reflexivity.
Qed.

(** When every up block has a resnet and the tuple holds enough for all
    of them, each block is handed exactly [len(resnets)] tensors. *)
Lemma up_path_exact (blocks : list (UpBlock T E)) :
  forall emb enc sample stack out rest handed,
    Forall (fun b => (0 < up_resnets b)%nat) blocks ->
    (total_resnets blocks <= List.length stack)%nat ->
    up_path blocks emb enc sample stack = Ok (out, rest, handed) ->
    Forall2 (fun b res => List.length res = up_resnets b) blocks handed
    /\ List.length rest = (List.length stack - total_resnets blocks)%nat.
Proof.
  induction blocks as [|b blocks IH];
    intros emb enc sample stack out rest handed Hpos Hle H.
  - simpl in H. injection H as <- <- <-. simpl. split; [constructor|lia].
  - rewrite up_path_cons in H.
    inversion Hpos as [|? ? Hb Hpos']; subst.
    simpl in Hle.
    destruct (@pop_res_samples_exact T (up_resnets b) stack) as [Hpop Hn];
      [lia|].
    rewrite Hpop in H, Hn. simpl fst in H, Hn. simpl snd in H.
    bind_cases H; [discriminate|].
    destruct (up_path blocks emb enc t _) as [[[o r] h]|e0] eqn:Hrec;
      simpl in H; [|discriminate].
    injection H as <- <- <-.
    apply IH in Hrec; [|assumption|rewrite length_firstn; lia].
    destruct Hrec as [Hall Hrest].
    split; [constructor; assumption|].
    rewrite Hrest, length_firstn. simpl. lia.
Qed.

(** Every tuple of the log is the tuple its block was called with. *)
Lemma up_path_called (blocks : list (UpBlock T E)) :
  forall emb enc sample stack out rest handed,
    up_path blocks emb enc sample stack = Ok (out, rest, handed) ->
    Forall2 (called_with emb enc) blocks handed.
Proof.
  induction blocks as [|b blocks IH];
    intros emb enc sample stack out rest handed H.
  - simpl in H. injection H as <- <- <-. constructor.
  - rewrite up_path_cons in H.
    destruct (up_call b sample emb _ _) as [e|t] eqn:Hcall;
      cbn [call bind] in H; [discriminate|].
    destruct (up_path blocks emb enc t _) as [[[o r] h]|e0] eqn:Hrec;
      simpl in H; [|discriminate].
    injection H as <- <- <-.
    constructor; [|eapply IH; eassumption].
    exists sample, t. exact Hcall.
Qed.

(** [forward] returns the output of the traced run. *)
Lemma forward_of_trace (self : Model T E) sample timesteps enc te ti :
  forward lib self sample timesteps enc te ti =
  (tr <- forward_trace lib self sample timesteps enc te ti ;;
   Ok (tr_output tr)).
Proof.
  unfold forward, forward_trace.
  destruct (embedding lib self timesteps te ti) as [emb|e]; simpl;
    [|reflexivity].
  destruct (down_path _ _ _ _ _) as [[s1 stack]|e]; simpl; [|reflexivity].
  destruct (call _) as [s2|e]; simpl; [|reflexivity].
  destruct (up_path _ _ _ _ _) as [[[s3 rest] handed]|e]; reflexivity.
Qed.

(** The embedding step raises [AssertionError] exactly on a missing
    conditioning input in "text_time" mode. *)
Lemma embedding_assertion (self : Model T E) timesteps te ti :
  embedding lib self timesteps te ti = Err AssertionError <->
  is_text_time (self_addition_embed_type self) = true
  /\ (te = None \/ ti = None).
Proof.
  unfold embedding.
  destruct (is_text_time (self_addition_embed_type self)); simpl.
  - destruct te as [te|], ti as [ti|]; simpl;
      try (split; [intros _; split; [reflexivity|auto]|reflexivity]).
    split.
    + destruct (add_time_proj self); simpl; [|discriminate].
      destruct (add_embedding self); simpl; discriminate.
    + intros [_ [H|H]]; discriminate.
  - split; [discriminate|intros [H _]; discriminate].
Qed.

Lemma embedding_plain (self : Model T E) timesteps te ti :
  is_text_time (self_addition_embed_type self) = false ->
  embedding lib self timesteps te ti =
    Ok (time_embedding self (time_proj self timesteps)).
Proof. unfold embedding. now intros ->. Qed.

(** What [forward] raises after the embedding step, a block raised. *)
Lemma forward_raises (self : Model T E) sample timesteps enc te ti e :
  forward lib self sample timesteps enc te ti = Err e ->
  embedding lib self timesteps te ti = Err e \/ exists e', e = Raised e'.
Proof.
  unfold forward.
  destruct (embedding lib self timesteps te ti) as [emb|e0]; simpl;
    [|intros H; injection H as <-; now left].
  intros H. right.
  destruct (down_path _ _ _ _ _) as [[s1 stack]|e0] eqn:Hdown; simpl in H.
  - destruct (mid_block self s1 emb enc) as [e1|s2]; simpl in H.
    + injection H as <-. eauto.
    + destruct (up_path _ _ _ _ _) as [[[s3 rest] handed]|e0] eqn:Hup;
        simpl in H; [discriminate|].
      injection H as <-. eapply up_path_raises; eassumption.
  - injection H as <-. eapply down_path_raises; eassumption.
Qed.

End Paths.


(** * The constructor's loops *)

Section Loops.

Context {E DType Float : Type}.
Variable c : Config DType Float.
Variable time_embed_dim : Z.

Lemma mapM_pure {A} (l : list A) : mapM (E := E) (fun a => Ok a) l = Ok l.
Proof.
  induction l as [|x l IH]; simpl; [reflexivity|now rewrite IH].
Qed.

(** [mapM] returns exactly when every call returns. *)
Lemma mapM_ok {A B} (f : A -> result E B) (l : list A) (ys : list B) :
  mapM f l = Ok ys <-> Forall2 (fun a b => f a = Ok b) l ys.
Proof.
  revert ys. induction l as [|x l IH]; intros ys; simpl.
  - split.
    + intros H. injection H as <-. constructor.
    + intros H. inversion H. reflexivity.
  - split.
    + destruct (f x) as [y|e] eqn:Hx; simpl; [|discriminate].
      destruct (mapM f l) as [ys'|e] eqn:Hl; simpl; [|discriminate].
      intros H. injection H as <-. constructor; [assumption|].
      now apply IH.
    + intros H. inversion H as [|? y ? ys' Hx Hrest]; subst.
      rewrite Hx. simpl. apply IH in Hrest. rewrite Hrest. reflexivity.
Qed.

Lemma mapM_total {A B} (f : A -> result E B) (l : list A) :
  (forall a, In a l -> exists b, f a = Ok b) <->
  is_ok (mapM f l) = true.
Proof.
  induction l as [|x l IH]; simpl.
  - split; [reflexivity|intros _ a []].
  - split.
    + intros H. destruct (H x (or_introl eq_refl)) as [y ->]. simpl.
      assert (Hl : is_ok (mapM f l) = true)
        by (apply IH; intros a Ha; apply H; now right).
      destruct (mapM f l); [reflexivity|discriminate].
    + intros H a [Hxa|Ha].
      * subst a. destruct (f x) as [y|e]; [eauto|discriminate].
      * destruct (f x) as [y|e]; simpl in H; [|discriminate].
        destruct (mapM f l) as [ys|e] eqn:Hl; simpl in H; [|discriminate].
        apply IH; [reflexivity|assumption].
Qed.

Lemma mapM_raises {A B} (f : A -> result E B) (l : list A) (P : exn E -> Prop) :
  (forall a e, f a = Err e -> P e) ->
  forall e, mapM f l = Err e -> P e.
Proof.
  intros Hf. induction l as [|x l IH]; intros e; simpl; [discriminate|].
  destruct (f x) as [y|e0] eqn:Hx; simpl.
  - destruct (mapM f l) as [ys|e1]; simpl; [discriminate|].
    intros H. injection H as <-. now apply IH.
  - intros H. injection H as <-. eauto.
Qed.

Lemma numbered_cons {A} (k : nat) (x : A) (l : list A) :
  numbered k (x :: l) = (k, x) :: numbered (S k) l.
Proof. reflexivity. Qed.

Lemma numbered_length {A} (k : nat) (l : list A) :
  List.length (numbered k l) = List.length l.
Proof.
  unfold numbered. rewrite length_combine, length_seq. lia.
Qed.

Lemma numbered_nth_error {A} (l : list A) :
  forall k i, nth_error (numbered k l) i =
    option_map (fun x => ((k + i)%nat, x)) (nth_error l i).
Proof.
  induction l as [|x l IH]; intros k i.
  - destruct i; reflexivity.
  - rewrite numbered_cons. destruct i as [|i]; simpl.
    + now rewrite Nat.add_0_r.
    + rewrite IH. now replace (S k + i)%nat with (k + S i)%nat by lia.
Qed.

(** ** The down loop *)

Section Down.

Variables tl ah : list Z.
Context {B : Type}.
Variable mk : DownBlockArgs DType Float -> result E B.

(** With every index in range the loop is one factory call per stage, on
    the arguments of [down_stage_args]. *)
Lemma down_loop_closed (types : list string) :
  forall (k : nat) (oc : Z),
    oc = nth (k - 1) (block_out_channels c) 0 ->
    (k + List.length types <= List.length (block_out_channels c))%nat ->
    (k + List.length types <= List.length tl)%nat ->
    (k + List.length types <= List.length ah)%nat ->
    down_loop mk c time_embed_dim tl ah
      (Py.enumerate_from (Z.of_nat k) types) oc =
    mapM mk (map (down_stage_args c time_embed_dim tl ah) (numbered k types)).
Proof.
  induction types as [|ty types IH]; intros k oc Hoc Hc Htl Hah;
    [reflexivity|].
  simpl List.length in *.
  rewrite numbered_cons. simpl.
  rewrite (PyFacts.getitem_nat_ok (E := E) _ 0) by lia.
  rewrite (PyFacts.getitem_nat_ok (E := E) tl 0) by lia.
  rewrite (PyFacts.getitem_nat_ok (E := E) ah 0) by lia.
  simpl. subst oc.
  destruct (mk _) as [b|e]; simpl; [|reflexivity].
  replace (Z.of_nat k + 1) with (Z.of_nat (S k)) by lia.
  rewrite IH; try lia; [reflexivity|].
  f_equal. lia.
Qed.

(** With some index out of range the loop raises: [IndexError] at the
    first such stage, unless the factory raised before. *)
Lemma down_loop_out_of_range (types : list string) :
  (forall a e, mk a = Err e -> exists e', e = Raised e') ->
  forall (k : nat) (oc : Z),
    types <> [] ->
    (List.length (block_out_channels c) < k + List.length types
     \/ List.length tl < k + List.length types
     \/ List.length ah < k + List.length types)%nat ->
    exists e,
      down_loop mk c time_embed_dim tl ah
        (Py.enumerate_from (Z.of_nat k) types) oc = Err e
      /\ (e = IndexError \/ exists e', e = Raised e').
Proof.
  intros Hmk.
  induction types as [|ty types IH]; intros k oc Hne Hshort;
    [contradiction|].
  simpl List.length in Hshort. simpl.
  destruct (Nat.le_gt_cases (List.length (block_out_channels c)) k)
    as [Hc|Hc].
  { rewrite PyFacts.getitem_nat_err by assumption. simpl. eauto. }
  rewrite (PyFacts.getitem_nat_ok (E := E) _ 0) by assumption. simpl.
  destruct (Nat.le_gt_cases (List.length tl) k) as [Htl|Htl].
  { rewrite PyFacts.getitem_nat_err by assumption. simpl. eauto. }
  rewrite (PyFacts.getitem_nat_ok (E := E) tl 0) by assumption. simpl.
  destruct (Nat.le_gt_cases (List.length ah) k) as [Hah|Hah].
  { rewrite PyFacts.getitem_nat_err by assumption. simpl. eauto. }
  rewrite (PyFacts.getitem_nat_ok (E := E) ah 0) by assumption. simpl.
  destruct (mk _) as [b|e] eqn:Hb; simpl.
  - replace (Z.of_nat k + 1) with (Z.of_nat (S k)) by lia.
    destruct (IH (S k) (nth k (block_out_channels c) 0))
      as [e [He Hkind]].
    + destruct types; [simpl in Hshort; lia|discriminate].
    + lia.
    + rewrite He. simpl. eauto.
  - apply Hmk in Hb. eauto.
Qed.

Lemma down_loop_raises (stages : list (Z * string)) :
  (forall a e, mk a = Err e -> exists e', e = Raised e') ->
  forall (oc : Z) (e : exn E),
    down_loop mk c time_embed_dim tl ah stages oc = Err e ->
    e = IndexError \/ exists e', e = Raised e'.
Proof.
  intros Hmk. induction stages as [|[i ty] stages IH]; intros oc e H;
    simpl in H; [discriminate|].
  destruct (Py.getitem (block_out_channels c) i) as [x|e0] eqn:Hx;
    cbn [bind] in H;
    [|injection H as <-; left; eapply PyFacts.getitem_raises; eassumption].
  destruct (Py.getitem tl i) as [x0|e0] eqn:Hx0; cbn [bind] in H;
    [|injection H as <-; left; eapply PyFacts.getitem_raises; eassumption].
  destruct (Py.getitem ah i) as [x1|e0] eqn:Hx1; cbn [bind] in H;
    [|injection H as <-; left; eapply PyFacts.getitem_raises; eassumption].
  destruct (mk _) as [b|e0] eqn:Hb; cbn [bind] in H;
    [|injection H as <-; right; eapply Hmk; eassumption].
  destruct (down_loop mk c time_embed_dim tl ah stages x) as [bs|e0] eqn:Hr;
    cbn [bind] in H; [discriminate|].
  injection H as <-. eapply IH; eassumption.
Qed.

End Down.

(** ** The up loop *)

Section Up.

Variables rboc rtl rah : list Z.
Context {B : Type}.
Variable mk : UpBlockArgs DType Float -> result E B.

Hypothesis rboc_length :
  List.length rboc = List.length (block_out_channels c).

Lemma clamp_next (k : nat) :
  (k < List.length rboc)%nat ->
  Z.min (Z.of_nat k + 1) (Py.len (block_out_channels c) - 1) =
  Z.of_nat (Nat.min (k + 1) (List.length (block_out_channels c) - 1)).
Proof. unfold Py.len. lia. Qed.

Lemma up_loop_closed (types : list string) :
  forall (k : nat) (oc : Z),
    oc = nth (k - 1) rboc 0 ->
    (k + List.length types <= List.length rboc)%nat ->
    (k + List.length types <= List.length rtl)%nat ->
    (k + List.length types <= List.length rah)%nat ->
    up_loop mk c time_embed_dim rboc rtl rah
      (Py.enumerate_from (Z.of_nat k) types) oc =
    mapM mk (map (up_stage_args c time_embed_dim rboc rtl rah)
               (numbered k types)).
Proof.
  induction types as [|ty types IH]; intros k oc Hoc Hc Htl Hah;
    [reflexivity|].
  simpl List.length in *.
  rewrite numbered_cons. simpl.
  rewrite (PyFacts.getitem_nat_ok (E := E) rboc 0) by lia.
  rewrite clamp_next by lia.
  rewrite (PyFacts.getitem_nat_ok (E := E) rboc 0) by lia.
  rewrite (PyFacts.getitem_nat_ok (E := E) rtl 0) by lia.
  rewrite (PyFacts.getitem_nat_ok (E := E) rah 0) by lia.
  simpl. subst oc.
  destruct (mk _) as [b|e]; simpl; [|reflexivity].
  replace (Z.of_nat k + 1) with (Z.of_nat (S k)) by lia.
  rewrite IH; try lia; [reflexivity|].
  f_equal. lia.
Qed.

Lemma up_loop_out_of_range (types : list string) :
  (forall a e, mk a = Err e -> exists e', e = Raised e') ->
  forall (k : nat) (oc : Z),
    types <> [] ->
    (List.length rboc < k + List.length types
     \/ List.length rtl < k + List.length types
     \/ List.length rah < k + List.length types)%nat ->
    exists e,
      up_loop mk c time_embed_dim rboc rtl rah
        (Py.enumerate_from (Z.of_nat k) types) oc = Err e
      /\ (e = IndexError \/ exists e', e = Raised e').
Proof.
  intros Hmk.
  induction types as [|ty types IH]; intros k oc Hne Hshort;
    [contradiction|].
  simpl List.length in Hshort. simpl.
  destruct (Nat.le_gt_cases (List.length rboc) k) as [Hc|Hc].
  { rewrite PyFacts.getitem_nat_err by assumption. simpl. eauto. }
  rewrite (PyFacts.getitem_nat_ok (E := E) rboc 0) by assumption. simpl.
  rewrite clamp_next by lia.
  rewrite (PyFacts.getitem_nat_ok (E := E) rboc 0) by lia. simpl.
  destruct (Nat.le_gt_cases (List.length rtl) k) as [Htl|Htl].
  { rewrite PyFacts.getitem_nat_err by assumption. simpl. eauto. }
  rewrite (PyFacts.getitem_nat_ok (E := E) rtl 0) by assumption. simpl.
  destruct (Nat.le_gt_cases (List.length rah) k) as [Hah|Hah].
  { rewrite PyFacts.getitem_nat_err by assumption. simpl. eauto. }
  rewrite (PyFacts.getitem_nat_ok (E := E) rah 0) by assumption. simpl.
  destruct (mk _) as [b|e] eqn:Hb; simpl.
  - replace (Z.of_nat k + 1) with (Z.of_nat (S k)) by lia.
    destruct (IH (S k) (nth k rboc 0)) as [e [He Hkind]].
    + destruct types; [simpl in Hshort; lia|discriminate].
    + lia.
    + rewrite He. simpl. eauto.
  - apply Hmk in Hb. eauto.
Qed.

Lemma up_loop_raises (stages : list (Z * string)) :
  (forall a e, mk a = Err e -> exists e', e = Raised e') ->
  forall (oc : Z) (e : exn E),
    up_loop mk c time_embed_dim rboc rtl rah stages oc = Err e ->
    e = IndexError \/ exists e', e = Raised e'.
Proof.
  intros Hmk. induction stages as [|[i ty] stages IH]; intros oc e H;
    simpl in H; [discriminate|].
  destruct (Py.getitem rboc i) as [x|e0] eqn:Hx; cbn [bind] in H;
    [|injection H as <-; left; eapply PyFacts.getitem_raises; eassumption].
  destruct (Py.getitem rboc _) as [x2|e0] eqn:Hx2 in H; cbn [bind] in H;
    [|injection H as <-; left; eapply PyFacts.getitem_raises; eassumption].
  destruct (Py.getitem rtl i) as [x0|e0] eqn:Hx0; cbn [bind] in H;
    [|injection H as <-; left; eapply PyFacts.getitem_raises; eassumption].
  destruct (Py.getitem rah i) as [x1|e0] eqn:Hx1; cbn [bind] in H;
    [|injection H as <-; left; eapply PyFacts.getitem_raises; eassumption].
  destruct (mk _) as [b|e0] eqn:Hb; cbn [bind] in H;
    [|injection H as <-; right; eapply Hmk; eassumption].
  destruct (up_loop mk c time_embed_dim rboc rtl rah stages x)
    as [bs|e0] eqn:Hr; cbn [bind] in H; [discriminate|].
  injection H as <-. eapply IH; eassumption.
Qed.

End Up.

End Loops.


(** * The constructor *)

Section InitFacts.

Context {T E DType Float : Type}.
Variable layers : Layers T E DType Float.
Variable c : Config DType Float.

Let ah := per_stage (attention_head_dim c) (down_block_types c).
Let tl := per_stage (transformer_layers_per_block c) (down_block_types c).
Let mk_down := fun a => call (E := E) (get_down_block layers a).
Let mk_up := fun a => call (E := E) (get_up_block layers a).

Lemma indexable_spec :
  indexable c = true <->
  (0 < List.length (block_out_channels c)
   /\ List.length (down_block_types c) <= List.length (block_out_channels c)
   /\ List.length (up_block_types c) <= List.length (block_out_channels c)
   /\ 0 < List.length ah
   /\ List.length (down_block_types c) <= List.length ah
   /\ List.length (up_block_types c) <= List.length ah
   /\ 0 < List.length tl
   /\ List.length (down_block_types c) <= List.length tl
   /\ List.length (up_block_types c) <= List.length tl)%nat.
Proof.
  unfold indexable. fold ah tl.
  rewrite !andb_true_iff, !Nat.ltb_lt, !Nat.leb_le. tauto.
Qed.

Lemma call_raises {A} (r : E + A) (e : exn E) :
  call r = Err e -> exists e', e = Raised e'.
Proof.
  destruct r; simpl; [|discriminate].
  intros H. injection H as <-. eauto.
Qed.

(** When the lists are long enough, the constructor is the factory calls
    of the closed form, in order, and the attributes hold their blocks. *)
Lemma init_indexable :
  indexable c = true ->
  exists assemble : list (DownBlock T E) -> list (UpBlock T E) -> Model T E,
    __init__ layers c =
      (downs <- mapM mk_down (down_stages_closed c) ;;
       ups <- mapM mk_up (up_stages_closed c) ;;
       Ok (assemble downs ups))
    /\ forall d u,
         down_blocks (assemble d u) = d
         /\ up_blocks (assemble d u) = u
         /\ self_addition_embed_type (assemble d u) = addition_embed_type c.
Proof.
  intros Hidx. apply indexable_spec in Hidx.
  destruct Hidx as (Hc & Hdc & Huc & Ha & Hda & Hua & Ht & Hdt & Hut).
  unfold __init__, up_stages, mid_block_args, Py.enumerate.
  fold ah tl.
  change 0 with (Z.of_nat 0).
  rewrite (PyFacts.getitem_nat_ok (E := E) (block_out_channels c) 0 Hc).
  cbn [bind].
  rewrite (down_loop_closed (E := E) c _ tl ah
             (fun a => call (get_down_block layers a)))
    by (simpl; lia || reflexivity).
  rewrite (PyFacts.getitem_last (E := E) (block_out_channels c) 0).
  rewrite (PyFacts.getitem_last (E := E) tl 0).
  rewrite (PyFacts.getitem_last (E := E) ah 0).
  destruct (block_out_channels c) as [|c0 boc] eqn:Hboc; [simpl in Hc; lia|].
  destruct tl as [|t0 tl'] eqn:Htl; [simpl in Ht; lia|].
  destruct ah as [|a0 ah'] eqn:Hah; [simpl in Ha; lia|].
  cbn [bind].
  rewrite <- Hboc, <- Htl, <- Hah.
  assert (Hr : (0 < List.length (rev (block_out_channels c)))%nat)
    by (rewrite length_rev, Hboc; simpl; lia).
  rewrite (PyFacts.getitem_nat_ok (E := E) (rev (block_out_channels c)) 0 Hr).
  cbn [bind].
  rewrite (up_loop_closed (E := E) c _ (rev (block_out_channels c))
             (rev tl) (rev ah)
             (fun a => call (get_up_block layers a)))
    by (rewrite ?length_rev; simpl; try lia; try reflexivity;
        rewrite ?Hboc, ?Htl, ?Hah in *; simpl in *; lia).
  unfold down_stages_closed, up_stages_closed. fold ah tl.
  rewrite Hboc. cbn [nth]. rewrite <- Hboc.
  eexists (fun d u => _). split.
  - unfold mk_down, mk_up, ah, tl.
    destruct (mapM _ _) as [downs|e]; cbn [bind]; [|reflexivity].
    destruct (mapM _ _) as [ups|e]; cbn [bind]; reflexivity.
  - intros d u. cbn. auto.
Qed.

Tactic Notation "bind_inv" hyp(H) "as" ident(x) ident(Hx) :=
  match type of H with
  | bind ?c _ = Ok _ =>
      destruct c as [x|] eqn:Hx; cbn [bind] in H; [|discriminate]
  end.

Tactic Notation "bind_err" hyp(H) "as" ident(x) ident(Hx) :=
  match type of H with
  | bind ?c _ = Err _ =>
      destruct c as [x|] eqn:Hx; cbn [bind] in H;
      [|injection H as <-]
  end.

(** The constructor returns only when no list is too short. *)
Lemma init_ok_indexable (self : Model T E) :
  __init__ layers c = Ok self -> indexable c = true.
Proof.
  intros H. apply indexable_spec.
  unfold __init__, up_stages, mid_block_args, Py.enumerate in H.
  fold ah tl in H.
  change 0 with (Z.of_nat 0) in H.
  bind_inv H as c0 Hc0. apply PyFacts.getitem_ok_lt in Hc0.
  bind_inv H as downs Hdown.
  bind_inv H as mid Hmid.
  bind_inv H as ups Hup.
  bind_inv Hmid as ch Hch. bind_inv Hmid as t1 Ht1. bind_inv Hmid as a1 Ha1.
  apply PyFacts.getitem_ok_nonempty in Ht1, Ha1.
  bind_inv Hup as oc Hoc.
  assert (Hd : down_block_types c = [] \/
               (List.length (down_block_types c)
                  <= List.length (block_out_channels c)
                /\ List.length (down_block_types c) <= List.length tl
                /\ List.length (down_block_types c) <= List.length ah)%nat).
  { destruct (down_block_types c) as [|ty types] eqn:Hty; [now left|right].
    rewrite <- Hty in *.
    destruct (Nat.le_gt_cases (List.length (down_block_types c))
                (List.length (block_out_channels c)));
      destruct (Nat.le_gt_cases (List.length (down_block_types c))
                  (List.length tl));
      destruct (Nat.le_gt_cases (List.length (down_block_types c))
                  (List.length ah)); try lia.
    all: exfalso.
    all: destruct (down_loop_out_of_range (E := E) c (c0 * 4) tl ah
           (fun a => call (get_down_block layers a))
           (types := down_block_types c)
           (fun a e => @call_raises _ _ e) 0 c0)
         as [e [He _]];
      [rewrite Hty; discriminate|simpl; lia|].
    all: rewrite He in Hdown; discriminate. }
  assert (Hu : up_block_types c = [] \/
               (List.length (up_block_types c)
                  <= List.length (block_out_channels c)
                /\ List.length (up_block_types c) <= List.length tl
                /\ List.length (up_block_types c) <= List.length ah)%nat).
  { destruct (up_block_types c) as [|ty types] eqn:Hty; [now left|right].
    rewrite <- Hty in *.
    destruct (Nat.le_gt_cases (List.length (up_block_types c))
                (List.length (block_out_channels c)));
      destruct (Nat.le_gt_cases (List.length (up_block_types c))
                  (List.length tl));
      destruct (Nat.le_gt_cases (List.length (up_block_types c))
                  (List.length ah)); try lia.
    all: exfalso.
    all: destruct (up_loop_out_of_range (E := E) c (c0 * 4)
           (rev (block_out_channels c)) (rev tl) (rev ah)
           (fun a => call (get_up_block layers a)) (length_rev _)
           (types := up_block_types c)
           (fun a e => @call_raises _ _ e) 0 oc)
         as [e [He _]];
      [rewrite Hty; discriminate|rewrite !length_rev; simpl; lia|].
    all: rewrite He in Hup; discriminate. }
  assert (Ha : (0 < List.length ah)%nat)
    by (destruct ah; [contradiction|simpl; lia]).
  assert (Ht : (0 < List.length tl)%nat)
    by (destruct tl; [contradiction|simpl; lia]).
  destruct Hd as [Hd|Hd]; [rewrite Hd; simpl|];
    (destruct Hu as [Hu|Hu]; [rewrite Hu; simpl|]); lia.
Qed.

(** What the constructor raises is an [IndexError], or comes from a
    factory. *)
Lemma init_raises (e : exn E) :
  __init__ layers c = Err e ->
  e = IndexError \/ exists e', e = Raised e'.
Proof.
  intros H.
  unfold __init__, up_stages, mid_block_args in H.
  bind_err H as c0 Hc0;
    [|left; eapply PyFacts.getitem_raises; eassumption].
  bind_err H as downs Hdown;
    [|eapply down_loop_raises; [|eassumption];
      intros a e1; apply call_raises].
  bind_err H as mid Hmid.
  2: { bind_err Hmid as ch Hch;
         [|left; eapply PyFacts.getitem_raises; eassumption].
       bind_err Hmid as t1 Ht1;
         [|left; eapply PyFacts.getitem_raises; eassumption].
       bind_err Hmid as a1 Ha1;
         [|left; eapply PyFacts.getitem_raises; eassumption].
       discriminate. }
  bind_err H as ups Hup; [discriminate|].
  bind_err Hup as oc Hoc;
    [|left; eapply PyFacts.getitem_raises; eassumption].
  eapply up_loop_raises; [|eassumption].
  intros a e1; apply call_raises.
Qed.

(** When a list is too short, the constructor raises: an [IndexError],
    unless a factory raised first. *)
Lemma init_not_indexable :
  indexable c = false ->
  exists e, __init__ layers c = Err e
            /\ (e = IndexError \/ exists e', e = Raised e').
Proof.
  intros Hidx.
  destruct (__init__ layers c) as [self|e] eqn:Hinit.
  - apply init_ok_indexable in Hinit. congruence.
  - exists e. split; [reflexivity|]. now apply init_raises.
Qed.

End InitFacts.


(** * Valid configurations and the factory arguments *)

Section ConfigFacts.

Context {DType Float : Type}.
Variable c : Config DType Float.

Let n := List.length (down_block_types c).
Let ah := per_stage (attention_head_dim c) (down_block_types c).
Let tl := per_stage (transformer_layers_per_block c) (down_block_types c).

Lemma per_stage_int (v : Z) (types : list string) :
  per_stage (Int v) types = repeat v (List.length types).
Proof. unfold per_stage, Py.len. apply PyFacts.mul_singleton. Qed.

Lemma per_stage_length (v : int_or_seq) (types : list string) :
  seq_len_ok v (List.length types) = true ->
  List.length (per_stage v types) = List.length types.
Proof.
  destruct v as [v|l]; intros H.
  - rewrite per_stage_int. apply repeat_length.
  - simpl in *. now apply Nat.eqb_eq.
Qed.

Lemma valid_config_spec :
  valid_config c = true ->
  (0 < n)%nat
  /\ List.length (up_block_types c) = n
  /\ List.length (block_out_channels c) = n
  /\ List.length ah = n
  /\ List.length tl = n
  /\ 0 <= layers_per_block c.
Proof.
  unfold valid_config. fold n.
  rewrite !andb_true_iff, Nat.ltb_lt, !Nat.eqb_eq, Z.leb_le.
  intros (((((Hn & Hu) & Hc) & Ha) & Ht) & Hl).
  repeat split; try assumption.
  - now apply per_stage_length.
  - now apply per_stage_length.
Qed.

Lemma valid_indexable : valid_config c = true -> indexable c = true.
Proof.
  intros H. apply valid_config_spec in H.
  destruct H as (Hn & Hu & Hc & Ha & Ht & _).
  unfold indexable. fold n ah tl.
  rewrite !andb_true_iff, !Nat.ltb_lt, !Nat.leb_le. lia.
Qed.

(** With lists long enough, the factories receive the closed forms. *)
Lemma block_args_closed (E : Type) :
  indexable c = true ->
  down_block_args (E := E) c = Ok (down_stages_closed c)
  /\ up_block_args (E := E) c = Ok (up_stages_closed c).
Proof.
  intros Hidx.
  assert (Hlen := Hidx).
  unfold indexable in Hlen. fold ah tl in Hlen.
  rewrite !andb_true_iff, !Nat.ltb_lt, !Nat.leb_le in Hlen.
  destruct Hlen as ((((Hc & Hdc) & Huc) & ((Ha & Hda) & Hua))
                    & ((Ht & Hdt) & Hut)).
  unfold down_block_args, up_block_args, up_stages, Py.enumerate.
  fold ah tl.
  change 0 with (Z.of_nat 0).
  rewrite (PyFacts.getitem_nat_ok (E := E) (block_out_channels c) 0 Hc).
  cbn [bind]. split.
  - rewrite (down_loop_closed (E := E) c _ tl ah (fun a => Ok a))
      by (simpl; lia || reflexivity).
    apply mapM_pure.
  - assert (Hr : (0 < List.length (rev (block_out_channels c)))%nat)
      by (rewrite length_rev; lia).
    rewrite (PyFacts.getitem_nat_ok (E := E) _ 0 Hr). cbn [bind].
    rewrite (up_loop_closed (E := E) c _ (rev (block_out_channels c))
               (rev tl) (rev ah) (fun a => Ok a))
      by (rewrite ?length_rev; simpl; lia || reflexivity).
    apply mapM_pure.
Qed.

Lemma down_stages_closed_nth (i : nat) :
  nth_error (down_stages_closed c) i =
  option_map
    (fun ty => down_stage_args c (nth 0 (block_out_channels c) 0 * 4)
                 tl ah (i, ty))
    (nth_error (down_block_types c) i).
Proof.
  unfold down_stages_closed. rewrite nth_error_map, numbered_nth_error.
  now destruct (nth_error (down_block_types c) i).
Qed.

Lemma up_stages_closed_nth (i : nat) :
  nth_error (up_stages_closed c) i =
  option_map
    (fun ty => up_stage_args c (nth 0 (block_out_channels c) 0 * 4)
                 (rev (block_out_channels c)) (rev tl) (rev ah) (i, ty))
    (nth_error (up_block_types c) i).
Proof.
  unfold up_stages_closed. rewrite nth_error_map, numbered_nth_error.
  now destruct (nth_error (up_block_types c) i).
Qed.

Lemma down_stages_closed_length :
  List.length (down_stages_closed c) = List.length (down_block_types c).
Proof.
  unfold down_stages_closed. now rewrite length_map, numbered_length.
Qed.

Lemma up_stages_closed_length :
  List.length (up_stages_closed c) = List.length (up_block_types c).
Proof.
  unfold up_stages_closed. now rewrite length_map, numbered_length.
Qed.

End ConfigFacts.


(** * The arguments of the stages *)

Section StageClaims.

Context {E DType Float : Type}.
Variable c : Config DType Float.

Let n := List.length (down_block_types c).

Lemma is_final_nat (i : nat) :
  List.length (block_out_channels c) = n -> (0 < n)%nat ->
  (Z.of_nat i =? Py.len (block_out_channels c) - 1) = Nat.eqb i (n - 1).
Proof.
  intros Hc Hn. unfold Py.len. rewrite Hc.
  destruct (Nat.eqb_spec i (n - 1)) as [->|Hne].
  - apply Z.eqb_eq. lia.
  - apply Z.eqb_neq. lia.
Qed.

(** C6, as the code has it: for every up-stage [i] of a valid config,
    [prev_output_channel] is the previous up-stage's output channel
    (the last down-stage's channel count for the first up-stage),
    [output_channel] is the reversed channel list at [i], and
    [input_channel] is the reversed channel list at [min(i+1, N-1)]; the
    clamp acts on the last up-stage, which reuses the first down-stage's
    channel width. *)
Theorem up_stage_channels :
  valid_config c = true ->
  exists uas,
    up_block_args (E := E) c = Ok uas
    /\ List.length uas = n
    /\ (forall i a, nth_error uas i = Some a ->
          ua_out_channels a = nth i (rev (block_out_channels c)) 0
          /\ ua_in_channels a =
               nth (Nat.min (i + 1) (n - 1)) (rev (block_out_channels c)) 0)
    /\ (forall a, nth_error uas 0 = Some a ->
          ua_prev_output_channel a = last (block_out_channels c) 0)
    /\ (forall i a a',
          nth_error uas i = Some a -> nth_error uas (S i) = Some a' ->
          ua_prev_output_channel a' = ua_out_channels a)
    /\ (forall a, nth_error uas (n - 1) = Some a ->
          ua_in_channels a = nth 0 (block_out_channels c) 0).
Proof.
  intros Hvalid.
  destruct (block_args_closed c E (valid_indexable c Hvalid)) as [_ Hup].
  apply valid_config_spec in Hvalid. fold n in Hvalid.
  destruct Hvalid as (Hn & Hu & Hc & _).
  exists (up_stages_closed c). split; [assumption|].
  split; [now rewrite up_stages_closed_length|].
  assert (Hnth : forall i a, nth_error (up_stages_closed c) i = Some a ->
            exists ty, a = up_stage_args c (nth 0 (block_out_channels c) 0 * 4)
              (rev (block_out_channels c))
              (rev (per_stage (transformer_layers_per_block c)
                      (down_block_types c)))
              (rev (per_stage (attention_head_dim c) (down_block_types c)))
              (i, ty)).
  { intros i a H. rewrite up_stages_closed_nth in H.
    destruct (nth_error (up_block_types c) i) as [ty|]; [|discriminate].
    simpl in H. injection H as <-. exists ty. reflexivity. }
  repeat split.
  - apply Hnth in H. destruct H as [ty ->]. reflexivity.
  - apply Hnth in H. destruct H as [ty ->]. simpl. now rewrite Hc.
  - intros a H. apply Hnth in H. destruct H as [ty ->]. simpl.
    destruct (@exists_last _ (block_out_channels c)) as [l' [y Hy]].
    { intros Hnil. rewrite Hnil in Hc. simpl in Hc. lia. }
    rewrite Hy, rev_app_distr, last_last. reflexivity.
  - intros i a a' H H'. apply Hnth in H, H'.
    destruct H as [ty ->], H' as [ty' ->]. simpl.
    now rewrite Nat.sub_0_r.
  - intros a H. apply Hnth in H. destruct H as [ty ->]. simpl.
    rewrite Hc.
    replace (Nat.min (n - 1 + 1) (n - 1)) with (n - 1)%nat by lia.
    rewrite rev_nth by lia. rewrite Hc. f_equal. lia.
Qed.

(** C7: for every valid config with [N] stages, [add_downsample] is true
    for every down-stage except the last (index [N-1]), and [add_upsample]
    is true for every up-stage except the last. *)
Theorem samplers_on_all_but_last_stage :
  valid_config c = true ->
  exists das uas,
    down_block_args (E := E) c = Ok das
    /\ up_block_args (E := E) c = Ok uas
    /\ List.length das = n
    /\ List.length uas = n
    /\ (forall i a, nth_error das i = Some a ->
          da_add_downsample a = negb (Nat.eqb i (n - 1)))
    /\ (forall i a, nth_error uas i = Some a ->
          ua_add_upsample a = negb (Nat.eqb i (n - 1))).
Proof.
  intros Hvalid.
  destruct (block_args_closed c E (valid_indexable c Hvalid))
    as [Hdown Hup].
  apply valid_config_spec in Hvalid. fold n in Hvalid.
  destruct Hvalid as (Hn & Hu & Hc & _).
  exists (down_stages_closed c), (up_stages_closed c).
  repeat split; try assumption.
  - apply down_stages_closed_length.
  - now rewrite up_stages_closed_length.
  - intros i a H. rewrite down_stages_closed_nth in H.
    destruct (nth_error (down_block_types c) i) as [ty|]; [|discriminate].
    simpl in H. injection H as <-. simpl. f_equal. now apply is_final_nat.
  - intros i a H. rewrite up_stages_closed_nth in H.
    destruct (nth_error (up_block_types c) i) as [ty|]; [|discriminate].
    simpl in H. injection H as <-. simpl. f_equal. now apply is_final_nat.
Qed.

(** C8: with [N] down-stages, a scalar attention head count (or
    transformer layer depth) becomes a sequence of length [N] whose every
    entry is the scalar; a sequence is left unchanged; down-stage [i] is
    built with entry [i] of the sequence and up-stage [i] with entry [i] of
    the reversed sequence. *)
Theorem scalar_broadcast_per_stage :
  (forall v types,
      per_stage (Int v) types = repeat v (List.length types)
      /\ List.length (per_stage (Int v) types) = List.length types
      /\ (forall x, In x (per_stage (Int v) types) -> x = v))
  /\ (forall l types, per_stage (Seq l) types = l)
  /\ (valid_config c = true ->
      let heads := per_stage (attention_head_dim c) (down_block_types c) in
      let depth :=
        per_stage (transformer_layers_per_block c) (down_block_types c) in
      exists das uas,
        down_block_args (E := E) c = Ok das
        /\ up_block_args (E := E) c = Ok uas
        /\ List.length das = n /\ List.length uas = n
        /\ List.length heads = n /\ List.length depth = n
        /\ (forall i a, nth_error das i = Some a ->
              da_attn_num_head_channels a = nth i heads 0
              /\ da_transformer_layers_per_block a = nth i depth 0)
        /\ (forall i a, nth_error uas i = Some a ->
              ua_attn_num_head_channels a = nth i (rev heads) 0
              /\ ua_transformer_layers_per_block a = nth i (rev depth) 0)).
Proof.
  split; [|split].
  - intros v types. rewrite per_stage_int.
    split; [reflexivity|]. split; [apply repeat_length|].
    intros x Hx. now apply repeat_spec in Hx.
  - reflexivity.
  - intros Hvalid heads depth.
    destruct (block_args_closed c E (valid_indexable c Hvalid))
      as [Hdown Hup].
    apply valid_config_spec in Hvalid. fold n in Hvalid.
    destruct Hvalid as (Hn & Hu & Hc & Ha & Ht & _).
    exists (down_stages_closed c), (up_stages_closed c).
    repeat split; try assumption.
    + apply down_stages_closed_length.
    + now rewrite up_stages_closed_length.
    + rewrite down_stages_closed_nth in H.
      destruct (nth_error (down_block_types c) i) as [ty|]; [|discriminate].
      simpl in H. injection H as <-. reflexivity.
    + rewrite down_stages_closed_nth in H.
      destruct (nth_error (down_block_types c) i) as [ty|]; [|discriminate].
      simpl in H. injection H as <-. reflexivity.
    + rewrite up_stages_closed_nth in H.
      destruct (nth_error (up_block_types c) i) as [ty|]; [|discriminate].
      simpl in H. injection H as <-. reflexivity.
    + rewrite up_stages_closed_nth in H.
      destruct (nth_error (up_block_types c) i) as [ty|]; [|discriminate].
      simpl in H. injection H as <-. reflexivity.
Qed.

End StageClaims.


(** * forward: conditioning inputs and the skip tuple *)

Section ForwardClaims.

Context {T E DType : Type}.
Variable lib : TensorLib T DType.

(** The phases of a traced run that returned. *)
Lemma forward_trace_inv (self : Model T E) sample timesteps enc te ti tr :
  forward_trace lib self sample timesteps enc te ti = Ok tr ->
  exists sample1 sample2 sample3,
    embedding lib self timesteps te ti = Ok (tr_emb tr)
    /\ tr_conv_in tr = conv_in self sample
    /\ down_path (down_blocks self) (tr_emb tr) enc
         (tr_conv_in tr) [tr_conv_in tr] = Ok (sample1, tr_skip_stack tr)
    /\ mid_block self sample1 (tr_emb tr) enc = inr sample2
    /\ up_path (up_blocks self) (tr_emb tr) enc sample2 (tr_skip_stack tr)
       = Ok (sample3, tr_residue tr, tr_handed tr).
Proof.
  unfold forward_trace. intros H.
  destruct (embedding lib self timesteps te ti) as [emb|e]; simpl in H;
    [|discriminate].
  destruct (down_path _ _ _ _ _) as [[s1 stack]|e] eqn:Hdown; simpl in H;
    [|discriminate].
  destruct (mid_block self s1 emb enc) as [e|s2] eqn:Hmid; simpl in H;
    [discriminate|].
  destruct (up_path _ _ _ _ _) as [[[s3 rest] handed]|e] eqn:Hup;
    simpl in H; [|discriminate].
  injection H as <-. simpl. exists s1, s2, s3. auto.
Qed.

(** C1, as the code has it: when fewer tensors remain than an up-stage's
    resnet count, nothing is raised at that pop: the stage's block is
    called with all the remaining tensors, the tuple becomes empty, and the
    up path goes on; the up path raises only what a block raised, and
    [forward] never raises an [IndexError]. *)
Theorem up_path_short_stack_proceeds :
  (forall (b : UpBlock T E) blocks emb enc sample stack,
      (List.length stack < up_resnets b)%nat ->
      up_path (b :: blocks) emb enc sample stack =
      (sample' <-
         call (up_call b sample emb stack
                 (if up_attentions b then Some enc else None)) ;;
       '(out, rest, handed) <- up_path blocks emb enc sample' [] ;;
       Ok (out, rest, stack :: handed)))
  /\ (forall (blocks : list (UpBlock T E)) emb enc sample stack e,
        up_path blocks emb enc sample stack = Err e ->
        exists e', e = Raised e')
  /\ (forall (self : Model T E) sample timesteps enc te ti,
        forward lib self sample timesteps enc te ti <> Err IndexError).
Proof.
  split; [|split].
  - intros b blocks emb enc sample stack Hshort.
    rewrite up_path_cons.
    rewrite pop_res_samples_short by lia. reflexivity.
  - intros blocks. apply up_path_raises.
  - intros self sample timesteps enc te ti H.
    apply forward_raises in H. destruct H as [H|[e' H]]; [|discriminate].
    unfold embedding in H.
    destruct (is_text_time _); simpl in H; [|discriminate].
    destruct te as [te|]; [|discriminate].
    destruct ti as [ti|]; [|discriminate].
    destruct (add_time_proj self); simpl in H; [|discriminate].
    destruct (add_embedding self); simpl in H; discriminate.
Qed.

(** C4: [forward] raises the assertion's error if and only if the mode is
    "text_time" and [text_embeds] or [time_ids] is absent; in any other
    mode the embedding is the timestep embedding alone and the supplied
    [text_embeds] and [time_ids] are ignored. *)
Theorem forward_conditioning_inputs (self : Model T E)
    sample timesteps enc te ti :
  (forward lib self sample timesteps enc te ti = Err AssertionError <->
   is_text_time (self_addition_embed_type self) = true
   /\ (te = None \/ ti = None))
  /\ (is_text_time (self_addition_embed_type self) = false ->
      embedding lib self timesteps te ti =
        Ok (time_embedding self (time_proj self timesteps))
      /\ forward lib self sample timesteps enc te ti =
         forward lib self sample timesteps enc None None).
Proof.
  split.
  - rewrite <- (embedding_assertion lib). split.
    + intros H. apply forward_raises in H.
      destruct H as [H|[e' H]]; [eassumption|discriminate].
    + intros H. unfold forward. rewrite H. reflexivity.
  - intros Hmode. split; [now apply embedding_plain|].
    unfold forward. now rewrite !embedding_plain.
Qed.

(** The two slices in closed form: what is handed over starts at position
    [k] of the tuple, where [k] is [len - n], and [0] when [n] is [0] or
    exceeds [len]. *)
Lemma pop_res_samples_closed (n : nat) (stack : list T) :
  pop_res_samples n stack =
  (skipn (if Nat.eqb n 0 then 0 else List.length stack - n)%nat stack,
   firstn (if Nat.eqb n 0 then 0 else List.length stack - n)%nat stack).
Proof.
  destruct n as [|n]; cbn [Nat.eqb].
  - apply pop_res_samples_zero.
  - unfold pop_res_samples, Py.slice_from, Py.slice_to.
    now rewrite slice_bound_neg by lia.
Qed.

(** C5, as the code has it: before each up-stage's block is called, the
    tail of the skip tuple from position [k] on is taken off and is the
    very tuple the block is called with, in its down-path order, and the
    up path goes on with the part before [k]; [k] is [len - count] for a
    stage with at least one resnet (so exactly [count] tensors when that
    many remain, all the remaining ones when fewer do) and [0] for a stage
    without resnets (the whole tuple). In a run where every stage has a
    resnet and the tuple holds enough, every block is called with exactly
    its count of tensors, and the tuple is what is left followed by the
    tuples the blocks were called with, last stage first. *)
Theorem up_stage_pops_exact_count :
  (forall (b : UpBlock T E) blocks emb enc sample stack,
      let k :=
        (if Nat.eqb (up_resnets b) 0 then 0
         else List.length stack - up_resnets b)%nat in
      up_path (b :: blocks) emb enc sample stack =
        (sample' <-
           call (up_call b sample emb (skipn k stack)
                   (if up_attentions b then Some enc else None)) ;;
         '(out, rest, handed) <-
           up_path blocks emb enc sample' (firstn k stack) ;;
         Ok (out, rest, skipn k stack :: handed))
      /\ stack = firstn k stack ++ skipn k stack
      /\ ((0 < up_resnets b <= List.length stack)%nat ->
          List.length (skipn k stack) = up_resnets b))
  /\ (forall (self : Model T E) sample timesteps enc te ti tr,
        forward_trace lib self sample timesteps enc te ti = Ok tr ->
        Forall (fun b => (0 < up_resnets b)%nat) (up_blocks self) ->
        (total_resnets (up_blocks self)
           <= List.length (tr_skip_stack tr))%nat ->
        Forall2 (fun b res => List.length res = up_resnets b)
          (up_blocks self) (tr_handed tr)
        /\ Forall2 (called_with (tr_emb tr) enc)
             (up_blocks self) (tr_handed tr)
        /\ tr_skip_stack tr =
             tr_residue tr ++ List.concat (rev (tr_handed tr))).
Proof.
  split.
  - intros b blocks emb enc sample stack k. split; [|split].
    + rewrite up_path_cons, pop_res_samples_closed. reflexivity.
    + symmetry. apply firstn_skipn.
    + intros [Hpos Hle]. subst k.
      destruct (Nat.eqb_spec (up_resnets b) 0) as [Hz|_]; [lia|].
      rewrite length_skipn. lia.
  - intros self sample timesteps enc te ti tr Hrun Hpos Hle.
    apply forward_trace_inv in Hrun.
    destruct Hrun as (s1 & s2 & s3 & _ & _ & _ & _ & Hup).
    split; [|split].
    + eapply up_path_exact; eassumption.
    + eapply up_path_called; eassumption.
    + eapply up_path_split; eassumption.
Qed.

End ForwardClaims.


(** * The constructor: which configs it accepts *)

Section ConstructorClaims.

Context {T E DType Float : Type}.
Variable layers : Layers T E DType Float.
Variable c : Config DType Float.

Lemma call_ok {A} (r : E + A) (x : A) : call r = Ok x <-> r = inr x.
Proof.
  destruct r as [e|y]; simpl; split; intros H;
    try discriminate; now injection H as ->.
Qed.

Lemma accepts_iff {A B} (f : A -> E + B) (l : list A) :
  (forall a, In a l -> exists b, f a = inr b) <->
  is_ok (mapM (fun a => call (f a)) l) = true.
Proof.
  rewrite <- mapM_total.
  split; intros H a Ha; destruct (H a Ha) as [b Hb]; exists b;
    now apply call_ok.
Qed.

(** The blocks of a constructed model are what the factories returned on
    the closed-form arguments. *)
Lemma init_blocks (self : Model T E) :
  __init__ layers c = Ok self ->
  Forall2 (fun a b => get_down_block layers a = inr b)
    (down_stages_closed c) (down_blocks self)
  /\ Forall2 (fun a b => get_up_block layers a = inr b)
       (up_stages_closed c) (up_blocks self)
  /\ self_addition_embed_type self = addition_embed_type c.
Proof.
  intros H.
  destruct (init_indexable layers c (init_ok_indexable layers c H))
    as (assemble & Heq & Hfields).
  rewrite Heq in H.
  destruct (mapM _ (down_stages_closed c)) as [downs|e] eqn:Hd;
    cbn [bind] in H; [|discriminate].
  destruct (mapM _ (up_stages_closed c)) as [ups|e] eqn:Hu;
    cbn [bind] in H; [|discriminate].
  injection H as <-.
  destruct (Hfields downs ups) as (-> & -> & ->).
  apply mapM_ok in Hd, Hu.
  repeat split.
  - eapply Forall2_impl; [|exact Hd]. intros a b. apply call_ok.
  - eapply Forall2_impl; [|exact Hu]. intros a b. apply call_ok.
Qed.

(** C2, as the code has it: the constructor validates no length. It
    raises (an [IndexError], unless a factory raised first) when
    [block_out_channels] or a per-stage sequence is empty or shorter than
    the list of down block types or of up block types; with lists long
    enough, whatever their lengths, it returns exactly when the factories
    accept the arguments of every stage; a valid config has lists long
    enough. *)
Theorem init_fails_only_on_short_lists :
  (indexable c = false ->
   exists e, __init__ layers c = Err e
             /\ (e = IndexError \/ exists e', e = Raised e'))
  /\ (indexable c = true ->
      exists das uas,
        down_block_args (E := E) c = Ok das
        /\ up_block_args (E := E) c = Ok uas
        /\ (is_ok (__init__ layers c) = true <->
            (forall a, In a das ->
                       exists b, get_down_block layers a = inr b)
            /\ (forall a, In a uas ->
                          exists b, get_up_block layers a = inr b)))
  /\ (valid_config c = true -> indexable c = true).
Proof.
  split; [apply init_not_indexable|].
  split; [|apply valid_indexable].
  intros Hidx.
  destruct (block_args_closed c E Hidx) as [Hdown Hup].
  exists (down_stages_closed c), (up_stages_closed c).
  split; [assumption|]. split; [assumption|].
  destruct (init_indexable layers c Hidx) as (assemble & Heq & _).
  rewrite Heq.
  rewrite (accepts_iff (get_down_block layers) (down_stages_closed c)).
  rewrite (accepts_iff (get_up_block layers) (up_stages_closed c)).
  destruct (mapM _ (down_stages_closed c)) as [downs|e]; cbn [bind].
  - destruct (mapM _ (up_stages_closed c)) as [ups|e]; cbn [bind];
      simpl; intuition congruence.
  - simpl. intuition congruence.
Qed.

End ConstructorClaims.


(** * Skip tensors produced and consumed *)

Section SkipBalance.

Context {T E DType Float : Type}.
Variable lib : TensorLib T DType.
Variable layers : Layers T E DType Float.

(** The layout of the blocks of [unet_2d_blocks]: a down block returns one
    residual sample per layer, and one more when it down-samples; an up
    block has one resnet per layer. *)
Hypothesis down_residuals :
  forall a b, get_down_block layers a = inr b ->
    forall h temb enc s res,
      down_call b h temb enc = inr (s, res) ->
      List.length res = expected_residuals a.

Hypothesis up_resnets_count :
  forall a b, get_up_block layers a = inr b ->
    up_resnets b = Z.to_nat (ua_num_layers a).

Lemma down_path_length (args : list (DownBlockArgs DType Float)) :
  forall blocks emb enc sample stack sample' stack',
    Forall2 (fun a b => get_down_block layers a = inr b) args blocks ->
    down_path blocks emb enc sample stack = Ok (sample', stack') ->
    List.length stack' =
      (List.length stack + list_sum (map expected_residuals args))%nat.
Proof.
  induction args as [|a args IH];
    intros blocks emb enc sample stack sample' stack' Hall H;
    inversion Hall as [|? b ? blocks' Hb Hrest]; subst; simpl in H.
  - injection H as <- <-. simpl. lia.
  - destruct (down_call b sample emb _) as [e|[s1 res]] eqn:Hcall;
      simpl in H; [discriminate|].
    apply (IH _ _ _ _ _ _ _ Hrest) in H.
    eapply down_residuals in Hcall; [|exact Hb].
    rewrite H, length_app, Hcall. simpl. lia.
Qed.

(** The tuple after the down path is the tuple before it followed by the
    residual tuples the blocks returned, block by block. *)
Lemma down_path_produced (blocks : list (DownBlock T E)) :
  forall emb enc sample stack sample' stack',
    down_path blocks emb enc sample stack = Ok (sample', stack') ->
    exists produced,
      stack' = stack ++ List.concat produced
      /\ Forall2 (returned_by emb enc) blocks produced.
Proof.
  induction blocks as [|b blocks IH];
    intros emb enc sample stack sample' stack' H; simpl in H.
  - injection H as <- <-. exists []. split; [|constructor].
    simpl. now rewrite app_nil_r.
  - destruct (down_call b sample emb _) as [e|[s1 res]] eqn:Hcall;
      simpl in H; [discriminate|].
    apply IH in H. destruct H as (produced & -> & Hall).
    exists (res :: produced). split.
    + simpl. now rewrite app_assoc.
    + constructor; [|assumption]. exists sample, s1. exact Hcall.
Qed.

Section Valid.

Variable c : Config DType Float.
Hypothesis Hvalid : valid_config c = true.

Let n := List.length (down_block_types c).
Let L := Z.to_nat (layers_per_block c).

Lemma expected_residuals_sum (types : list string) :
  forall k ted tl ah,
    types <> [] ->
    (k + List.length types = n)%nat ->
    list_sum (map expected_residuals
                (map (down_stage_args c ted tl ah) (numbered k types))) =
    (List.length types * (L + 1) - 1)%nat.
Proof.
  destruct (valid_config_spec c Hvalid) as (Hn & _ & Hc & _).
  fold n in Hn, Hc.
  induction types as [|ty types IH]; intros k ted tl ah Hne Hk;
    [contradiction|].
  rewrite numbered_cons. simpl map. simpl list_sum.
  unfold expected_residuals at 1. simpl.
  rewrite (is_final_nat c k Hc Hn). fold L. fold n.
  destruct (Nat.eqb_spec k (n - 1)) as [Hlast|Hnot]; cbn [negb].
  - destruct types as [|ty' types]; [simpl; lia|simpl in Hk; lia].
  - destruct types as [|ty' types]; [simpl in Hk; lia|].
    rewrite IH by (try discriminate; simpl in *; lia).
    simpl. lia.
Qed.

Lemma up_blocks_resnets (ups : list (UpBlock T E)) :
  Forall2 (fun a b => get_up_block layers a = inr b)
    (up_stages_closed c) ups ->
  Forall (fun b => up_resnets b = (L + 1)%nat) ups
  /\ List.length ups = n.
Proof.
  destruct (valid_config_spec c Hvalid) as (Hn & Hu & _ & _ & _ & Hl).
  fold n in Hn, Hu.
  intros Hall. split.
  - unfold up_stages_closed in Hall.
    remember (numbered 0 (up_block_types c)) as stages eqn:Hst.
    clear Hst. revert ups Hall.
    induction stages as [|[i ty] stages IH]; intros ups Hall;
      inversion Hall as [|? b ? ups' Hb Hrest]; subst; constructor.
    + apply up_resnets_count in Hb. rewrite Hb. simpl. unfold L. lia.
    + now apply IH.
  - apply Forall2_length in Hall.
    now rewrite <- Hall, up_stages_closed_length.
Qed.

Lemma total_resnets_const (ups : list (UpBlock T E)) (m : nat) :
  Forall (fun b => up_resnets b = m) ups ->
  total_resnets ups = (List.length ups * m)%nat.
Proof.
  induction 1 as [|b ups Hb _ IH]; simpl; [reflexivity|].
  rewrite IH, Hb. reflexivity.
Qed.

Lemma handed_sum (ups : list (UpBlock T E)) (handed : list (list T)) :
  Forall2 (fun b res => List.length res = up_resnets b) ups handed ->
  list_sum (map (@List.length T) handed) = total_resnets ups.
Proof.
  induction 1 as [|b res ups handed Hb _ IH]; simpl; [reflexivity|].
  now rewrite IH, Hb.
Qed.

(** In a model built from a valid config, the skip tuple after the down
    path holds [N * (layers_per_block + 1)] tensors, every up block pops
    [layers_per_block + 1] of them, and nothing is left. *)
Lemma valid_run_balanced (self : Model T E) sample timesteps enc te ti tr :
  __init__ layers c = Ok self ->
  forward_trace lib self sample timesteps enc te ti = Ok tr ->
  List.length (tr_skip_stack tr) = (n * (L + 1))%nat
  /\ List.length (tr_handed tr) = n
  /\ Forall (fun res => List.length res = (L + 1)%nat) (tr_handed tr)
  /\ tr_residue tr = []
  /\ tr_skip_stack tr = List.concat (rev (tr_handed tr)).
Proof.
  intros Hinit Hrun.
  destruct (valid_config_spec c Hvalid) as (Hn & _).
  fold n in Hn.
  destruct (init_blocks layers c Hinit) as (Hdowns & Hups & _).
  apply up_blocks_resnets in Hups. destruct Hups as [Hres Hlen].
  apply forward_trace_inv in Hrun.
  destruct Hrun as (s1 & s2 & s3 & _ & _ & Hdown & _ & Hup).
  eapply down_path_length in Hdown; [|exact Hdowns].
  unfold down_stages_closed in Hdown.
  rewrite expected_residuals_sum in Hdown;
    [|intros Hnil; unfold n in Hn; rewrite Hnil in Hn; simpl in Hn; lia
     |reflexivity].
  fold n in Hdown. simpl List.length in Hdown.
  assert (Hstack : List.length (tr_skip_stack tr) = (n * (L + 1))%nat)
    by (rewrite Hdown; nia).
  assert (Htotal : total_resnets (up_blocks self) = (n * (L + 1))%nat)
    by (erewrite total_resnets_const by exact Hres;
        rewrite Hlen; reflexivity).
  pose proof Hup as Hsplit. apply up_path_split in Hsplit.
  destruct Hsplit as [Hsplit Hhl].
  apply up_path_exact in Hup;
    [|eapply Forall_impl; [|exact Hres]; simpl; intros; lia|lia].
  destruct Hup as [Hexact Hrest].
  assert (Hnil : tr_residue tr = [])
    by (apply length_zero_iff_nil; lia).
  split; [assumption|]. split; [lia|]. split; [|split; [assumption|]].
  - clear - Hexact Hres. revert Hres.
    induction Hexact as [|b res ups handed Hb _ IH]; intros Hres;
      constructor; inversion Hres; subst; [congruence|auto].
  - now rewrite Hsplit, Hnil.
Qed.

(** C3: for every valid config, over one call of [forward] the number of
    skip tensors the down path produced equals the number the up path
    consumed, and the skip tuple is empty after the up path. Produced: the
    tuple after the down path is the output of [conv_in] followed by the
    residual tuples the down blocks returned, in order, [N *
    (layers_per_block + 1)] tensors in all, one more than the factories'
    stage arguments announce. Consumed: every up block is called with
    exactly [len(resnets)] tensors, and these tuples, last stage first,
    make up the whole tuple. *)
Theorem skip_stack_balanced (self : Model T E)
    sample timesteps enc te ti tr :
  __init__ layers c = Ok self ->
  forward_trace lib self sample timesteps enc te ti = Ok tr ->
  (exists das produced,
      down_block_args (E := E) c = Ok das
      /\ tr_skip_stack tr = tr_conv_in tr :: List.concat produced
      /\ Forall2 (returned_by (tr_emb tr) enc) (down_blocks self) produced
      /\ List.length (tr_skip_stack tr) =
           (1 + list_sum (map expected_residuals das))%nat)
  /\ List.length (tr_skip_stack tr) = (n * (L + 1))%nat
  /\ Forall2 (fun b res => List.length res = up_resnets b)
       (up_blocks self) (tr_handed tr)
  /\ Forall2 (called_with (tr_emb tr) enc) (up_blocks self) (tr_handed tr)
  /\ total_resnets (up_blocks self) =
       list_sum (map (@List.length T) (tr_handed tr))
  /\ List.length (tr_skip_stack tr) =
       list_sum (map (@List.length T) (tr_handed tr))
  /\ tr_skip_stack tr = List.concat (rev (tr_handed tr))
  /\ tr_residue tr = [].
Proof.
  intros Hinit Hrun.
  destruct (valid_run_balanced _ _ _ _ _ Hinit Hrun)
    as (Hstack & Hlen & Hall & Hnil & Hcat).
  destruct (valid_config_spec c Hvalid) as (Hn & _). fold n in Hn.
  destruct (block_args_closed c E (valid_indexable c Hvalid))
    as [Hargs _].
  destruct (init_blocks layers c Hinit) as (Hdowns & Hups & _).
  apply up_blocks_resnets in Hups. destruct Hups as [Hres Hcount].
  apply forward_trace_inv in Hrun.
  destruct Hrun as (s1 & s2 & s3 & _ & _ & Hdown & _ & Hup).
  pose proof Hdown as Hprod. apply down_path_produced in Hprod.
  destruct Hprod as (produced & Hstack_eq & Hreturned).
  pose proof (up_path_called _ _ _ _ _ Hup) as Hcalled.
  assert (Hexact : Forall2 (fun b res => List.length res = up_resnets b)
                     (up_blocks self) (tr_handed tr)).
  { apply up_path_exact in Hup;
      [tauto|eapply Forall_impl; [|exact Hres]; simpl; intros; lia|].
    erewrite total_resnets_const by exact Hres. rewrite Hcount. lia. }
  assert (Hsum : list_sum (map (@List.length T) (tr_handed tr)) =
                 (n * (L + 1))%nat).
  { rewrite (handed_sum Hexact).
    erewrite total_resnets_const by exact Hres. now rewrite Hcount. }
  split; [|repeat split; try assumption; try lia].
  - exists (down_stages_closed c), produced.
    split; [assumption|]. split; [assumption|]. split; [assumption|].
    unfold down_stages_closed.
    rewrite expected_residuals_sum;
      [|intros Hno; unfold n in Hn; rewrite Hno in Hn; simpl in Hn; lia
       |reflexivity].
    fold n. rewrite Hstack. nia.
  - now rewrite (handed_sum Hexact).
Qed.

(** For a valid config the pops of the final up-stage take the bottom
    entry: the output of the input convolution is the first tensor handed
    to the last up block. *)
Lemma valid_run_bottom_consumed (self : Model T E)
    sample timesteps enc te ti tr :
  __init__ layers c = Ok self ->
  forward_trace lib self sample timesteps enc te ti = Ok tr ->
  tr_residue tr = []
  /\ (exists others, last (tr_handed tr) [] = tr_conv_in tr :: others).
Proof.
  intros Hinit Hrun.
  destruct (valid_run_balanced _ _ _ _ _ Hinit Hrun)
    as (Hstack & Hlen & Hall & Hnil & Hcat).
  destruct (valid_config_spec c Hvalid) as (Hn & _). fold n in Hn.
  apply forward_trace_inv in Hrun.
  destruct Hrun as (s1 & s2 & s3 & _ & Hconv & Hdown & _ & _).
  apply down_path_extends in Hdown. destruct Hdown as [above Habove].
  simpl in Habove.
  split; [assumption|].
  destruct (@exists_last _ (tr_handed tr)) as [front [res Hh]].
  { intros Hnone. rewrite Hnone in Hlen. simpl in Hlen. lia. }
  rewrite Hh in *. rewrite last_last.
  rewrite rev_app_distr in Hcat. simpl in Hcat.
  apply Forall_app in Hall. destruct Hall as [_ Hres].
  inversion Hres as [|? ? Hlen_res _]; subst.
  destruct res as [|x others]; [simpl in Hlen_res; lia|].
  rewrite Habove in Hcat. simpl in Hcat. injection Hcat as -> _.
  eauto.
Qed.

End Valid.

End SkipBalance.

(** C10, as the code has it: in every call of [forward] that returns, the
    output of the input convolution is the one entry of the skip tuple
    when the down path starts, so it is the first (bottom) entry of the
    tuple the down path leaves, below everything the down blocks append.
    For a valid config, with blocks of the usual layout, the pops of the
    final up-stage take it (it is the first tensor handed to the last up
    block) and nothing is left; for the other configs the constructor
    accepts, nothing says so. *)
Theorem conv_in_is_bottom_skip {T E DType Float : Type}
    (lib : TensorLib T DType) :
  (forall (self : Model T E) sample timesteps enc te ti tr,
      forward_trace lib self sample timesteps enc te ti = Ok tr ->
      tr_conv_in tr = conv_in self sample
      /\ (exists sample1,
             down_path (down_blocks self) (tr_emb tr) enc
               (tr_conv_in tr) [tr_conv_in tr]
             = Ok (sample1, tr_skip_stack tr))
      /\ (exists above, tr_skip_stack tr = tr_conv_in tr :: above))
  /\ (forall (layers : Layers T E DType Float) (c : Config DType Float),
        (forall a b, get_down_block layers a = inr b ->
           forall h temb enc s res,
             down_call b h temb enc = inr (s, res) ->
             List.length res = expected_residuals a) ->
        (forall a b, get_up_block layers a = inr b ->
           up_resnets b = Z.to_nat (ua_num_layers a)) ->
        valid_config c = true ->
        forall (self : Model T E) sample timesteps enc te ti tr,
          __init__ layers c = Ok self ->
          forward_trace lib self sample timesteps enc te ti = Ok tr ->
          tr_residue tr = []
          /\ (exists others,
                 last (tr_handed tr) [] = tr_conv_in tr :: others)).
Proof.
  split.
  - intros self sample timesteps enc te ti tr Hrun.
    apply forward_trace_inv in Hrun.
    destruct Hrun as (s1 & s2 & s3 & _ & Hconv & Hdown & _ & _).
    split; [assumption|]. split; [eauto|].
    apply down_path_extends in Hdown. destruct Hdown as [above Habove].
    simpl in Habove. eauto.
  - intros layers c Hdown Hup Hvalid self sample timesteps enc te ti tr
      Hinit Hrun.
    eapply valid_run_bottom_consumed; eassumption.
Qed.


(** * Determinism *)

Section Determinism.

Context {T E DType : Type}.

Ltac same_outcome :=
  match goal with
  | Hf : fun1 ?R, H1 : ?R ?a ?b, H2 : ?R ?a ?b' |- _ =>
      tryif constr_eq b b' then fail
      else (pose proof (Hf a b b' H1 H2); subst b'; clear H2)
  | Hf : fun2 ?R, H1 : ?R ?a ?b ?x, H2 : ?R ?a ?b ?x' |- _ =>
      tryif constr_eq x x' then fail
      else (pose proof (Hf a b x x' H1 H2); subst x'; clear H2)
  | Hf : fun3 ?R, H1 : ?R ?a ?b ?c ?x, H2 : ?R ?a ?b ?c ?x' |- _ =>
      tryif constr_eq x x' then fail
      else (pose proof (Hf a b c x x' H1 H2); subst x'; clear H2)
  | Hf : fun4 ?R, H1 : ?R ?a ?b ?c ?d ?x, H2 : ?R ?a ?b ?c ?d ?x' |- _ =>
      tryif constr_eq x x' then fail
      else (pose proof (Hf a b c d x x' H1 H2); subst x'; clear H2)
  end.

Ltac open_run H :=
  repeat match type of H with
         | exists _, _ => let x := fresh "x" in destruct H as [x H]
         | _ /\ _ => let H' := fresh "H" in destruct H as [H' H]
         end.

Section WithLib.

Variable rlib : RTensorLib T DType.
Hypothesis lib_det : deterministic_lib rlib.

Lemma embedding_rel_det (self : RModel T E) timesteps te ti r1 r2 :
  deterministic_model self ->
  embedding_rel rlib self timesteps te ti r1 ->
  embedding_rel rlib self timesteps te ti r2 ->
  r1 = r2.
Proof.
  intros Hself H1 H2.
  destruct lib_det as [Hview Hshape Hconcat Hdtype Hcast Hadd].
  destruct Hself as [_ Htp Hte Hatp Hae _ _ _ _ _ _].
  unfold embedding_rel in H1, H2.
  destruct H1 as (t_emb & emb & Ha & Hb & H1).
  destruct H2 as (t_emb' & emb' & Ha' & Hb' & H2).
  repeat same_outcome.
  destruct (is_text_time _); [|congruence].
  destruct te as [te|]; [|congruence].
  destruct ti as [ti|]; [|congruence].
  destruct (r_add_time_proj self) as [atp|]; [|congruence].
  simpl in Hatp.
  open_run H1. open_run H2.
  repeat same_outcome.
  destruct (r_add_embedding self) as [ae|]; [|congruence].
  simpl in Hae.
  open_run H1. open_run H2.
  repeat same_outcome.
  congruence.
Qed.

Lemma down_path_rel_det (blocks : list (RDownBlock T E)) :
  Forall (fun b => fun3 (r_down_call b)) blocks ->
  forall emb enc sample stack r1 r2,
    down_path_rel blocks emb enc sample stack r1 ->
    down_path_rel blocks emb enc sample stack r2 ->
    r1 = r2.
Proof.
  induction 1 as [|b blocks Hb _ IH]; intros emb enc sample stack r1 r2;
    simpl; [congruence|].
  intros (o1 & Hc1 & H1) (o2 & Hc2 & H2).
  same_outcome.
  destruct o1 as [e|[s res]]; [congruence|].
  eapply IH; eassumption.
Qed.

Lemma up_path_rel_det (blocks : list (RUpBlock T E)) :
  Forall (fun b => fun4 (r_up_call b)) blocks ->
  forall emb enc sample stack r1 r2,
    up_path_rel blocks emb enc sample stack r1 ->
    up_path_rel blocks emb enc sample stack r2 ->
    r1 = r2.
Proof.
  induction 1 as [|b blocks Hb _ IH]; intros emb enc sample stack r1 r2;
    simpl; [congruence|].
  destruct (pop_res_samples (r_up_resnets b) stack) as [res rest].
  intros (o1 & Hc1 & H1) (o2 & Hc2 & H2).
  same_outcome.
  destruct o1 as [e|s]; [congruence|].
  eapply IH; eassumption.
Qed.

Lemma forward_rel_det (self : RModel T E)
    sample timesteps enc te ti r1 r2 :
  deterministic_model self ->
  forward_rel rlib self sample timesteps enc te ti r1 ->
  forward_rel rlib self sample timesteps enc te ti r2 ->
  r1 = r2.
Proof.
  intros Hself (re1 & He1 & H1) (re2 & He2 & H2).
  assert (re1 = re2) by (eapply embedding_rel_det; eassumption).
  subst re2. clear He2.
  destruct re1 as [emb|e]; [|congruence].
  destruct Hself as [Hci _ _ _ _ Hdb Hmb Hub Hno Hact Hco].
  destruct H1 as (s0 & rd1 & Hc1 & Hd1 & H1).
  destruct H2 as (s0' & rd2 & Hc2 & Hd2 & H2).
  same_outcome.
  assert (rd1 = rd2) by (eapply down_path_rel_det; eassumption).
  subst rd2. clear Hd2.
  destruct rd1 as [[s1 stack]|e]; [|congruence].
  destruct H1 as (m1 & Hm1 & H1). destruct H2 as (m2 & Hm2 & H2).
  same_outcome.
  destruct m1 as [e|s2]; [congruence|].
  destruct H1 as (ru1 & Hu1 & H1). destruct H2 as (ru2 & Hu2 & H2).
  assert (ru1 = ru2) by (eapply up_path_rel_det; eassumption).
  subst ru2. clear Hu2.
  destruct ru1 as [s3|e]; [|congruence].
  open_run H1. open_run H2.
  repeat same_outcome.
  congruence.
Qed.

End WithLib.

(** Collaborators that are functions are deterministic. *)
Lemma graph_lib_deterministic (lib : TensorLib T DType) :
  deterministic_lib (graph_lib lib).
Proof. constructor; simpl; repeat intro; congruence. Qed.

Lemma graph_model_deterministic (self : Model T E) :
  deterministic_model (graph_model self).
Proof.
  constructor; simpl; unfold graph1; try (repeat intro; congruence).
  - destruct (add_time_proj self); simpl; [|exact I].
    unfold graph1. repeat intro. congruence.
  - destruct (add_embedding self); simpl; [|exact I].
    unfold graph1. repeat intro. congruence.
  - apply Forall_map, Forall_forall. intros b _. simpl.
    repeat intro. congruence.
  - apply Forall_map, Forall_forall. intros b _. simpl.
    repeat intro. congruence.
Qed.

(** On collaborators that are functions, the runs of the relational
    [forward] are the value of the functional one. *)
Lemma embedding_rel_graph (lib : TensorLib T DType) (self : Model T E)
    timesteps te ti :
  embedding_rel (graph_lib lib) (graph_model self) timesteps te ti
    (embedding lib self timesteps te ti).
Proof.
  unfold embedding_rel, embedding. simpl. unfold graph1.
  eexists _, _. split; [reflexivity|]. split; [reflexivity|].
  destruct (is_text_time _); [|reflexivity].
  destruct te as [te|]; [|reflexivity].
  destruct ti as [ti|]; [|reflexivity].
  destruct (add_time_proj self) as [atp|]; simpl; [|reflexivity].
  eexists _, _, _, _, _, _, _.
  repeat (split; [reflexivity|]).
  destruct (add_embedding self) as [ae|]; simpl; [|reflexivity].
  eexists _, _. repeat (split; [reflexivity|]). reflexivity.
Qed.

Lemma down_path_rel_graph (blocks : list (DownBlock T E)) :
  forall emb enc sample stack,
    down_path_rel (map graph_down_block blocks) emb enc sample stack
      (down_path blocks emb enc sample stack).
Proof.
  induction blocks as [|b blocks IH]; intros emb enc sample stack; simpl;
    [reflexivity|].
  eexists. split; [reflexivity|].
  destruct (down_call b sample emb _) as [e|[s res]]; simpl;
    [reflexivity|apply IH].
Qed.

Lemma up_path_rel_graph (blocks : list (UpBlock T E)) :
  forall emb enc sample stack,
    up_path_rel (map graph_up_block blocks) emb enc sample stack
      ('(out, _, _) <- up_path blocks emb enc sample stack ;; Ok out).
Proof.
  induction blocks as [|b blocks IH]; intros emb enc sample stack;
    [reflexivity|].
  rewrite up_path_cons.
  cbn [up_path_rel map graph_up_block r_up_resnets r_up_attentions
       r_up_call].
  destruct (pop_res_samples (up_resnets b) stack) as [res rest].
  cbn [fst snd].
  eexists. split; [reflexivity|].
  destruct (up_call b sample emb res
              (if up_attentions b then Some enc else None)) as [e|s];
    cbn [call bind]; [reflexivity|].
  specialize (IH emb enc s rest).
  destruct (up_path blocks emb enc s rest) as [[[o r] h]|e]; exact IH.
Qed.

Lemma forward_rel_graph (lib : TensorLib T DType) (self : Model T E)
    sample timesteps enc te ti :
  forward_rel (graph_lib lib) (graph_model self) sample timesteps enc te ti
    (forward lib self sample timesteps enc te ti).
Proof.
  unfold forward_rel, forward.
  eexists. split; [apply embedding_rel_graph|].
  destruct (embedding lib self timesteps te ti) as [emb|e]; simpl;
    [|reflexivity].
  unfold graph1.
  eexists _, _. split; [reflexivity|].
  split; [apply down_path_rel_graph|].
  destruct (down_path _ _ _ _ _) as [[s1 stack]|e]; simpl; [|reflexivity].
  eexists. split; [reflexivity|].
  destruct (mid_block self s1 emb enc) as [e|s2]; simpl; [reflexivity|].
  eexists. split; [apply up_path_rel_graph|].
  destruct (up_path _ _ _ _ _) as [[[s3 rest] handed]|e]; simpl;
    [|reflexivity].
  eexists _, _, _. repeat (split; [reflexivity|]). reflexivity.
Qed.

(** C9: [forward] is deterministic. Whenever the layers, blocks and tensor
    operations of a model return outcomes fixed by their arguments, two
    invocations of [forward] with identical sample, timesteps, encoder
    states and conditioning inputs end in the same outcome; for a model
    whose collaborators are functions that outcome is the value of
    [forward]. *)
Theorem forward_deterministic :
  (forall (rlib : RTensorLib T DType) (self : RModel T E)
          sample timesteps enc te ti r1 r2,
      deterministic_lib rlib ->
      deterministic_model self ->
      forward_rel rlib self sample timesteps enc te ti r1 ->
      forward_rel rlib self sample timesteps enc te ti r2 ->
      r1 = r2)
  /\ (forall (lib : TensorLib T DType) (self : Model T E)
             sample timesteps enc te ti r,
        forward_rel (graph_lib lib) (graph_model self)
          sample timesteps enc te ti r <->
        r = forward lib self sample timesteps enc te ti).
Proof.
  split.
  - intros rlib self sample timesteps enc te ti r1 r2 Hlib Hself H1 H2.
    eapply forward_rel_det; eassumption.
  - intros lib self sample timesteps enc te ti r. split.
    + intros H.
      eapply forward_rel_det;
        [apply graph_lib_deterministic|apply graph_model_deterministic
        |exact H|apply forward_rel_graph].
    + intros ->. apply forward_rel_graph.
Qed.

End Determinism.


(** * The concrete instance *)

Module FixtureFacts.

Import Fixture.

Lemma resnet_chain_length (n : nat) :
  forall k h temb, List.length (resnet_chain n k h temb) = n.
Proof.
  induction n as [|n IH]; intros k h temb; simpl; [reflexivity|].
  now rewrite IH.
Qed.

(** The blocks of the instance follow the layout [skip_stack_balanced]
    assumes. *)
Lemma fixture_down_residuals :
  forall a b, get_down_block layers a = inr b ->
    forall h temb enc s res,
      down_call b h temb enc = inr (s, res) ->
      List.length res = expected_residuals a.
Proof.
  intros a b Hb h temb enc s res Hcall. simpl in Hb.
  destruct (_ || _); [|discriminate].
  injection Hb as <-. simpl in Hcall. injection Hcall as _ <-.
  unfold expected_residuals.
  destruct (da_add_downsample a).
  - rewrite length_app, resnet_chain_length. reflexivity.
  - rewrite resnet_chain_length. lia.
Qed.

Lemma fixture_up_resnets_count :
  forall a b, get_up_block layers a = inr b ->
    up_resnets b = Z.to_nat (ua_num_layers a).
Proof.
  intros a b Hb. simpl in Hb.
  destruct (_ || _); [|discriminate].
  now injection Hb as <-.
Qed.

End FixtureFacts.

Ltac concrete_model self Hb :=
  let Hc := fresh "Hc" in
  pose proof Hb as Hc; vm_compute in Hc; injection Hc as Hc; subst self.

(** ** C1 *)

(** On [Fixture.lopsided] the second up block has three resnets and one
    tensor left; [forward] hands it that one tensor and returns. *)
Lemma lopsided_underflow_goes_unnoticed :
  exists self tr out,
    Fixture.build Fixture.lopsided = Ok self
    /\ map (@up_resnets _ _) (up_blocks self) = [3; 3]%nat
    /\ forward_trace Fixture.lib self (Fixture.Var "sample")
         (Fixture.Var "timesteps") (Fixture.Var "encoder_hidden_states")
         None None = Ok tr
    /\ List.length (tr_skip_stack tr) = 4%nat
    /\ map (@List.length _) (tr_handed tr) = [3; 1]%nat
    /\ forward Fixture.lib self (Fixture.Var "sample")
         (Fixture.Var "timesteps") (Fixture.Var "encoder_hidden_states")
         None None = Ok out.
Proof.
  eexists _, _, _.
  repeat split; vm_compute; reflexivity.
Qed.

Lemma up_path_short_stack_proceeds_witness :
  (1 < 3)%nat
  /\ up_path [Fixture.tolerant_up 3] (Fixture.Var "emb") (Fixture.Var "enc")
       (Fixture.Var "sample") [Fixture.Var "skip"]
     = Ok (Fixture.App "up" 1
             [Fixture.Var "sample"; Fixture.Var "emb"; Fixture.Var "skip"],
           [], [[Fixture.Var "skip"]]).
Proof.
  split; [lia|].
  exact (proj1 (up_path_short_stack_proceeds Fixture.lib)
           (Fixture.tolerant_up 3) [] (Fixture.Var "emb")
           (Fixture.Var "enc") (Fixture.Var "sample") [Fixture.Var "skip"]
           ltac:(simpl; lia)).
Defined.

(** ** C2 *)

(** Five head counts for four stages, or three up block types for four
    down block types: the constructor returns a model. *)
Lemma unequal_lengths_accepted :
  (List.length (per_stage (attention_head_dim Fixture.long_heads)
                  (down_block_types Fixture.long_heads)) = 5
   /\ List.length (down_block_types Fixture.long_heads) = 4
   /\ is_ok (Fixture.build Fixture.long_heads) = true
   /\ List.length (up_block_types Fixture.short_up) = 3
   /\ List.length (down_block_types Fixture.short_up) = 4
   /\ is_ok (Fixture.build Fixture.short_up) = true)%nat.
Proof. repeat split; vm_compute; reflexivity. Qed.

Lemma init_fails_only_on_short_lists_witness :
  (indexable Fixture.short_heads = false
   /\ exists e, Fixture.build Fixture.short_heads = Err e
                /\ (e = IndexError \/ exists e', e = Raised e'))
  /\ (valid_config Fixture.default = true
      /\ indexable Fixture.default = true).
Proof.
  split; (split; [reflexivity|]).
  - exact (proj1 (init_fails_only_on_short_lists Fixture.layers
                    Fixture.short_heads) eq_refl).
  - exact (proj2 (proj2 (init_fails_only_on_short_lists Fixture.layers
                           Fixture.default)) eq_refl).
Defined.

(** ** C3 *)

Lemma skip_stack_balanced_witness :
  valid_config Fixture.default = true
  /\ match Fixture.build Fixture.default with
     | Ok self =>
         match forward_trace Fixture.lib self (Fixture.Var "sample")
                 (Fixture.Var "timesteps")
                 (Fixture.Var "encoder_hidden_states") None None with
         | Ok tr =>
             List.length (tr_skip_stack tr) = 12%nat
             /\ Forall2 (fun b res => List.length res = up_resnets b)
                  (up_blocks self) (tr_handed tr)
             /\ List.length (tr_skip_stack tr) =
                  list_sum (map (@List.length _) (tr_handed tr))
             /\ tr_residue tr = []
         | Err _ => False
         end
     | Err _ => False
     end.
Proof.
  split; [reflexivity|].
  destruct (Fixture.build Fixture.default) as [self|e] eqn:Hb;
    [|vm_compute in Hb; discriminate].
  destruct (forward_trace _ _ _ _ _ _ _) as [tr|e] eqn:Hrun;
    [|concrete_model self Hb; vm_compute in Hrun; discriminate].
  destruct (skip_stack_balanced Fixture.lib Fixture.layers
              FixtureFacts.fixture_down_residuals
              FixtureFacts.fixture_up_resnets_count
              Fixture.default eq_refl _ _ _ _ _ Hb Hrun)
    as (_ & Hcount & Hexact & _ & _ & Hsame & _ & Hnil).
  repeat split; assumption.
Defined.

(** ** C4 *)

Lemma forward_conditioning_inputs_witness :
  match Fixture.build Fixture.sdxl, Fixture.build Fixture.default with
  | Ok xl, Ok plain =>
      forward Fixture.lib xl (Fixture.Var "sample")
        (Fixture.Var "timesteps") (Fixture.Var "enc")
        None (Some (Fixture.Var "time_ids")) = Err AssertionError
      /\ forward Fixture.lib plain (Fixture.Var "sample")
           (Fixture.Var "timesteps") (Fixture.Var "enc")
           (Some (Fixture.Var "text_embeds")) (Some (Fixture.Var "time_ids"))
         = forward Fixture.lib plain (Fixture.Var "sample")
             (Fixture.Var "timesteps") (Fixture.Var "enc") None None
  | _, _ => False
  end.
Proof.
  destruct (Fixture.build Fixture.sdxl) as [xl|e] eqn:Hxl;
    [|vm_compute in Hxl; discriminate].
  destruct (Fixture.build Fixture.default) as [plain|e] eqn:Hplain;
    [|vm_compute in Hplain; discriminate].
  split.
  - apply (proj1 (forward_conditioning_inputs Fixture.lib xl _ _ _ _ _)).
    concrete_model xl Hxl. split; [reflexivity|now left].
  - apply (proj2 (forward_conditioning_inputs Fixture.lib plain _ _ _ _ _)).
    concrete_model plain Hplain. reflexivity.
Defined.

(** ** C5 *)

(** On [Fixture.lopsided] the second up block has three resnets and is
    handed one tensor; a block without resnets is handed all three tensors
    of the tuple. *)
Lemma up_stage_handed_fewer_or_all :
  (exists self tr,
      Fixture.build Fixture.lopsided = Ok self
      /\ forward_trace Fixture.lib self (Fixture.Var "sample")
           (Fixture.Var "timesteps") (Fixture.Var "enc") None None = Ok tr
      /\ map (@up_resnets _ _) (up_blocks self) = [3; 3]%nat
      /\ map (@List.length _) (tr_handed tr) = [3; 1]%nat)
  /\ up_path [Fixture.tolerant_up 0] (Fixture.Var "emb") (Fixture.Var "enc")
       (Fixture.Var "sample")
       [Fixture.Var "a"; Fixture.Var "b"; Fixture.Var "c"]
     = Ok (Fixture.App "up" 3
             [Fixture.Var "sample"; Fixture.Var "emb";
              Fixture.Var "a"; Fixture.Var "b"; Fixture.Var "c"],
           [],
           [[Fixture.Var "a"; Fixture.Var "b"; Fixture.Var "c"]]).
Proof.
  split; [|reflexivity].
  eexists _, _. repeat split; vm_compute; reflexivity.
Qed.

Lemma up_stage_pops_exact_count_witness :
  match Fixture.build Fixture.default with
  | Ok self =>
      match forward_trace Fixture.lib self (Fixture.Var "sample")
              (Fixture.Var "timesteps") (Fixture.Var "enc") None None with
      | Ok tr =>
          Forall2 (fun b res => List.length res = up_resnets b)
            (up_blocks self) (tr_handed tr)
          /\ Forall2 (called_with (tr_emb tr) (Fixture.Var "enc"))
               (up_blocks self) (tr_handed tr)
          /\ tr_skip_stack tr =
               tr_residue tr ++ List.concat (rev (tr_handed tr))
      | Err _ => False
      end
  | Err _ => False
  end.
Proof.
  destruct (Fixture.build Fixture.default) as [self|e] eqn:Hb;
    [|vm_compute in Hb; discriminate].
  destruct (forward_trace _ _ _ _ _ _ _) as [tr|e] eqn:Hrun;
    [|concrete_model self Hb; vm_compute in Hrun; discriminate].
  apply (proj2 (up_stage_pops_exact_count Fixture.lib) _ _ _ _ _ _ _ Hrun).
  - concrete_model self Hb. simpl. repeat constructor.
  - concrete_model self Hb. vm_compute in Hrun. injection Hrun as <-.
    simpl. lia.
Defined.

(** ** C6 *)

(** On the three-stage layout with channels 320, 640, 1280 the first
    up-stage is built with input channel 640; the last down-stage's
    channel count is 1280. *)
Lemma first_up_stage_input_is_not_last_down_width :
  exists das uas d u,
    valid_config Fixture.sdxl = true
    /\ down_block_args (E := string) Fixture.sdxl = Ok das
    /\ up_block_args (E := string) Fixture.sdxl = Ok uas
    /\ List.length das = 3%nat
    /\ nth_error das 2 = Some d
    /\ nth_error uas 0 = Some u
    /\ da_out_channels d = 1280
    /\ ua_in_channels u = 640
    /\ ua_in_channels u <> da_out_channels d.
Proof.
  eexists _, _, _, _.
  repeat split; try (vm_compute; reflexivity).
  vm_compute. discriminate.
Qed.

Lemma up_stage_channels_witness :
  valid_config Fixture.sdxl = true
  /\ exists uas,
       up_block_args (E := string) Fixture.sdxl = Ok uas
       /\ List.length uas = 3%nat
       /\ (forall i a, nth_error uas i = Some a ->
             ua_out_channels a = nth i [1280; 640; 320] 0
             /\ ua_in_channels a = nth (Nat.min (i + 1) 2) [1280; 640; 320] 0)
       /\ (forall a, nth_error uas 0 = Some a ->
             ua_prev_output_channel a = 1280)
       /\ (forall i a a',
             nth_error uas i = Some a -> nth_error uas (S i) = Some a' ->
             ua_prev_output_channel a' = ua_out_channels a)
       /\ (forall a, nth_error uas 2 = Some a -> ua_in_channels a = 320).
Proof.
  split; [reflexivity|].
  exact (up_stage_channels (E := string) Fixture.sdxl eq_refl).
Defined.

(** ** C7 *)

Lemma samplers_on_all_but_last_stage_witness :
  valid_config Fixture.default = true
  /\ exists das uas,
       down_block_args (E := string) Fixture.default = Ok das
       /\ up_block_args (E := string) Fixture.default = Ok uas
       /\ List.length das = 4%nat
       /\ List.length uas = 4%nat
       /\ (forall i a, nth_error das i = Some a ->
             da_add_downsample a = negb (Nat.eqb i 3))
       /\ (forall i a, nth_error uas i = Some a ->
             ua_add_upsample a = negb (Nat.eqb i 3)).
Proof.
  split; [reflexivity|].
  exact (samplers_on_all_but_last_stage (E := string) Fixture.default
           eq_refl).
Defined.

(** ** C8 *)

Lemma scalar_broadcast_per_stage_witness :
  valid_config Fixture.default = true
  /\ exists das uas,
       down_block_args (E := string) Fixture.default = Ok das
       /\ up_block_args (E := string) Fixture.default = Ok uas
       /\ List.length das = 4%nat /\ List.length uas = 4%nat
       /\ List.length [8; 8; 8; 8] = 4%nat
       /\ List.length [1; 1; 1; 1] = 4%nat
       /\ (forall i a, nth_error das i = Some a ->
             da_attn_num_head_channels a = nth i [8; 8; 8; 8] 0
             /\ da_transformer_layers_per_block a = nth i [1; 1; 1; 1] 0)
       /\ (forall i a, nth_error uas i = Some a ->
             ua_attn_num_head_channels a = nth i (rev [8; 8; 8; 8]) 0
             /\ ua_transformer_layers_per_block a =
                  nth i (rev [1; 1; 1; 1]) 0).
Proof.
  split; [reflexivity|].
  exact (proj2 (proj2 (scalar_broadcast_per_stage (E := string)
                         Fixture.default)) eq_refl).
Defined.

(** ** C9 *)

Lemma forward_deterministic_witness :
  match Fixture.build Fixture.default with
  | Ok self =>
      forward Fixture.lib self (Fixture.Var "sample")
        (Fixture.Var "timesteps") (Fixture.Var "enc") None None
      = (tr <- forward_trace Fixture.lib self (Fixture.Var "sample")
                 (Fixture.Var "timesteps") (Fixture.Var "enc") None None ;;
         Ok (tr_output tr))
  | Err _ => False
  end.
Proof.
  destruct (Fixture.build Fixture.default) as [self|e] eqn:Hb;
    [|vm_compute in Hb; discriminate].
  apply (proj1 forward_deterministic (graph_lib Fixture.lib)
           (graph_model self) (Fixture.Var "sample")
           (Fixture.Var "timesteps") (Fixture.Var "enc") None None).
  - apply graph_lib_deterministic.
  - apply graph_model_deterministic.
  - apply forward_rel_graph.
  - rewrite <- forward_of_trace. apply forward_rel_graph.
Defined.

(** ** C10 *)

(** On [Fixture.long_channels], two stages with three channel counts, the
    constructor returns a model and [forward] returns; the output of
    [conv_in] is what the up path leaves, and no up block was handed it. *)
Lemma long_channels_bottom_entry_is_left :
  exists self tr,
    Fixture.build Fixture.long_channels = Ok self
    /\ forward_trace Fixture.lib self (Fixture.Var "sample")
         (Fixture.Var "timesteps") (Fixture.Var "enc") None None = Ok tr
    /\ tr_residue tr = [tr_conv_in tr]
    /\ ~ In (tr_conv_in tr) (List.concat (tr_handed tr))
    /\ ~ (exists others,
             last (tr_handed tr) [] = tr_conv_in tr :: others).
Proof.
  eexists _, _.
  split; [vm_compute; reflexivity|].
  split; [vm_compute; reflexivity|].
  split; [vm_compute; reflexivity|].
  split.
  - vm_compute. intuition discriminate.
  - intros [others H]. vm_compute in H. discriminate H.
Qed.

Lemma conv_in_is_bottom_skip_witness :
  valid_config Fixture.default = true
  /\ match Fixture.build Fixture.default with
     | Ok self =>
         match forward_trace Fixture.lib self (Fixture.Var "sample")
                 (Fixture.Var "timesteps") (Fixture.Var "enc") None None with
         | Ok tr =>
             (tr_conv_in tr = conv_in self (Fixture.Var "sample")
              /\ exists above, tr_skip_stack tr = tr_conv_in tr :: above)
             /\ tr_residue tr = []
             /\ (exists others,
                    last (tr_handed tr) [] = tr_conv_in tr :: others)
         | Err _ => False
         end
     | Err _ => False
     end.
Proof.
  split; [reflexivity|].
  destruct (Fixture.build Fixture.default) as [self|e] eqn:Hb;
    [|vm_compute in Hb; discriminate].
  destruct (forward_trace _ _ _ _ _ _ _) as [tr|e] eqn:Hrun;
    [|concrete_model self Hb; vm_compute in Hrun; discriminate].
  split.
  - destruct (proj1 (conv_in_is_bottom_skip (E := string) (Float := string)
                       Fixture.lib) self _ _ _ _ _ tr Hrun)
      as (Hconv & _ & Habove).
    split; assumption.
  - exact (proj2 (conv_in_is_bottom_skip Fixture.lib) Fixture.layers
             Fixture.default FixtureFacts.fixture_down_residuals
             FixtureFacts.fixture_up_resnets_count eq_refl
             self _ _ _ _ _ tr Hb Hrun).
Defined.


(** * More on the constructor *)

Tactic Notation "bind_ok" hyp(H) "as" ident(x) ident(Hx) :=
  match type of H with
  | bind ?c _ = Ok _ =>
      destruct c as [x|] eqn:Hx; cbn [bind] in H; [|discriminate]
  end.

Section StageArgs.

Context {E DType Float : Type}.
Variable c : Config DType Float.

Let boc := block_out_channels c.
Let heads := per_stage (attention_head_dim c) (down_block_types c).
Let depth := per_stage (transformer_layers_per_block c) (down_block_types c).

Lemma down_stage_of (i : nat) (a : DownBlockArgs DType Float) :
  nth_error (down_stages_closed c) i = Some a ->
  exists ty,
    nth_error (down_block_types c) i = Some ty
    /\ a = down_stage_args c (nth 0 boc 0 * 4) depth heads (i, ty).
Proof.
  rewrite down_stages_closed_nth.
  destruct (nth_error (down_block_types c) i) as [ty|]; [|discriminate].
  simpl. intros H. injection H as <-. eauto.
Qed.

Lemma up_stage_of (i : nat) (a : UpBlockArgs DType Float) :
  nth_error (up_stages_closed c) i = Some a ->
  exists ty,
    nth_error (up_block_types c) i = Some ty
    /\ a = up_stage_args c (nth 0 boc 0 * 4) (rev boc) (rev depth)
             (rev heads) (i, ty).
Proof.
  rewrite up_stages_closed_nth.
  destruct (nth_error (up_block_types c) i) as [ty|]; [|discriminate].
  simpl. intros H. injection H as <-. eauto.
Qed.

(** X1: in every config the constructor's indexing accepts, down-stage 0
    is built with input channel [block_out_channels[0]], every later
    down-stage with the output channel of the stage before it, stage [i]
    with output channel [block_out_channels[i]], and every down-stage with
    [temb_channels = 4 * block_out_channels[0]]. *)
Theorem down_stage_channels :
  indexable c = true ->
  exists das,
    down_block_args (E := E) c = Ok das
    /\ List.length das = List.length (down_block_types c)
    /\ (forall a, nth_error das 0 = Some a ->
          da_in_channels a = nth 0 boc 0)
    /\ (forall i a, nth_error das i = Some a ->
          da_out_channels a = nth i boc 0
          /\ da_temb_channels a = nth 0 boc 0 * 4)
    /\ (forall i a a',
          nth_error das i = Some a -> nth_error das (S i) = Some a' ->
          da_in_channels a' = da_out_channels a).
Proof.
  intros Hidx.
  destruct (block_args_closed c E Hidx) as [Hdown _].
  exists (down_stages_closed c).
  split; [assumption|]. split; [apply down_stages_closed_length|].
  split; [|split].
  - intros a H. apply down_stage_of in H. destruct H as (ty & _ & ->).
    reflexivity.
  - intros i a H. apply down_stage_of in H. destruct H as (ty & _ & ->).
    split; reflexivity.
  - intros i a a' H H'. apply down_stage_of in H, H'.
    destruct H as (ty & _ & ->), H' as (ty' & _ & ->). simpl.
    now rewrite Nat.sub_0_r.
Qed.

(** X2: the block type tags reach the factories in the order the config
    lists them, one call per tag; every down block is asked for
    [layers_per_block] layers and every up block for one more. *)
Theorem stage_tags_and_layers :
  indexable c = true ->
  exists das uas,
    down_block_args (E := E) c = Ok das
    /\ up_block_args (E := E) c = Ok uas
    /\ map (@da_down_block_type _ _) das = down_block_types c
    /\ map (@ua_up_block_type _ _) uas = up_block_types c
    /\ Forall (fun a => da_num_layers a = layers_per_block c) das
    /\ Forall (fun a => ua_num_layers a = layers_per_block c + 1) uas.
Proof.
  intros Hidx.
  destruct (block_args_closed c E Hidx) as [Hdown Hup].
  exists (down_stages_closed c), (up_stages_closed c).
  split; [assumption|]. split; [assumption|].
  assert (Htags : forall {A} (f : nat * string -> A) (g : A -> string)
                    (l : list string) k,
             (forall p, g (f p) = snd p) ->
             map g (map f (numbered k l)) = l).
  { intros A f g l. induction l as [|ty l IH]; intros k Hg;
      [reflexivity|].
    rewrite numbered_cons. simpl. rewrite Hg. simpl. f_equal.
    now apply IH. }
  unfold down_stages_closed, up_stages_closed.
  repeat split.
  - apply Htags. now intros [i ty].
  - apply Htags. now intros [i ty].
  - apply Forall_map, Forall_forall. now intros [i ty] _.
  - apply Forall_map, Forall_forall. now intros [i ty] _.
Qed.

(** X3: the final-stage test compares the stage index with
    [len(block_out_channels) - 1], not with the number of block types: in
    every accepted config [add_downsample] (and [add_upsample]) of stage
    [i] is false exactly when [i = len(block_out_channels) - 1], so with
    more channel counts than block types every stage samples. *)
Theorem final_stage_is_last_channel_index :
  indexable c = true ->
  exists das uas,
    down_block_args (E := E) c = Ok das
    /\ up_block_args (E := E) c = Ok uas
    /\ (forall i a, nth_error das i = Some a ->
          da_add_downsample a = negb (Nat.eqb i (List.length boc - 1)))
    /\ (forall i a, nth_error uas i = Some a ->
          ua_add_upsample a = negb (Nat.eqb i (List.length boc - 1)))
    /\ ((List.length (down_block_types c) < List.length boc)%nat ->
        Forall (fun a => da_add_downsample a = true) das)
    /\ ((List.length (up_block_types c) < List.length boc)%nat ->
        Forall (fun a => ua_add_upsample a = true) uas).
Proof.
  intros Hidx.
  destruct (block_args_closed c E Hidx) as [Hdown Hup].
  assert (Hc : (0 < List.length boc)%nat).
  { unfold indexable in Hidx. fold boc in Hidx.
    rewrite !andb_true_iff, !Nat.ltb_lt in Hidx. tauto. }
  assert (Hfinal : forall i,
             (Z.of_nat i =? Py.len boc - 1) =
             Nat.eqb i (List.length boc - 1)).
  { intros i. unfold Py.len.
    destruct (Nat.eqb_spec i (List.length boc - 1)) as [->|Hne].
    - apply Z.eqb_eq. lia.
    - apply Z.eqb_neq. lia. }
  exists (down_stages_closed c), (up_stages_closed c).
  split; [assumption|]. split; [assumption|].
  assert (Hd : forall i a, nth_error (down_stages_closed c) i = Some a ->
             da_add_downsample a = negb (Nat.eqb i (List.length boc - 1))).
  { intros i a H. apply down_stage_of in H. destruct H as (ty & _ & ->).
    simpl. now rewrite <- Hfinal. }
  assert (Hu : forall i a, nth_error (up_stages_closed c) i = Some a ->
             ua_add_upsample a = negb (Nat.eqb i (List.length boc - 1))).
  { intros i a H. apply up_stage_of in H. destruct H as (ty & _ & ->).
    simpl. now rewrite <- Hfinal. }
  split; [assumption|]. split; [assumption|]. split.
  - intros Hlt. apply Forall_forall. intros a Ha.
    apply In_nth_error in Ha. destruct Ha as [i Hi].
    rewrite (Hd i a Hi).
    assert (i < List.length (down_stages_closed c))%nat
      by (apply nth_error_Some; congruence).
    rewrite down_stages_closed_length in *.
    destruct (Nat.eqb_spec i (List.length boc - 1)); [lia|reflexivity].
  - intros Hlt. apply Forall_forall. intros a Ha.
    apply In_nth_error in Ha. destruct Ha as [i Hi].
    rewrite (Hu i a Hi).
    assert (i < List.length (up_stages_closed c))%nat
      by (apply nth_error_Some; congruence).
    rewrite up_stages_closed_length in *.
    destruct (Nat.eqb_spec i (List.length boc - 1)); [lia|reflexivity].
Qed.

(** X4: in a valid config with [N] stages, up-stage [i] mirrors
    down-stage [N-1-i]: the two are built with the same output channel,
    the same attention head count and the same transformer depth. *)
Theorem up_stage_mirrors_down_stage :
  valid_config c = true ->
  exists das uas,
    down_block_args (E := E) c = Ok das
    /\ up_block_args (E := E) c = Ok uas
    /\ forall i u d,
         nth_error uas i = Some u ->
         nth_error das (List.length (down_block_types c) - 1 - i) = Some d ->
         ua_out_channels u = da_out_channels d
         /\ ua_attn_num_head_channels u = da_attn_num_head_channels d
         /\ ua_transformer_layers_per_block u =
              da_transformer_layers_per_block d.
Proof.
  intros Hvalid.
  destruct (block_args_closed c E (valid_indexable c Hvalid))
    as [Hdown Hup].
  apply valid_config_spec in Hvalid.
  destruct Hvalid as (Hn & Hu & Hc & Ha & Ht & _).
  exists (down_stages_closed c), (up_stages_closed c).
  split; [assumption|]. split; [assumption|].
  intros i u d Hi Hd.
  assert (Hlt : (i < List.length (down_block_types c))%nat).
  { rewrite <- Hu, <- up_stages_closed_length.
    apply nth_error_Some. congruence. }
  apply up_stage_of in Hi. destruct Hi as (ty & _ & ->).
  apply down_stage_of in Hd. destruct Hd as (ty' & _ & ->).
  simpl. fold boc heads depth in Hc, Ha, Ht |- *.
  rewrite !rev_nth by lia.
  rewrite Hc, Ha, Ht.
  replace (List.length (down_block_types c) - S i)%nat
    with (List.length (down_block_types c) - 1 - i)%nat by lia.
  auto.
Qed.

End StageArgs.


(** * The constructed model *)

Section ConstructedModel.

Context {T E DType Float : Type}.
Variable layers : Layers T E DType Float.
Variable c : Config DType Float.

Let boc := block_out_channels c.
Let heads := per_stage (attention_head_dim c) (down_block_types c).
Let depth := per_stage (transformer_layers_per_block c) (down_block_types c).

Lemma getitem_first_inv (l : list Z) (x : Z) :
  Py.getitem (E := E) l 0 = Ok x -> x = nth 0 l 0 /\ l <> [].
Proof.
  destruct l as [|y l]; [discriminate|].
  intros H. vm_compute in H. injection H as <-. split; [reflexivity|].
  discriminate.
Qed.

Lemma getitem_last_inv (l : list Z) (x : Z) :
  Py.getitem (E := E) l (-1) = Ok x -> x = last l 0.
Proof.
  rewrite (PyFacts.getitem_last l 0).
  destruct l; [discriminate|]. intros H. now injection H.
Qed.

(** What the attributes of a constructed model are. *)
Lemma init_inv (self : Model T E) :
  __init__ layers c = Ok self ->
  exists downs mid ups,
    boc <> []
    /\ mid_block_args (E := E) c (nth 0 boc 0 * 4) depth heads = Ok mid
    /\ self =
       {| self_addition_embed_type := addition_embed_type c;
          conv_in :=
            Conv2d layers (in_channels c) (nth 0 boc 0) (3, 3) (1, 1)
              (dtype c);
          time_proj :=
            Timesteps layers (Some (nth 0 boc 0)) (flip_sin_to_cos c)
              (freq_shift c) (dtype c);
          time_embedding :=
            TimestepEmbedding layers (Some (nth 0 boc 0))
              (nth 0 boc 0 * 4) (dtype c);
          add_time_proj :=
            if is_text_time (addition_embed_type c)
            then Some (Timesteps layers (addition_time_embed_dim c)
                         (flip_sin_to_cos c) (freq_shift c) (dtype c))
            else None;
          add_embedding :=
            if is_text_time (addition_embed_type c)
            then Some (TimestepEmbedding layers
                         (projection_class_embeddings_input_dim c)
                         (nth 0 boc 0 * 4) (dtype c))
            else None;
          down_blocks := downs;
          mid_block := UNetMidBlock2DCrossAttn layers mid;
          up_blocks := ups;
          conv_norm_out :=
            GroupNorm layers (nth 0 boc 0) (norm_num_groups c) (norm_eps c)
              (dtype c);
          conv_act := silu layers;
          conv_out :=
            Conv2d layers (nth 0 boc 0) (out_channels c) (3, 3) (1, 1)
              (dtype c) |}.
Proof.
  intros H. unfold __init__ in H. fold boc heads depth in H.
  bind_ok H as c0 Hc0. apply getitem_first_inv in Hc0.
  destruct Hc0 as [-> Hne].
  bind_ok H as downs Hdown.
  bind_ok H as mid Hmid.
  bind_ok H as ups Hup.
  injection H as <-.
  exists downs, mid, ups. auto.
Qed.

(** X5: the blocks a constructed model holds are, in stage order, what the
    two factories returned on the arguments of [down_block_args] and
    [up_block_args]: one block per block type tag. *)
Theorem init_blocks_from_stage_args (self : Model T E) :
  __init__ layers c = Ok self ->
  exists das uas,
    down_block_args (E := E) c = Ok das
    /\ up_block_args (E := E) c = Ok uas
    /\ Forall2 (fun a b => get_down_block layers a = inr b)
         das (down_blocks self)
    /\ Forall2 (fun a b => get_up_block layers a = inr b)
         uas (up_blocks self)
    /\ List.length (down_blocks self) = List.length (down_block_types c)
    /\ List.length (up_blocks self) = List.length (up_block_types c).
Proof.
  intros H.
  destruct (block_args_closed c E (init_ok_indexable layers c H))
    as [Hdown Hup].
  destruct (init_blocks layers c H) as (Hd & Hu & _).
  exists (down_stages_closed c), (up_stages_closed c).
  repeat split; try assumption.
  - apply Forall2_length in Hd.
    now rewrite <- Hd, down_stages_closed_length.
  - apply Forall2_length in Hu.
    now rewrite <- Hu, up_stages_closed_length.
Qed.

(** X6: a constructed model's input convolution maps [in_channels] to
    [block_out_channels[0]], its output norm and convolution work at
    [block_out_channels[0]] and end in [out_channels], and its mid block is
    built at the last channel count with the last attention head count and
    the last transformer depth, on an embedding of
    [4 * block_out_channels[0]] channels. *)
Theorem init_layer_wiring (self : Model T E) :
  __init__ layers c = Ok self ->
  conv_in self =
    Conv2d layers (in_channels c) (nth 0 boc 0) (3, 3) (1, 1) (dtype c)
  /\ conv_norm_out self =
       GroupNorm layers (nth 0 boc 0) (norm_num_groups c) (norm_eps c)
         (dtype c)
  /\ conv_out self =
       Conv2d layers (nth 0 boc 0) (out_channels c) (3, 3) (1, 1) (dtype c)
  /\ exists mid,
       mid_block self = UNetMidBlock2DCrossAttn layers mid
       /\ ma_in_channels mid = last boc 0
       /\ ma_temb_channels mid = nth 0 boc 0 * 4
       /\ ma_attn_num_head_channels mid = last heads 0
       /\ ma_transformer_layers_per_block mid = last depth 0
       /\ ma_resnet_groups mid = norm_num_groups c.
Proof.
  intros H. apply init_inv in H.
  destruct H as (downs & mid & ups & Hne & Hmid & ->). simpl.
  repeat split.
  exists mid. split; [reflexivity|].
  unfold mid_block_args in Hmid. fold boc in Hmid.
  bind_ok Hmid as ch Hch. bind_ok Hmid as t1 Ht1. bind_ok Hmid as a1 Ha1.
  apply getitem_last_inv in Hch, Ht1, Ha1.
  injection Hmid as <-. simpl. auto.
Qed.

(** X7: empty lists. Without a channel count the constructor raises
    [IndexError] (line 59); without a down block type and with a scalar
    attention head count or transformer depth, the broadcast sequence is
    empty and the constructor raises [IndexError] as well (at the mid
    block's [[-1]], if not before). *)
Theorem init_empty_lists :
  (block_out_channels c = [] -> __init__ layers c = Err IndexError)
  /\ (down_block_types c = [] ->
      (exists v, attention_head_dim c = Int v)
      \/ (exists v, transformer_layers_per_block c = Int v) ->
      __init__ layers c = Err IndexError).
Proof.
  assert (Hfirst : block_out_channels c = [] ->
                   __init__ layers c = Err IndexError).
  { intros Hnil. unfold __init__. rewrite Hnil. reflexivity. }
  split; [assumption|].
  intros Htypes Hscalar.
  destruct (block_out_channels c) as [|c0 rest] eqn:Hboc; [auto|].
  unfold __init__, mid_block_args.
  rewrite Hboc, Htypes.
  change (Py.getitem (c0 :: rest) 0) with (Ok (E := E) c0).
  cbn [bind Py.enumerate Py.enumerate_from down_loop].
  rewrite (PyFacts.getitem_last (E := E) (c0 :: rest) 0). cbn [bind].
  destruct (transformer_layers_per_block c) as [v|l] eqn:Hdepth.
  - reflexivity.
  - cbn [per_stage].
    rewrite (PyFacts.getitem_last (E := E) l 0).
    destruct l as [|x l]; [reflexivity|]. cbn [bind].
    destruct Hscalar as [[v ->]|[v Hv]]; [reflexivity|discriminate].
Qed.

Lemma mapM_first_error {A B} (f : A -> result E B)
    (pre : list A) (a : A) (post : list A) (e : exn E) :
  (forall x, In x pre -> exists b, f x = Ok b) ->
  f a = Err e ->
  mapM f (pre ++ a :: post) = Err e.
Proof.
  intros Hpre Ha. induction pre as [|x pre IH]; simpl.
  - now rewrite Ha.
  - destruct (Hpre x (or_introl eq_refl)) as [b ->]. simpl.
    rewrite IH; [reflexivity|].
    intros y Hy. apply Hpre. now right.
Qed.

(** X8: a factory's exception propagates unchanged. With lists long
    enough, if [get_down_block] raises [e] at the first down-stage it
    rejects, the constructor raises [e]; if every down-stage is accepted
    and [get_up_block] raises [e] at the first up-stage it rejects, the
    constructor raises [e]. *)
Theorem factory_error_propagates :
  indexable c = true ->
  (forall pre a post e,
      down_block_args (E := E) c = Ok (pre ++ a :: post) ->
      (forall x, In x pre -> exists b, get_down_block layers x = inr b) ->
      get_down_block layers a = inl e ->
      __init__ layers c = Err (Raised e))
  /\ (forall das pre a post e,
        down_block_args (E := E) c = Ok das ->
        (forall x, In x das -> exists b, get_down_block layers x = inr b) ->
        up_block_args (E := E) c = Ok (pre ++ a :: post) ->
        (forall x, In x pre -> exists b, get_up_block layers x = inr b) ->
        get_up_block layers a = inl e ->
        __init__ layers c = Err (Raised e)).
Proof.
  intros Hidx.
  destruct (block_args_closed c E Hidx) as [Hdown Hup].
  destruct (init_indexable layers c Hidx) as (assemble & Heq & _).
  assert (Hlift : forall {A B} (f : A -> E + B) (l : list A),
             (forall x, In x l -> exists b, f x = inr b) ->
             forall x, In x l -> exists b, call (f x) = Ok b).
  { intros A B f l Hl x Hx. destruct (Hl x Hx) as [b ->]. simpl. eauto. }
  split.
  - intros pre a post e Hargs Hpre Ha.
    rewrite Hdown in Hargs. injection Hargs as Hargs.
    rewrite Heq, Hargs.
    rewrite (mapM_first_error _ pre a post (e := Raised e));
      [reflexivity|now apply Hlift|now rewrite Ha].
  - intros das pre a post e Hdargs Hall Huargs Hpre Ha.
    rewrite Hdown in Hdargs. injection Hdargs as <-.
    rewrite Hup in Huargs. injection Huargs as Huargs.
    rewrite Heq, Huargs.
    apply (accepts_iff (get_down_block layers)) in Hall.
    destruct (mapM _ (down_stages_closed c)) as [downs|e0];
      [|discriminate].
    cbn [bind].
    rewrite (mapM_first_error _ pre a post (e := Raised e));
      [reflexivity|now apply Hlift|now rewrite Ha].
Qed.

(** X9: a constructed model has [add_time_proj] and [add_embedding]
    exactly in "text_time" mode, so [forward] on it never fails on a
    missing attribute: whatever [forward] raises is the assertion's error
    (in "text_time" mode with a conditioning input absent) or was raised by
    a block. *)
Theorem constructed_model_forward_errors (self : Model T E) :
  __init__ layers c = Ok self ->
  self_addition_embed_type self = addition_embed_type c
  /\ (is_text_time (addition_embed_type c) = true ->
      add_time_proj self <> None /\ add_embedding self <> None)
  /\ (is_text_time (addition_embed_type c) = false ->
      add_time_proj self = None /\ add_embedding self = None)
  /\ forall (lib : TensorLib T DType) sample timesteps enc te ti e,
       forward lib self sample timesteps enc te ti = Err e ->
       (e = AssertionError
        /\ is_text_time (addition_embed_type c) = true
        /\ (te = None \/ ti = None))
       \/ exists e', e = Raised e'.
Proof.
  intros H. apply init_inv in H.
  destruct H as (downs & mid & ups & Hne & Hmid & ->). simpl.
  split; [reflexivity|]. split; [|split].
  - intros ->. split; discriminate.
  - intros ->. split; reflexivity.
  - intros lib sample timesteps enc te ti e Herr.
    apply forward_raises in Herr. destruct Herr as [Herr|Herr]; [|now right].
    left. unfold embedding in Herr. simpl in Herr.
    destruct (is_text_time (addition_embed_type c)); simpl in Herr;
      [|discriminate].
    destruct te as [te|]; [destruct ti as [ti|]|];
      simpl in Herr; try discriminate;
      injection Herr as <-; auto.
Qed.

End ConstructedModel.


(** * More on forward *)

Section MoreForward.

Context {T E DType : Type}.
Variable lib : TensorLib T DType.

(** X10: the two slices of lines 228-230 in every case. Asked for
    [n >= 1] tensors they hand over the last [min(n, len)] and keep the
    rest; asked for [0] (a block without resnets) they hand over the whole
    tuple and keep nothing, since [-0] is [0]. *)
Theorem pop_res_samples_cases (n : nat) (stack : list T) :
  let k := if Nat.eqb n 0 then 0%nat else (List.length stack - n)%nat in
  pop_res_samples n stack = (skipn k stack, firstn k stack)
  /\ List.length (fst (pop_res_samples n stack)) =
       (if Nat.eqb n 0 then List.length stack
        else Nat.min n (List.length stack)).
Proof.
  destruct n as [|n]; cbn [Nat.eqb]; cbv zeta.
  - rewrite pop_res_samples_zero. split; reflexivity.
  - assert (Hpop : pop_res_samples (S n) stack =
                   (skipn (List.length stack - S n) stack,
                    firstn (List.length stack - S n) stack)).
    { unfold pop_res_samples, Py.slice_from, Py.slice_to.
      now rewrite slice_bound_neg by lia. }
    rewrite Hpop. split; [reflexivity|].
    simpl fst. rewrite length_skipn. lia.
Qed.

Lemma down_path_app (pre post : list (DownBlock T E)) :
  forall emb enc sample stack,
    down_path (pre ++ post) emb enc sample stack =
    ('(sample', stack') <- down_path pre emb enc sample stack ;;
     down_path post emb enc sample' stack').
Proof.
  induction pre as [|b pre IH]; intros emb enc sample stack; simpl;
    [reflexivity|].
  destruct (down_call b sample emb _) as [e|[s res]]; simpl;
    [reflexivity|apply IH].
Qed.

Lemma up_path_app (pre post : list (UpBlock T E)) :
  forall emb enc sample stack,
    up_path (pre ++ post) emb enc sample stack =
    ('(sample', stack', handed) <- up_path pre emb enc sample stack ;;
     '(out, rest, handed') <- up_path post emb enc sample' stack' ;;
     Ok (out, rest, handed ++ handed')).
Proof.
  induction pre as [|b pre IH]; intros emb enc sample stack.
  - simpl.
    destruct (up_path post emb enc sample stack) as [[[o r] h]|e];
      reflexivity.
  - rewrite <- app_comm_cons, !up_path_cons.
    destruct (up_call b sample emb _ _) as [e|s]; cbn [call bind];
      [reflexivity|].
    rewrite IH.
    destruct (up_path pre emb enc s _) as [[[s1 st1] h1]|e]; cbn [bind];
      [|reflexivity].
    destruct (up_path post emb enc s1 st1) as [[[o r] h]|e]; reflexivity.
Qed.

(** X11: a block's exception ends the call and is what [forward] raises.
    When the blocks before it returned, a down block (or up block) that
    raises [e] makes the down path (up path) raise [e], whatever blocks
    come after; when the embedding and the down path returned, a mid block
    that raises [e] makes [forward] raise [e]. *)
Theorem first_raising_block :
  (forall pre (b : DownBlock T E) post emb enc sample stack sample1 stack1 e,
      down_path pre emb enc sample stack = Ok (sample1, stack1) ->
      down_call b sample1 emb
        (if down_attentions b then Some enc else None) = inl e ->
      down_path (pre ++ b :: post) emb enc sample stack = Err (Raised e))
  /\ (forall pre (b : UpBlock T E) post emb enc sample stack
             sample1 stack1 handed e,
        up_path pre emb enc sample stack = Ok (sample1, stack1, handed) ->
        up_call b sample1 emb (fst (pop_res_samples (up_resnets b) stack1))
          (if up_attentions b then Some enc else None) = inl e ->
        up_path (pre ++ b :: post) emb enc sample stack = Err (Raised e))
  /\ (forall (self : Model T E) sample timesteps enc te ti
             emb sample1 stack1 e,
        embedding lib self timesteps te ti = Ok emb ->
        down_path (down_blocks self) emb enc
          (conv_in self sample) [conv_in self sample] = Ok (sample1, stack1) ->
        mid_block self sample1 emb enc = inl e ->
        forward lib self sample timesteps enc te ti = Err (Raised e)).
Proof.
  split; [|split].
  - intros pre b post emb enc sample stack sample1 stack1 e Hpre Hb.
    rewrite down_path_app, Hpre. simpl. now rewrite Hb.
  - intros pre b post emb enc sample stack sample1 stack1 handed e Hpre Hb.
    rewrite up_path_app, Hpre. cbn [bind].
    rewrite up_path_cons, Hb. reflexivity.
  - intros self sample timesteps enc te ti emb sample1 stack1 e
      Hemb Hdown Hmid.
    unfold forward. rewrite Hemb. cbn [bind].
    rewrite Hdown. cbn [bind]. now rewrite Hmid.
Qed.

Lemma down_path_returns (blocks : list (DownBlock T E)) :
  Forall down_returns blocks ->
  forall emb enc sample stack,
    exists out, down_path blocks emb enc sample stack = Ok out.
Proof.
  induction 1 as [|b blocks Hb _ IH]; intros emb enc sample stack; simpl;
    [eauto|].
  destruct (Hb sample emb (if down_attentions b then Some enc else None))
    as [[s res] ->].
  simpl. apply IH.
Qed.

Lemma up_path_returns (blocks : list (UpBlock T E)) :
  Forall up_returns blocks ->
  forall emb enc sample stack,
    exists out, up_path blocks emb enc sample stack = Ok out.
Proof.
  induction 1 as [|b blocks Hb _ IH]; intros emb enc sample stack;
    [simpl; eauto|].
  rewrite up_path_cons.
  destruct (Hb sample emb (fst (pop_res_samples (up_resnets b) stack))
              (if up_attentions b then Some enc else None)) as [s ->].
  cbn [call bind].
  destruct (IH emb enc s (snd (pop_res_samples (up_resnets b) stack)))
    as [[[o r] h] ->].
  cbn [bind]. eauto.
Qed.

(** X12: [forward] raises nothing of its own once the conditioning inputs
    are in place. If no block of the model raises, and in "text_time" mode
    both conditioning inputs are given and both auxiliary layers exist,
    [forward] returns a sample, whatever the lengths of the skip tuple and
    the resnet counts are. *)
Theorem forward_returns (self : Model T E) sample timesteps enc te ti :
  (is_text_time (self_addition_embed_type self) = true ->
   te <> None /\ ti <> None
   /\ add_time_proj self <> None /\ add_embedding self <> None) ->
  Forall down_returns (down_blocks self) ->
  (forall h temb e, exists out, mid_block self h temb e = inr out) ->
  Forall up_returns (up_blocks self) ->
  exists out, forward lib self sample timesteps enc te ti = Ok out.
Proof.
  intros Hcond Hdown Hmid Hup.
  unfold forward.
  assert (Hemb : exists emb, embedding lib self timesteps te ti = Ok emb).
  { unfold embedding.
    destruct (is_text_time (self_addition_embed_type self)); [|simpl; eauto].
    destruct (Hcond eq_refl) as (Hte & Hti & Hatp & Hae).
    destruct te as [te|]; [|contradiction].
    destruct ti as [ti|]; [|contradiction].
    destruct (add_time_proj self) as [atp|]; [|contradiction].
    destruct (add_embedding self) as [ae|]; [|contradiction].
    simpl. eauto. }
  destruct Hemb as [emb ->]. cbn [bind].
  destruct (down_path_returns Hdown emb enc (conv_in self sample)
              [conv_in self sample]) as [[s1 stack] ->].
  cbn [bind].
  destruct (Hmid s1 emb enc) as [s2 ->]. cbn [call bind].
  destruct (up_path_returns Hup emb enc s2 stack) as [[[s3 rest] h] ->].
  cbn [bind]. eauto.
Qed.

(** X13: [encoder_hidden_states] reaches only the blocks that have
    attentions: a down path, or an up path, whose blocks have none gives
    the same result for any two encoder states. *)
Theorem attention_free_paths_ignore_encoder :
  (forall (blocks : list (DownBlock T E)) emb enc enc' sample stack,
      Forall (fun b => down_attentions b = false) blocks ->
      down_path blocks emb enc sample stack =
      down_path blocks emb enc' sample stack)
  /\ (forall (blocks : list (UpBlock T E)) emb enc enc' sample stack,
        Forall (fun b => up_attentions b = false) blocks ->
        up_path blocks emb enc sample stack =
        up_path blocks emb enc' sample stack).
Proof.
  split.
  - intros blocks emb enc enc' sample stack Hfree.
    revert sample stack.
    induction Hfree as [|b blocks Hb _ IH]; intros sample stack; simpl;
      [reflexivity|].
    rewrite Hb.
    destruct (down_call b sample emb None) as [e|[s res]]; simpl;
      [reflexivity|apply IH].
  - intros blocks emb enc enc' sample stack Hfree.
    revert sample stack.
    induction Hfree as [|b blocks Hb _ IH]; intros sample stack;
      [reflexivity|].
    rewrite !up_path_cons, Hb.
    destruct (up_call b sample emb _ None) as [e|s]; cbn [call bind];
      [reflexivity|].
    now rewrite IH.
Qed.

Lemma list_sum_rev (l : list nat) : list_sum (rev l) = list_sum l.
Proof.
  induction l as [|x l IH]; simpl; [reflexivity|].
  rewrite list_sum_app, IH. simpl. lia.
Qed.

(** X14: skip tensors are neither lost nor made up on the way: in every
    call of [forward] that returns, one tuple is handed over per up block,
    and the tuple the down path produced is the tuple left after the up
    path followed by the tuples handed over, last stage first, tensor for
    tensor; so the counts add up, and the tuple is empty after the up path
    exactly when as many were handed over as produced. Nothing checks the
    tensors left. *)
Theorem skip_tensors_conserved (self : Model T E)
    sample timesteps enc te ti tr :
  forward_trace lib self sample timesteps enc te ti = Ok tr ->
  List.length (tr_handed tr) = List.length (up_blocks self)
  /\ tr_skip_stack tr =
       tr_residue tr ++ List.concat (rev (tr_handed tr))
  /\ List.length (tr_skip_stack tr) =
       (List.length (tr_residue tr)
        + list_sum (map (@List.length T) (tr_handed tr)))%nat
  /\ (tr_residue tr = [] <->
      List.length (tr_skip_stack tr) =
        list_sum (map (@List.length T) (tr_handed tr))).
Proof.
  intros Hrun. apply forward_trace_inv in Hrun.
  destruct Hrun as (s1 & s2 & s3 & _ & _ & _ & _ & Hup).
  apply up_path_split in Hup. destruct Hup as [Hsplit Hlen].
  assert (Hcount : List.length (tr_skip_stack tr) =
            (List.length (tr_residue tr)
             + list_sum (map (@List.length T) (tr_handed tr)))%nat).
  { rewrite Hsplit at 1.
    rewrite length_app, length_concat, map_rev, list_sum_rev.
    reflexivity. }
  split; [assumption|]. split; [assumption|]. split; [assumption|].
  rewrite Hcount. split.
  - intros ->. reflexivity.
  - intros H. apply length_zero_iff_nil. lia.
Qed.

End MoreForward.


(** * A channel list longer than the stage list *)

Section LongChannelList.

Context {T E DType Float : Type}.
Variable lib : TensorLib T DType.
Variable layers : Layers T E DType Float.

(** The layout of the blocks, as for [skip_stack_balanced]. *)
Hypothesis down_residuals :
  forall a b, get_down_block layers a = inr b ->
    forall h temb enc s res,
      down_call b h temb enc = inr (s, res) ->
      List.length res = expected_residuals a.

Hypothesis up_resnets_count :
  forall a b, get_up_block layers a = inr b ->
    up_resnets b = Z.to_nat (ua_num_layers a).

Variable c : Config DType Float.

Let n := List.length (down_block_types c).
Let L := Z.to_nat (layers_per_block c).

Hypothesis Hidx : indexable c = true.
Hypothesis Hup_types : List.length (up_block_types c) = n.
Hypothesis Hlong : (n < List.length (block_out_channels c))%nat.
Hypothesis Hlayers : 0 <= layers_per_block c.

Lemma every_down_stage_samples :
  Forall (fun a => expected_residuals a = (L + 1)%nat)
    (down_stages_closed c).
Proof.
  apply Forall_forall. intros a Ha.
  apply In_nth_error in Ha. destruct Ha as [i Hi].
  assert (Hlt : (i < n)%nat).
  { unfold n. rewrite <- down_stages_closed_length.
    apply nth_error_Some. congruence. }
  apply down_stage_of in Hi. destruct Hi as (ty & _ & ->).
  unfold expected_residuals. simpl. fold L.
  replace (Z.of_nat i =? Py.len (block_out_channels c) - 1) with false
    by (symmetry; apply Z.eqb_neq; unfold Py.len; lia).
  reflexivity.
Qed.

Lemma list_sum_const {A} (f : A -> nat) (l : list A) (m : nat) :
  Forall (fun a => f a = m) l ->
  list_sum (map f l) = (List.length l * m)%nat.
Proof.
  induction 1 as [|a l Ha _ IH]; simpl; [reflexivity|].
  now rewrite IH, Ha.
Qed.

Lemma every_up_block_resnets (ups : list (UpBlock T E)) :
  Forall2 (fun a b => get_up_block layers a = inr b)
    (up_stages_closed c) ups ->
  Forall (fun b => up_resnets b = (L + 1)%nat) ups.
Proof.
  unfold up_stages_closed.
  generalize (numbered 0 (up_block_types c)). intros stages.
  revert ups. induction stages as [|[i ty] stages IH]; intros ups Hall;
    inversion Hall as [|? b ? ups' Hb Hrest]; subst; constructor.
  - apply up_resnets_count in Hb. rewrite Hb. simpl. unfold L. lia.
  - now apply IH.
Qed.

(** X15: with more channel counts than stages (and as many up block types
    as down block types) no down-stage is final, so every down block
    down-samples and the down path produces one tensor more than the up
    path consumes: after the up path the skip tuple still holds exactly
    the output of the input convolution, and [forward] returns all the
    same. *)
Theorem longer_channel_list_leaves_conv_in (self : Model T E)
    sample timesteps enc te ti tr :
  __init__ layers c = Ok self ->
  forward_trace lib self sample timesteps enc te ti = Ok tr ->
  List.length (tr_skip_stack tr) = (n * (L + 1) + 1)%nat
  /\ list_sum (map (@List.length T) (tr_handed tr)) = (n * (L + 1))%nat
  /\ tr_residue tr = [conv_in self sample].
Proof.
  intros Hinit Hrun.
  destruct (init_blocks layers c Hinit) as (Hdowns & Hups & _).
  pose proof (every_up_block_resnets Hups) as Hres.
  assert (Hlen : List.length (up_blocks self) = n).
  { apply Forall2_length in Hups.
    now rewrite <- Hups, up_stages_closed_length. }
  apply forward_trace_inv in Hrun.
  destruct Hrun as (s1 & s2 & s3 & _ & Hconv & Hdown & _ & Hup).
  pose proof Hdown as Habove. apply down_path_extends in Habove.
  destruct Habove as [above Habove]. simpl in Habove.
  eapply (down_path_length layers down_residuals) in Hdown;
    [|exact Hdowns].
  rewrite (list_sum_const _ every_down_stage_samples) in Hdown.
  rewrite down_stages_closed_length in Hdown. fold n in Hdown.
  simpl List.length in Hdown.
  assert (Htotal : total_resnets (up_blocks self) = (n * (L + 1))%nat)
    by (erewrite total_resnets_const by exact Hres; now rewrite Hlen).
  pose proof Hup as Hsplit. apply up_path_split in Hsplit.
  destruct Hsplit as [Hsplit _].
  apply up_path_exact in Hup;
    [|eapply Forall_impl; [|exact Hres]; simpl; intros; lia|lia].
  destruct Hup as [Hexact Hrest].
  split; [lia|]. split; [now rewrite (handed_sum Hexact)|].
  destruct (tr_residue tr) as [|x [|y rest]] eqn:Hresidue;
    simpl in Hrest; try lia.
  rewrite Habove in Hsplit. simpl in Hsplit.
  injection Hsplit as Hx _. now rewrite <- Hx, Hconv.
Qed.

End LongChannelList.


(** * The driver script *)

Section DriverFacts.

Import Driver.

Context {Image Time : Type}.
Variable env : Env Image Time.
Variable args : Args.

Let call : event Image Time :=
  Pipeline (num_inference_steps args) (prompt args) (seed args)
    (size args) (size args).

(** The latency of the [k]-th measured run, when the clock had been read
    [r] times before the first one. *)
Let lap (r k : nat) : Time :=
  diff env (clock env (r + 2 * k + 1)) (clock env (r + 2 * k)).

Lemma warm_up_state (n : nat) :
  forall st,
    let st' := times n (run_pipeline env args) st in
    events st' = events st ++ repeat call n
    /\ calls st' = (calls st + n)%nat
    /\ reads st' = reads st
    /\ latency st' = latency st
    /\ image st' =
         match n with
         | O => image st
         | S _ => Some (images env (calls st + n - 1))
         end.
Proof.
  induction n as [|n IH]; intros st; cbn [times].
  - cbv zeta. rewrite app_nil_r. repeat split. lia.
  - specialize (IH (run_pipeline env args st)). cbv zeta in IH |- *.
    destruct IH as (Hev & Hcalls & Hreads & Hlat & Himg).
    rewrite Hev, Hcalls, Hreads, Hlat, Himg. cbn [run_pipeline events calls
      reads latency image].
    rewrite <- app_assoc. fold call.
    replace ([call] ++ repeat call n) with (repeat call (S n))
      by reflexivity.
    repeat split; try lia.
    destruct n as [|n]; f_equal; f_equal; lia.
Qed.

Lemma measured_state (n : nat) :
  forall st,
    let st' := times n (measured_run env args) st in
    events st' = events st ++ repeat call n
    /\ calls st' = (calls st + n)%nat
    /\ reads st' = (reads st + 2 * n)%nat
    /\ latency st' = latency st ++ map (lap (reads st)) (seq 0 n)
    /\ image st' =
         match n with
         | O => image st
         | S _ => Some (images env (calls st + n - 1))
         end.
Proof.
  induction n as [|n IH]; intros st; cbn [times].
  - cbv zeta. simpl. rewrite !app_nil_r. repeat split; lia.
  - specialize (IH (measured_run env args st)). cbv zeta in IH |- *.
    destruct IH as (Hev & Hcalls & Hreads & Hlat & Himg).
    rewrite Hev, Hcalls, Hreads, Hlat, Himg.
    cbn [measured_run read_clock run_pipeline events calls reads latency
         image].
    rewrite <- !app_assoc. fold call.
    replace ([call] ++ repeat call n) with (repeat call (S n))
      by reflexivity.
    repeat split; try lia.
    + f_equal. cbn [seq map]. unfold lap at 2.
      replace (reads st + 2 * 0)%nat with (reads st) by lia.
      replace (reads st + 1)%nat with (S (reads st)) by lia.
      simpl app. f_equal.
      rewrite <- seq_shift, map_map.
      apply map_ext. intros k. unfold lap. f_equal; f_equal; lia.
    + destruct n as [|n]; f_equal; f_equal; lia.
Qed.

Let setup : list (event Image Time) :=
  [FromPretrained "stabilityai/stable-diffusion-xl-base-1.0" "float16" true;
   SetProgressBarConfig (negb (rank env =? 0));
   Prepare ("sdxl_s" ++ str (size args) ++ "_w" ++ str (world_size env))
     (size args);
   To "cuda"].

Let warm := Z.to_nat (num_warmup_runs args).
Let runs := Z.to_nat (avg_runs args).

(** The state of the script before line 76. *)
Lemma loops_state :
  let st :=
    for_range (avg_runs args) (measured_run env args)
      (for_range (num_warmup_runs args) (run_pipeline env args)
         {| events := setup; calls := O; reads := O; image := None;
            latency := [] |}) in
  events st = setup ++ repeat call (warm + runs)
  /\ latency st = map (lap 0) (seq 0 runs)
  /\ image st =
       match (warm + runs)%nat with
       | O => None
       | S _ => Some (images env (warm + runs - 1))
       end.
Proof.
  unfold for_range. fold warm runs. cbv zeta.
  set (st0 := {| events := setup; calls := O; reads := O; image := None;
                 latency := [] |}).
  destruct (warm_up_state warm st0) as (Hev & Hcalls & Hreads & Hlat & Himg).
  destruct (measured_state runs (times warm (run_pipeline env args) st0))
    as (Hev' & Hcalls' & Hreads' & Hlat' & Himg').
  rewrite Hev', Hlat', Himg', Hev, Hlat, Hreads, Himg, Hcalls.
  simpl events. simpl latency. simpl calls. simpl reads. simpl image.
  rewrite <- app_assoc, <- repeat_app.
  repeat split.
  destruct runs as [|r]; destruct warm as [|w]; simpl; try reflexivity;
    f_equal; f_equal; lia.
Qed.

Lemma filter_repeat_call (n : nat) :
  filter is_pipeline (repeat call n) = repeat call n
  /\ filter is_output (repeat call n) = [].
Proof.
  induction n as [|n [IH1 IH2]]; simpl; [auto|].
  now rewrite IH1, IH2.
Qed.

(** X16: the script calls the pipeline once per warm-up run and once per
    measured run (a negative count is no run), and every call is the same:
    the configured step count, prompt and size, and a generator seeded
    with the same [--seed]. *)
Theorem pipeline_calls :
  filter is_pipeline (fst (main env args)) =
  repeat (Pipeline (num_inference_steps args) (prompt args) (seed args)
            (size args) (size args))
    (Z.to_nat (num_warmup_runs args) + Z.to_nat (avg_runs args)).
Proof.
  unfold main. fold setup. cbv zeta.
  destruct loops_state as (Hev & Hlat & Himg). cbv zeta in Hev, Hlat, Himg.
  fold call warm runs.
  destruct (filter_repeat_call (warm + runs)) as [Hcalls _].
  clear Himg Hlat.
  destruct (rank env =? 0); [destruct (image _)|]; cbn [fst];
    rewrite ?filter_app, Hev, filter_app, Hcalls; simpl;
    now rewrite ?app_nil_r.
Qed.

(** X17: what the script reports. On a rank other than 0 it prints and
    saves nothing. On rank 0 it prints the mean of one latency per
    measured run, each the difference of the two clock reads around that
    run (warm-up runs are not timed), then saves the image of the last
    pipeline call as "output.png"; with no warm-up run and no measured run
    there is no such image, and the script ends in a [NameError] on
    [image] after printing. *)
Theorem driver_report :
  let latencies :=
    map (fun k => diff env (clock env (2 * k + 1)) (clock env (2 * k)))
      (seq 0 (Z.to_nat (avg_runs args))) in
  let total :=
    (Z.to_nat (num_warmup_runs args) + Z.to_nat (avg_runs args))%nat in
  (rank env <> 0 ->
   snd (main env args) = Done
   /\ filter is_output (fst (main env args)) = [])
  /\ (rank env = 0 -> total = 0%nat ->
      snd (main env args) = NameError "image"
      /\ filter is_output (fst (main env args)) =
           [Print (mean env [] (avg_runs args))])
  /\ (rank env = 0 -> (0 < total)%nat ->
      snd (main env args) = Done
      /\ filter is_output (fst (main env args)) =
           [Print (mean env latencies (avg_runs args));
            Save (images env (total - 1)) "output.png"]).
Proof.
  cbv zeta. fold warm runs.
  unfold main. fold setup. cbv zeta.
  destruct loops_state as (Hev & Hlat & Himg). cbv zeta in Hev, Hlat, Himg.
  destruct (filter_repeat_call (warm + runs)) as [_ Hout].
  assert (Hsetup : filter is_output setup = []) by reflexivity.
  split; [|split].
  - intros Hrank. apply Z.eqb_neq in Hrank. rewrite Hrank. cbn [fst snd].
    split; [reflexivity|].
    rewrite Hev, filter_app. fold call. now rewrite Hsetup, Hout.
  - intros Hrank Hnone. rewrite Hrank. cbn [Z.eqb].
    rewrite Himg, Hev, Hlat. rewrite Hnone.
    assert (Hruns : runs = 0%nat) by lia. rewrite Hruns.
    cbn [fst snd seq map repeat]. split; [reflexivity|].
    rewrite !filter_app, Hsetup. reflexivity.
  - intros Hrank Hsome. rewrite Hrank. cbn [Z.eqb].
    rewrite Himg, Hev, Hlat.
    destruct (warm + runs)%nat as [|m] eqn:Hm; [lia|].
    cbn [fst snd]. split; [reflexivity|].
    rewrite !filter_app. fold call.
    rewrite Hsetup, Hout. reflexivity.
Qed.

End DriverFacts.


(** * The further properties on the concrete instance *)

Lemma down_stage_channels_witness :
  indexable Fixture.long_channels = true
  /\ exists das,
       down_block_args (E := string) Fixture.long_channels = Ok das
       /\ List.length das = 2%nat
       /\ (forall a, nth_error das 0 = Some a -> da_in_channels a = 320)
       /\ (forall i a, nth_error das i = Some a ->
             da_out_channels a = nth i [320; 640; 1280] 0
             /\ da_temb_channels a = 1280)
       /\ (forall i a a',
             nth_error das i = Some a -> nth_error das (S i) = Some a' ->
             da_in_channels a' = da_out_channels a).
Proof.
  split; [reflexivity|].
  exact (down_stage_channels (E := string) Fixture.long_channels eq_refl).
Defined.

Lemma stage_tags_and_layers_witness :
  indexable Fixture.sdxl = true
  /\ exists das uas,
       down_block_args (E := string) Fixture.sdxl = Ok das
       /\ up_block_args (E := string) Fixture.sdxl = Ok uas
       /\ map (@da_down_block_type _ _) das =
            ["DownBlock2D"; "CrossAttnDownBlock2D"; "CrossAttnDownBlock2D"]
       /\ map (@ua_up_block_type _ _) uas =
            ["CrossAttnUpBlock2D"; "CrossAttnUpBlock2D"; "UpBlock2D"]
       /\ Forall (fun a => da_num_layers a = 2) das
       /\ Forall (fun a => ua_num_layers a = 3) uas.
Proof.
  split; [reflexivity|].
  exact (stage_tags_and_layers (E := string) Fixture.sdxl eq_refl).
Defined.

Lemma final_stage_is_last_channel_index_witness :
  indexable Fixture.long_channels = true
  /\ (List.length (down_block_types Fixture.long_channels)
      < List.length (block_out_channels Fixture.long_channels))%nat
  /\ exists das,
       down_block_args (E := string) Fixture.long_channels = Ok das
       /\ Forall (fun a => da_add_downsample a = true) das.
Proof.
  split; [reflexivity|]. split; [simpl; lia|].
  destruct (final_stage_is_last_channel_index (E := string)
              Fixture.long_channels eq_refl)
    as (das & uas & Hd & _ & _ & _ & Hall & _).
  exists das. split; [exact Hd|]. apply Hall. simpl. lia.
Defined.

Lemma up_stage_mirrors_down_stage_witness :
  valid_config Fixture.sdxl = true
  /\ exists das uas,
       down_block_args (E := string) Fixture.sdxl = Ok das
       /\ up_block_args (E := string) Fixture.sdxl = Ok uas
       /\ forall i u d,
            nth_error uas i = Some u ->
            nth_error das (3 - 1 - i) = Some d ->
            ua_out_channels u = da_out_channels d
            /\ ua_attn_num_head_channels u = da_attn_num_head_channels d
            /\ ua_transformer_layers_per_block u =
                 da_transformer_layers_per_block d.
Proof.
  split; [reflexivity|].
  exact (up_stage_mirrors_down_stage (E := string) Fixture.sdxl eq_refl).
Defined.

Lemma init_blocks_from_stage_args_witness :
  match Fixture.build Fixture.default with
  | Ok self =>
      List.length (down_blocks self) = 4%nat
      /\ List.length (up_blocks self) = 4%nat
  | Err _ => False
  end.
Proof.
  destruct (Fixture.build Fixture.default) as [self|e] eqn:Hb;
    [|vm_compute in Hb; discriminate].
  destruct (init_blocks_from_stage_args Fixture.layers Fixture.default Hb)
    as (das & uas & _ & _ & _ & _ & Hd & Hu).
  split; [exact Hd|exact Hu].
Defined.

Lemma init_layer_wiring_witness :
  match Fixture.build Fixture.sdxl with
  | Ok self =>
      exists mid,
        mid_block self = UNetMidBlock2DCrossAttn Fixture.layers mid
        /\ ma_in_channels mid = 1280
        /\ ma_temb_channels mid = 1280
        /\ ma_attn_num_head_channels mid = 20
        /\ ma_transformer_layers_per_block mid = 10
        /\ ma_resnet_groups mid = 32
  | Err _ => False
  end.
Proof.
  destruct (Fixture.build Fixture.sdxl) as [self|e] eqn:Hb;
    [|vm_compute in Hb; discriminate].
  exact (proj2 (proj2 (proj2
           (init_layer_wiring Fixture.layers Fixture.sdxl Hb)))).
Defined.

Lemma init_empty_lists_witness :
  Fixture.build Fixture.no_channels = Err IndexError
  /\ Fixture.build Fixture.no_down = Err IndexError.
Proof.
  split.
  - exact (proj1 (init_empty_lists Fixture.layers Fixture.no_channels)
             eq_refl).
  - exact (proj2 (init_empty_lists Fixture.layers Fixture.no_down)
             eq_refl (or_introl (ex_intro _ 8 eq_refl))).
Defined.

Lemma factory_error_propagates_witness :
  Fixture.build Fixture.unknown_type =
  Err (Raised "unknown down block type AttnDownBlock2D").
Proof.
  eapply (proj1 (factory_error_propagates Fixture.layers
                   Fixture.unknown_type eq_refl) [_] _ []).
  - reflexivity.
  - intros x [<-|[]]. eexists. reflexivity.
  - reflexivity.
Defined.

Lemma constructed_model_forward_errors_witness :
  match Fixture.build Fixture.sdxl with
  | Ok self => add_time_proj self <> None /\ add_embedding self <> None
  | Err _ => False
  end.
Proof.
  destruct (Fixture.build Fixture.sdxl) as [self|e] eqn:Hb;
    [|vm_compute in Hb; discriminate].
  exact (proj1 (proj2
           (constructed_model_forward_errors Fixture.layers Fixture.sdxl Hb))
           eq_refl).
Defined.

Lemma first_raising_block_witness :
  down_path
    ([Fixture.plain_down] ++ Fixture.failing_down "boom"
                          :: [Fixture.plain_down])
    (Fixture.Var "emb") (Fixture.Var "enc") (Fixture.Var "sample") []
  = Err (Raised "boom").
Proof.
  exact (proj1 (first_raising_block Fixture.lib)
           [Fixture.plain_down] (Fixture.failing_down "boom")
           [Fixture.plain_down] (Fixture.Var "emb") (Fixture.Var "enc")
           (Fixture.Var "sample") [] _ _ "boom" eq_refl eq_refl).
Defined.

Lemma forward_returns_witness :
  match Fixture.build Fixture.default with
  | Ok self =>
      exists out,
        forward Fixture.lib self (Fixture.Var "sample")
          (Fixture.Var "timesteps") (Fixture.Var "enc") None None = Ok out
  | Err _ => False
  end.
Proof.
  destruct (Fixture.build Fixture.default) as [self|e] eqn:Hb;
    [|vm_compute in Hb; discriminate].
  concrete_model self Hb.
  apply forward_returns.
  - intros H. discriminate H.
  - repeat (apply Forall_cons || apply Forall_nil);
      intros h temb e; eexists; reflexivity.
  - intros h temb e. eexists. reflexivity.
  - repeat (apply Forall_cons || apply Forall_nil);
      intros h temb res e; eexists; reflexivity.
Defined.

Lemma attention_free_paths_ignore_encoder_witness :
  down_path [Fixture.plain_down; Fixture.plain_down]
    (Fixture.Var "emb") (Fixture.Var "text A") (Fixture.Var "sample") []
  = down_path [Fixture.plain_down; Fixture.plain_down]
      (Fixture.Var "emb") (Fixture.Var "text B") (Fixture.Var "sample") [].
Proof.
  apply (proj1 (attention_free_paths_ignore_encoder
                  (T := Fixture.Sym) (E := string))).
  repeat constructor.
Defined.

Lemma skip_tensors_conserved_witness :
  match Fixture.run Fixture.lopsided None None with
  | Ok tr =>
      tr_skip_stack tr =
        tr_residue tr ++ List.concat (rev (tr_handed tr))
      /\ List.length (tr_skip_stack tr) =
           (List.length (tr_residue tr)
            + list_sum (map (@List.length _) (tr_handed tr)))%nat
  | Err _ => False
  end.
Proof.
  unfold Fixture.run.
  destruct (Fixture.build Fixture.lopsided) as [self|e] eqn:Hb;
    [|vm_compute in Hb; discriminate].
  cbn [bind].
  destruct (forward_trace _ _ _ _ _ _ _) as [tr|e] eqn:Hrun;
    [|concrete_model self Hb; vm_compute in Hrun; discriminate].
  destruct (skip_tensors_conserved Fixture.lib self _ _ _ _ _ Hrun)
    as (_ & Hsame & Hcount & _).
  split; assumption.
Defined.

Lemma longer_channel_list_leaves_conv_in_witness :
  match Fixture.build Fixture.long_channels with
  | Ok self =>
      match forward_trace Fixture.lib self (Fixture.Var "sample")
              (Fixture.Var "timesteps") (Fixture.Var "enc") None None with
      | Ok tr =>
          List.length (tr_skip_stack tr) = 7%nat
          /\ list_sum (map (@List.length _) (tr_handed tr)) = 6%nat
          /\ tr_residue tr = [conv_in self (Fixture.Var "sample")]
      | Err _ => False
      end
  | Err _ => False
  end.
Proof.
  destruct (Fixture.build Fixture.long_channels) as [self|e] eqn:Hb;
    [|vm_compute in Hb; discriminate].
  destruct (forward_trace _ _ _ _ _ _ _) as [tr|e] eqn:Hrun;
    [|concrete_model self Hb; vm_compute in Hrun; discriminate].
  apply (longer_channel_list_leaves_conv_in Fixture.lib Fixture.layers
           FixtureFacts.fixture_down_residuals
           FixtureFacts.fixture_up_resnets_count
           Fixture.long_channels eq_refl ltac:(simpl; lia)
           ltac:(simpl; lia) _ _ _ _ _ Hb Hrun).
Defined.

Lemma driver_report_witness :
  snd (Driver.main (counting_env 0) no_runs) = Driver.NameError "image"
  /\ snd (Driver.main (counting_env 1) no_runs) = Driver.Done
  /\ filter Driver.is_output
       (fst (Driver.main (counting_env 0) Driver.defaults)) =
     [Driver.Print 10%nat; Driver.Save 12%nat "output.png"].
Proof.
  split; [|split].
  - exact (proj1 (proj1 (proj2 (driver_report (counting_env 0) no_runs))
                    eq_refl eq_refl)).
  - exact (proj1 (proj1 (driver_report (counting_env 1) no_runs)
                    ltac:(discriminate))).
  - exact (proj2 (proj2 (proj2 (driver_report (counting_env 0)
                                  Driver.defaults))
                    eq_refl ltac:(simpl; lia))).
Defined.
